(** * form-kit: validation core, form helpers and the completeness sweep

    A shallow embedding of
    - [features/form-feature-validators.js]  (registry, built-in rules,
      runner, orchestrator),
    - [helpers/form-helpers.js]              (escapeHTML, showToast,
      validateForm, getFormData, validateDateTimeRange, resetValidation),
    - [core/form-init.js]                    (validateFormFields, the picker
      change handler and the checks of the submit handler),
    followed by the properties of the design document that concern them.

    Conventions of the embedding.
    - A JavaScript string is a [string]: a sequence of code units below 256.
    - A JavaScript value that may be of several types (an option of a
      validator configuration, the message handed to [showToast]) is a
      [JsVal].
    - An object used as a record of options is a [gmap string JsVal]; an
      absent property reads as [JUndefined].
    - The [Map] behind the registry is its entry list ([JsMap]), so that the
      absence of duplicate keys is a property to prove, not a typing fact.
    - The DOM is a store: a [Form] owns its controls, a control is an
      [Element]. A function that mutates a control returns the new control
      and its caller writes it back at the control's position.
    - [console.warn] and validator invocations are recorded in an event log,
      the probe through which "was (not) invoked" is stated.
    - [Date.parse] is implementation-defined outside the ISO format, so it
      is a parameter ([DateParser]). *)

From Stdlib Require Import ZArith Lia Ascii String List Bool.
From stdpp Require Import base option list strings gmap.

Local Open Scope string_scope.
Local Open Scope list_scope.

(* ===================================================================== *)
(** ** JavaScript values and strings                                       *)
(* ===================================================================== *)

Module Js.

Inductive JsVal :=
| JUndefined
| JNull
| JBool (b : bool)
| JStr (s : string)
| JArr (items : list string).   (* an array whose elements are strings *)

(** [Array.prototype.join] with the default separator. *)
Fixpoint join (items : list string) : string :=
  match items with
  | [] => ""
  | [s] => s
  | s :: rest => s +:+ "," +:+ join rest
  end.

(** ToString, as applied by a template literal [`${v}`]. *)
Definition ToString (v : JsVal) : string :=
  match v with
  | JUndefined => "undefined"
  | JNull => "null"
  | JBool true => "true"
  | JBool false => "false"
  | JStr s => s
  | JArr items => join items
  end.

(** ToBoolean: what [if (v)], [!v] and [v || d] test. *)
Definition truthy (v : JsVal) : bool :=
  match v with
  | JUndefined | JNull => false
  | JBool b => b
  | JStr s => negb (String.eqb s "")
  | JArr _ => true
  end.

(** [s] used as a condition: the empty string is the only falsy string. *)
Definition truthy_str (s : string) : bool := negb (String.eqb s "").

(** Strict equality [===] of a string with an arbitrary value. *)
Definition str_strict_eq (s : string) (v : JsVal) : bool :=
  match v with
  | JStr t => String.eqb s t
  | _ => false
  end.

(** [v === true]. *)
Definition is_true (v : JsVal) : bool :=
  match v with
  | JBool true => true
  | _ => false
  end.

(** Property read on an options object. *)
Definition prop (o : gmap string JsVal) (k : string) : JsVal :=
  default JUndefined (o !! k).

(** WhiteSpace and LineTerminator code units below 256. *)
Definition is_ws (c : ascii) : bool :=
  let n := nat_of_ascii c in
  (Nat.eqb n 9 || Nat.eqb n 10 || Nat.eqb n 11 || Nat.eqb n 12
   || Nat.eqb n 13 || Nat.eqb n 32 || Nat.eqb n 160)%bool.

Fixpoint trimStart (s : string) : string :=
  match s with
  | String c rest => if is_ws c then trimStart rest else s
  | EmptyString => EmptyString
  end.

Fixpoint rev_onto (s acc : string) : string :=
  match s with
  | String c rest => rev_onto rest (String c acc)
  | EmptyString => acc
  end.

Definition reverse (s : string) : string := rev_onto s "".

(** [String.prototype.trim]. *)
Definition trim (s : string) : string :=
  reverse (trimStart (reverse (trimStart s))).

Definition is_digit (c : ascii) : bool :=
  let n := nat_of_ascii c in (Nat.leb 48 n && Nat.leb n 57)%bool.

(** [s.replace(/\D/g, '')]. *)
Fixpoint digitsOnly (s : string) : string :=
  match s with
  | String c rest => if is_digit c then String c (digitsOnly rest) else digitsOnly rest
  | EmptyString => EmptyString
  end.

End Js.
Import Js.

(* ===================================================================== *)
(** ** [Map]: an ordered list of entries with string keys                  *)
(* ===================================================================== *)

Module JsMap.

Section Entries.
Context {V : Type}.

Definition t := list (string * V).

Definition empty : t := [].

(** [Map.prototype.get]: the value of the entry whose key is [k]. *)
Fixpoint get (m : t) (k : string) : option V :=
  match m with
  | [] => None
  | (k', v) :: rest => if String.eqb k' k then Some v else get rest k
  end.

(** [Map.prototype.set]: an existing entry keeps its place and takes the
    new value; otherwise a new entry is appended. *)
Fixpoint set (m : t) (k : string) (v : V) : t :=
  match m with
  | [] => [(k, v)]
  | (k', v') :: rest =>
      if String.eqb k' k then (k', v) :: rest else (k', v') :: set rest k v
  end.

Definition keys (m : t) : list string := map fst m.

(** Number of entries stored under [k]. *)
Definition count (m : t) (k : string) : nat :=
  length (List.filter (fun e => String.eqb (fst e) k) m).

End Entries.
Arguments t : clear implicits.

End JsMap.

(* ===================================================================== *)
(** ** The part of the DOM the library touches                             *)
(* ===================================================================== *)

Module Dom.

(** [DOMTokenList]: an ordered set of class names. *)
Definition contains (classes : list string) (c : string) : bool :=
  existsb (String.eqb c) classes.

Definition add (classes : list string) (c : string) : list string :=
  if contains classes c then classes else classes ++ [c].

Definition remove (classes : list string) (c : string) : list string :=
  List.filter (fun c' => negb (String.eqb c c')) classes.

(** A form control (input, select or textarea).
    - [willValidate]: the control is a candidate for constraint validation;
      the platform bars disabled and read-only controls, among others.
    - [builtinInvalid]: one of the platform's own validity states
      (valueMissing, typeMismatch, patternMismatch, ...) holds for the
      control's current value and attributes. The model does not derive it
      from them: statements hold for either value.
    - [customValidity]: the custom validity error message.
    - [feedback]: the text of the first [.invalid-feedback] element under
      the control's parent, when the control has a parent that holds one.
      The record holds it per control, as in a document where every
      control stands in a wrapper of its own. Two controls under one parent
      read the same element, and a text written through one of them is then
      read through the other; the record does not show that. *)
Record Element := mkElement {
  name : string;
  type : string;
  value : string;
  checked : bool;
  required : bool;
  classList : list string;
  willValidate : bool;
  builtinInvalid : bool;
  customValidity : string;
  feedback : option string
}.

Definition set_classList (e : Element) (classes : list string) : Element :=
  mkElement (name e) (type e) (value e) (checked e) (required e) classes
            (willValidate e) (builtinInvalid e) (customValidity e) (feedback e).

(** [input.setCustomValidity(message)]. *)
Definition setCustomValidity (e : Element) (msg : string) : Element :=
  mkElement (name e) (type e) (value e) (checked e) (required e) (classList e)
            (willValidate e) (builtinInvalid e) msg (feedback e).

(** [feedback.textContent = text], for a feedback element that exists. *)
Definition set_feedback (e : Element) (text : string) : Element :=
  mkElement (name e) (type e) (value e) (checked e) (required e) (classList e)
            (willValidate e) (builtinInvalid e) (customValidity e) (Some text).

(** The control suffers from a custom error or from a built-in one. *)
Definition suffering (e : Element) : bool :=
  builtinInvalid e || truthy_str (customValidity e).

(** [input.checkValidity()]: false exactly for a candidate for constraint
    validation that does not satisfy its constraints. *)
Definition checkValidity (e : Element) : bool :=
  negb (willValidate e && suffering e).

(** A form: its own class list, its controls in document order, and the
    [disabled] flag of its submit button when it has one. *)
Record Form := mkForm {
  formClasses : list string;
  controls : list Element;
  submitDisabled : option bool
}.

Definition set_formClasses (f : Form) (classes : list string) : Form :=
  mkForm classes (controls f) (submitDisabled f).

Definition set_controls (f : Form) (cs : list Element) : Form :=
  mkForm (formClasses f) cs (submitDisabled f).

Definition set_submitDisabled (f : Form) (d : option bool) : Form :=
  mkForm (formClasses f) (controls f) d.

(** [form.checkValidity()]: every control passes. *)
Definition form_checkValidity (f : Form) : bool :=
  forallb checkValidity (controls f).

(** Position of the first control named [n]. *)
Fixpoint index_of_name (cs : list Element) (n : string) : option nat :=
  match cs with
  | [] => None
  | e :: rest =>
      if String.eqb (name e) n then Some 0
      else option_map S (index_of_name rest n)
  end.

(** [form.querySelector(`[name="${n}"]`)]: the first control named [n],
    with its position in the store. The name is taken to need no escaping
    inside the selector. *)
Definition querySelector_name (f : Form) (n : string) : option (nat * Element) :=
  match index_of_name (controls f) n with
  | Some i => option_map (fun e => (i, e)) (controls f !! i)
  | None => None
  end.

(** The control at position [i] is replaced by its mutated version. *)
Definition write_back (f : Form) (i : nat) (e : Element) : Form :=
  set_controls f (<[i := e]> (controls f)).

End Dom.

(* ===================================================================== *)
(** ** features/form-feature-validators.js                                 *)
(* ===================================================================== *)

(** [new Date(s).getTime()]: the time value in milliseconds, [None] for
    NaN (an invalid date). *)
Class DateParser := Date_parse : string -> option Z.

Module Validators.

Record ValidationResult := mkResult {
  valid : bool;
  message : JsVal
}.

(** [(value, options, form) => { valid, message }] *)
Definition Validator : Type :=
  string -> gmap string JsVal -> Dom.Form -> ValidationResult.

Definition Registry : Type := JsMap.t Validator.

Definition registerValidator (validators : Registry) (name : string) (fn : Validator)
  : Registry :=
  JsMap.set validators name fn.

Definition getValidator (validators : Registry) (name : string) : option Validator :=
  JsMap.get validators name.

(** [validators.get(k)] for an arbitrary key: the keys of the registry are
    strings, so only a string can be equal to one of them. *)
Definition lookup (validators : Registry) (k : JsVal) : option Validator :=
  match k with
  | JStr s => JsMap.get validators s
  | _ => None
  end.

(** [v || d] for a message option. *)
Definition or_default (v : JsVal) (d : string) : JsVal :=
  if truthy v then v else JStr d.

Definition passed : ValidationResult := mkResult true (JStr "").

Definition dateRange `{DateParser} : Validator :=
  fun value options form =>
    let startField := prop options "startField" in
    let endField := prop options "endField" in
    let startInput := Dom.querySelector_name form (ToString startField) in
    let endInput := Dom.querySelector_name form (ToString endField) in
    match startInput, endInput with
    | Some (_, startInput), Some (_, endInput) =>
        let startValue := Dom.value startInput in
        let endValue := Dom.value endInput in
        if negb (truthy_str startValue) || negb (truthy_str endValue) then
          passed
        else
          match Date_parse startValue, Date_parse endValue with
          | Some startDate, Some endDate =>
              if (endDate <=? startDate)%Z then
                mkResult false
                  (or_default (prop options "message") "End date must be after start date")
              else passed
          | _, _ => mkResult false (JStr "Invalid date format")
          end
    | _, _ => passed
    end.

Definition phone : Validator :=
  fun value options form =>
    if negb (truthy_str value) then passed
    else
      let digits := String.length (digitsOnly value) in
      if (digits <? 10)%nat || (15 <? digits)%nat then
        mkResult false
          (or_default (prop options "message") "Phone number must be 10-15 digits")
      else passed.

Definition matchField : Validator :=
  fun value options form =>
    let field := prop options "field" in
    let message := prop options "message" in
    match Dom.querySelector_name form (ToString field) with
    | None => passed
    | Some (_, targetInput) =>
        if negb (String.eqb value (Dom.value targetInput)) then
          mkResult false (or_default message ("Must match " +:+ ToString field))
        else passed
    end.

Definition conditionalRequired : Validator :=
  fun value options form =>
    let field := prop options "field" in
    let equals := prop options "equals" in
    let message := prop options "message" in
    match Dom.querySelector_name form (ToString field) with
    | None => passed
    | Some (_, targetInput) =>
        let conditionMet :=
          if String.eqb (Dom.type targetInput) "checkbox" then
            if is_true equals then Dom.checked targetInput
            else negb (Dom.checked targetInput)
          else str_strict_eq (Dom.value targetInput) equals in
        if conditionMet && negb (truthy_str (trim value)) then
          mkResult false (or_default message "This field is required")
        else passed
    end.

(** The registry as the module leaves it once loaded. *)
Definition validators `{DateParser} : Registry :=
  registerValidator
    (registerValidator
       (registerValidator
          (registerValidator JsMap.empty "dateRange" dateRange)
          "phone" phone)
       "matchField" matchField)
    "conditionalRequired" conditionalRequired.

(** A validator configuration entry: a bare name or an object
    [{ name, ...options }]. *)
Inductive ValidatorConfig :=
| CfgName (s : string)
| CfgObject (o : gmap string JsVal).

(** What [runValidators] does that is visible from outside the control:
    [console.warn] lines and validator invocations, in order. *)
Inductive Event :=
| Warn (text : string)
| Invoke (validatorName : string) (value : string) (options : gmap string JsVal).

Definition dquote : string := String (ascii_of_nat 34) EmptyString.

Definition not_found_text (validatorName : JsVal) : string :=
  "Validator " +:+ dquote +:+ ToString validatorName +:+ dquote +:+ " not found".

Definition applyInvalidState (input : Dom.Element) (message : JsVal) : Dom.Element :=
  let input := Dom.set_classList input (Dom.remove (Dom.classList input) "is-valid") in
  let input := Dom.set_classList input (Dom.add (Dom.classList input) "is-invalid") in
  if truthy message then
    let input := Dom.setCustomValidity input (ToString message) in
    match Dom.feedback input with
    | Some _ => Dom.set_feedback input (ToString message)
    | None => input
    end
  else input.

Definition applyValidState (input : Dom.Element) : Dom.Element :=
  let input := Dom.set_classList input (Dom.remove (Dom.classList input) "is-invalid") in
  let input := Dom.set_classList input (Dom.add (Dom.classList input) "is-valid") in
  Dom.setCustomValidity input "".

Definition clearValidationState (input : Dom.Element) : Dom.Element :=
  let input :=
    Dom.set_classList input
      (Dom.remove (Dom.remove (Dom.classList input) "is-valid") "is-invalid") in
  Dom.setCustomValidity input "".

Record RunOutcome := mkRun {
  result : bool;            (* the returned boolean *)
  element : Dom.Element;    (* the control as the call leaves it *)
  events : list Event       (* what the call logged and invoked *)
}.

Definition config_name (config : ValidatorConfig) : JsVal :=
  match config with
  | CfgName s => JStr s
  | CfgObject o => prop o "name"
  end.

Definition config_options (config : ValidatorConfig) : gmap string JsVal :=
  match config with
  | CfgName _ => ∅
  | CfgObject o => o
  end.

(** The [for (const config of validatorConfigs)] loop and what follows it. *)
Fixpoint run_custom (validators : Registry) (input : Dom.Element)
    (validatorConfigs : list ValidatorConfig) (form : Dom.Form) : RunOutcome :=
  match validatorConfigs with
  | [] => mkRun true (applyValidState input) []
  | config :: rest =>
      let validatorName := config_name config in
      let options := config_options config in
      match lookup validators validatorName with
      | None =>
          let r := run_custom validators input rest form in
          mkRun (result r) (element r) (Warn (not_found_text validatorName) :: events r)
      | Some validator =>
          let res := validator (Dom.value input) options form in
          let call := Invoke (ToString validatorName) (Dom.value input) options in
          if negb (valid res) then
            mkRun false (applyInvalidState input (message res)) [call]
          else
            let r := run_custom validators input rest form in
            mkRun (result r) (element r) (call :: events r)
      end
  end.

Definition runValidators (validators : Registry) (input : Dom.Element)
    (validatorConfigs : list ValidatorConfig) (form : Dom.Form) : RunOutcome :=
  if negb (Dom.checkValidity input) then
    mkRun false (applyInvalidState input JUndefined) []
  else run_custom validators input validatorConfigs form.

(** One runner call made by the orchestrator. *)
Record FieldRun := mkFieldRun {
  fieldName : string;
  fieldValid : bool;
  fieldEvents : list Event
}.

Record FormOutcome := mkFormOutcome {
  allValid : bool;            (* the returned boolean *)
  form_after : Dom.Form;      (* the form as the call leaves it *)
  runs : list FieldRun        (* the runner calls, in order *)
}.

(** One turn of the loop over [Object.entries(fieldValidators)]. *)
Definition validate_entry (validators : Registry) (acc : FormOutcome)
    (entry : string * list ValidatorConfig) : FormOutcome :=
  let '(name, validatorConfigs) := entry in
  let form := form_after acc in
  match Dom.querySelector_name form name with
  | None => acc
  | Some (i, input) =>
      let r := runValidators validators input validatorConfigs form in
      mkFormOutcome
        (if negb (result r) then false else allValid acc)
        (Dom.write_back form i (element r))
        (runs acc ++ [mkFieldRun name (result r) (events r)])
  end.

(** [fieldValidators] is given by its entries, in the order
    [Object.entries] lists them. *)
Definition validateFormWithCustom (validators : Registry) (form : Dom.Form)
    (fieldValidators : list (string * list ValidatorConfig)) : FormOutcome :=
  let start :=
    if negb (Dom.form_checkValidity form) then
      mkFormOutcome false
        (Dom.set_formClasses form (Dom.add (Dom.formClasses form) "was-validated")) []
    else mkFormOutcome true form [] in
  let acc := fold_left (validate_entry validators) fieldValidators start in
  if negb (allValid acc) then
    mkFormOutcome false
      (Dom.set_formClasses (form_after acc)
         (Dom.add (Dom.formClasses (form_after acc)) "was-validated"))
      (runs acc)
  else acc.

End Validators.

(* ===================================================================== *)
(** ** helpers/form-helpers.js                                             *)
(* ===================================================================== *)

Module Helpers.
Import Validators.

Definition c_amp : ascii := ascii_of_nat 38.
Definition c_lt : ascii := ascii_of_nat 60.
Definition c_gt : ascii := ascii_of_nat 62.
Definition c_quot : ascii := ascii_of_nat 34.
Definition c_apos : ascii := ascii_of_nat 39.

(** The character class of the regular expression: ampersand, less-than,
    greater-than, double quote, apostrophe. *)
Definition is_special (c : ascii) : bool :=
  Ascii.eqb c c_amp || Ascii.eqb c c_lt || Ascii.eqb c c_gt
  || Ascii.eqb c c_quot || Ascii.eqb c c_apos.

(** The object [map] of [escapeHTML], read at a matched character. *)
Definition entity_map (m : ascii) : string :=
  if Ascii.eqb m c_amp then "&amp;"
  else if Ascii.eqb m c_lt then "&lt;"
  else if Ascii.eqb m c_gt then "&gt;"
  else if Ascii.eqb m c_quot then "&quot;"
  else "&#039;".

(** [text.replace(re, m => map[m])], [re] being the global regular
    expression over that class. *)
Fixpoint replace_special (text : string) : string :=
  match text with
  | EmptyString => EmptyString
  | String c rest =>
      if is_special c then entity_map c +:+ replace_special rest
      else String c (replace_special rest)
  end.

Definition escapeHTML (text : JsVal) : JsVal :=
  match text with
  | JStr s => JStr (replace_special s)
  | _ => text                     (* typeof text !== 'string' *)
  end.

Definition validateForm (form : Dom.Form) : bool * Dom.Form :=
  if negb (Dom.form_checkValidity form) then
    (false, Dom.set_formClasses form (Dom.add (Dom.formClasses form) "was-validated"))
  else (true, form).

Definition resetValidation (form : Dom.Form) : Dom.Form :=
  let form :=
    Dom.set_formClasses form (Dom.remove (Dom.formClasses form) "was-validated") in
  Dom.set_controls form
    (map (fun input => Dom.setCustomValidity input "") (Dom.controls form)).

(** One turn of the loop of [getFormData] over the entries of the
    [FormData]: a key seen before with a truthy value collects its values in
    an array, any other key takes the value. [data[key]] is read among the
    properties stored in [data]; the members that an object literal inherits
    from [Object.prototype] (constructor, toString, __proto__, ...) are not
    modelled, so the definition stands for keys that are none of them. *)
Definition collect (data : gmap string JsVal) (entry : string * string)
  : gmap string JsVal :=
  let '(key, value) := entry in
  let current := prop data key in
  if truthy current then
    match current with
    | JArr items => <[key := JArr (items ++ [value])]> data
    | JStr first => <[key := JArr [first; value]]> data
    | _ => data
    end
  else <[key := JStr value]> data.

(** [entries] is the entry list of [new FormData(form)], which the platform
    builds. *)
Definition getFormData (entries : list (string * string)) : gmap string JsVal :=
  fold_left collect entries ∅.

(** [new Date(v).getTime()] for an arbitrary argument: a string is parsed,
    an array is converted to a string first, anything else is converted to
    a number. *)
Definition new_Date `{DateParser} (v : JsVal) : option Z :=
  match v with
  | JStr s => Date_parse s
  | JArr items => Date_parse (join items)
  | JBool true => Some 1%Z
  | JBool false => Some 0%Z
  | JNull => Some 0%Z
  | JUndefined => None
  end.

Definition validateDateTimeRange `{DateParser} (startDateTime endDateTime : JsVal)
  : ValidationResult :=
  if negb (truthy startDateTime) || negb (truthy endDateTime) then
    mkResult false (JStr "Both start and end date/time are required.")
  else
    match new_Date startDateTime, new_Date endDateTime with
    | Some start, Some end_ =>
        if (end_ <=? start)%Z then
          mkResult false (JStr "End date/time must be after start date/time.")
        else mkResult true (JStr "")
    | _, _ => mkResult false (JStr "Invalid date/time format.")
    end.



(** An attribute inside a tag: the name, an equals sign, the value between
    double quotes. *)
Definition attr (k v : string) : string :=
  " " +:+ k +:+ "=" +:+ dquote +:+ v +:+ dquote.

Definition nl : string := String (ascii_of_nat 10) EmptyString.



(** What the template puts between the tags of the toast body. *)
Definition toast_body (message : JsVal) : string :=
  let safeMessage := escapeHTML message in
  ToString safeMessage.




End Helpers.

(* ===================================================================== *)
(** ** core/form-init.js                                                   *)
(* ===================================================================== *)

Module FormInit.

(** The body of [requiredInputs.forEach]: the control as the turn leaves it
    and whether the turn keeps [allValid]. *)
Definition sweep_input (input : Dom.Element) : bool * Dom.Element :=
  let classes := Dom.classList input in
  let touched := Dom.contains classes "was-validated-field" in
  let empty :=
    if String.eqb (Dom.type input) "select-one" then
      negb (truthy_str (Dom.value input)) || String.eqb (Dom.value input) ""
    else
      negb (truthy_str (Dom.value input)) || String.eqb (trim (Dom.value input)) "" in
  if empty then
    let classes := Dom.remove classes "is-valid" in
    let classes := if touched then Dom.add classes "is-invalid" else classes in
    (false, Dom.set_classList input classes)
  else
    let classes := Dom.remove classes "is-invalid" in
    let classes := Dom.add classes "is-valid" in
    (true, Dom.set_classList input classes).

(** The loop over [form.querySelectorAll('[required]')], threading
    [allValid]. *)
Fixpoint sweep (cs : list Dom.Element) (allValid : bool) : bool * list Dom.Element :=
  match cs with
  | [] => (allValid, [])
  | input :: rest =>
      if Dom.required input then
        let '(keep, input') := sweep_input input in
        let '(allValid', rest') := sweep rest (if keep then allValid else false) in
        (allValid', input' :: rest')
      else
        let '(allValid', rest') := sweep rest allValid in
        (allValid', input :: rest')
  end.

Definition validateFormFields (form : Dom.Form) : bool * Dom.Form :=
  let '(allValid, cs) := sweep (Dom.controls form) true in
  let form := Dom.set_controls form cs in
  let form :=
    match Dom.submitDisabled form with
    | Some _ => Dom.set_submitDisabled form (Some (negb allValid))
    | None => form
    end in
  (allValid, form).

(** The [onChange] handler installed on the picker of the control at
    position [i], up to the optional configured callback. *)
Definition onChange (form : Dom.Form) (i : nat) : Dom.Form :=
  match Dom.controls form !! i with
  | None => form
  | Some input =>
      let input := Dom.setCustomValidity input "" in
      let input :=
        Dom.set_classList input (Dom.add (Dom.classList input) "was-validated-field") in
      snd (validateFormFields (Dom.write_back form i input))
  end.

(** How the submit handler leaves its checks. *)
Inductive SubmitChecks :=
| NativeRejected                       (* [validateForm] failed *)
| RangeRejected (message : JsVal)      (* the date range was refused *)
| Accepted (formData : gmap string JsVal)
| Thrown.                              (* no control is named endDateTime *)

(** The submit handler up to the point where it formats the dates and
    submits, without the optional toast. [entries] is the entry list of the
    [FormData] of the form. *)
Definition submit_checks `{DateParser} (form : Dom.Form)
    (entries : list (string * string)) : SubmitChecks * Dom.Form :=
  let '(ok, form) := Helpers.validateForm form in
  if negb ok then (NativeRejected, form)
  else
    let formData := Helpers.getFormData entries in
    let dateValidation :=
      Helpers.validateDateTimeRange (prop formData "startDateTime")
        (prop formData "endDateTime") in
    if negb (Validators.valid dateValidation) then
      match Dom.querySelector_name form "endDateTime" with
      | None => (Thrown, form)
      | Some (i, endInput) =>
          let endInput :=
            Dom.setCustomValidity endInput
              (ToString (Validators.message dateValidation)) in
          let form := Dom.write_back form i endInput in
          let form :=
            Dom.set_formClasses form (Dom.add (Dom.formClasses form) "was-validated") in
          (RangeRejected (Validators.message dateValidation), form)
      end
    else (Accepted formData, form).

End FormInit.

(* ===================================================================== *)
(** ** A sample date parser                                                *)
(* ===================================================================== *)

(** The fixed-width form [YYYY-MM-DDTHH:mm] that a datetime-local control
    yields, read as UTC. It instantiates [DateParser] where a statement is
    evaluated on concrete dates; every theorem holds for any parser. *)
Module IsoMinutes.

Definition digit (c : ascii) : option Z :=
  if is_digit c then Some (Z.of_nat (nat_of_ascii c) - 48)%Z else None.

Fixpoint number (cs : list ascii) (acc : Z) : option Z :=
  match cs with
  | [] => Some acc
  | c :: rest =>
      match digit c with
      | Some d => number rest (10 * acc + d)%Z
      | None => None
      end
  end.

(** Days between 1970-01-01 and the given civil date. *)
Definition days_from_civil (y m d : Z) : Z :=
  let y' := (if m <=? 2 then y - 1 else y)%Z in
  let era := (y' / 400)%Z in
  let yoe := (y' - era * 400)%Z in
  let mp := ((m + 9) mod 12)%Z in
  let doy := ((153 * mp + 2) / 5 + d - 1)%Z in
  let doe := (yoe * 365 + yoe / 4 - yoe / 100 + doy)%Z in
  (era * 146097 + doe - 719468)%Z.

Definition is_char (c : ascii) (n : nat) : bool := Ascii.eqb c (ascii_of_nat n).

Definition parse (s : string) : option Z :=
  match list_ascii_of_string s with
  | [y1; y2; y3; y4; s1; m1; m2; s2; d1; d2; t; h1; h2; s3; n1; n2] =>
      if is_char s1 45 && is_char s2 45 && is_char t 84 && is_char s3 58 then
        match number [y1; y2; y3; y4] 0, number [m1; m2] 0, number [d1; d2] 0,
              number [h1; h2] 0, number [n1; n2] 0 with
        | Some y, Some m, Some d, Some h, Some n =>
            if ((1 <=? m) && (m <=? 12) && (1 <=? d) && (d <=? 31)
                && (h <=? 23) && (n <=? 59))%Z then
              Some ((((days_from_civil y m d) * 24 + h) * 60 + n) * 60000)%Z
            else None
        | _, _, _, _, _ => None
        end
      else None
  | _ => None
  end.

Definition parser : DateParser := parse.

End IsoMinutes.

(* ===================================================================== *)
(** * Vocabulary of the properties                                         *)
(* ===================================================================== *)

(** The states the registry can be in: the empty [Map] the module creates,
    changed by calls of [registerValidator] only. *)
Inductive reachable : Validators.Registry -> Prop :=
| reach_new : reachable JsMap.empty
| reach_register validators name fn :
    reachable validators ->
    reachable (Validators.registerValidator validators name fn).

(** No control of the form is named [n]. *)
Definition absent (form : Dom.Form) (n : string) : Prop :=
  forall e, In e (Dom.controls form) -> Dom.name e <> n.

(** [e], at position [i], is the first control of the form named [n]: the
    field that the name [n] resolves to. *)
Definition resolves (form : Dom.Form) (n : string) (i : nat) (e : Dom.Element) : Prop :=
  Dom.controls form !! i = Some e
  /\ Dom.name e = n
  /\ forall j e', j < i -> Dom.controls form !! j = Some e' -> Dom.name e' <> n.

(** Concrete forms, options and validators on which statements are
    evaluated. *)
Module Samples.

(** A text control that takes part in constraint validation, has no
    built-in validity problem, no message and no feedback element. *)
Definition field (name value : string) : Dom.Element :=
  Dom.mkElement name "text" value false false [] true false "" None.

(** A form with a start and an end control. *)
Definition range_form (startValue endValue : string) : Dom.Form :=
  Dom.mkForm [] [field "startDateTime" startValue; field "endDateTime" endValue] None.

(** [{ name: 'dateRange', startField: 'startDateTime', endField: 'endDateTime' }] *)
Definition range_options : gmap string JsVal :=
  <["name" := JStr "dateRange"]>
    (<["startField" := JStr "startDateTime"]>
       (<["endField" := JStr "endDateTime"]> ∅)).

(** A validator that rejects every value and gives no message. *)
Definition silent : Validators.Validator :=
  fun value options form => Validators.mkResult false (JStr "").

(** A validator that rejects every value with a message. *)
Definition strict : Validators.Validator :=
  fun value options form => Validators.mkResult false (JStr "Not allowed").

(** The loaded registry with the two validators above added. *)
Definition registry : Validators.Registry :=
  Validators.registerValidator
    (Validators.registerValidator (@Validators.validators IsoMinutes.parser)
       "silent" silent)
    "strict" strict.

(** A valid control whose parent holds a feedback element with a text. *)
Definition with_feedback (name value : string) : Dom.Element :=
  Dom.mkElement name "text" value false false [] true false ""
    (Some "Please choose a value.").

(** A read-only picker control, barred from constraint validation, that
    holds a custom-validity message. *)
Definition picker (name value message : string) : Dom.Element :=
  Dom.mkElement name "text" value false true ["flatpickr-input"] false false
    message None.

(** A control with a built-in validity problem. *)
Definition native_invalid (name value : string) : Dom.Element :=
  Dom.mkElement name "email" value false false [] true true "" None.

(** A form whose native check fails, and a map that names its three
    fields and one that does not exist. *)
Definition three_fields : Dom.Form :=
  Dom.mkForm []
    [field "phone" "12345"; native_invalid "email" "x"; field "note" "hello"] None.

Definition three_map : list (string * list Validators.ValidatorConfig) :=
  [("phone", [Validators.CfgName "phone"]);
   ("ghost", [Validators.CfgName "strict"]);
   ("email", []);
   ("note", [Validators.CfgName "nope"])].

(** A required text control that has not been touched. *)
Definition required_field (name value : string) : Dom.Element :=
  Dom.mkElement name "text" value false true [] true false "" None.

End Samples.

(** On a form whose start and end fields hold [s] and [e], the registry's
    [dateRange] and the submit path's [validateDateTimeRange] give the same
    verdict. *)
Definition range_checks_agree `{DateParser} (s e : string) : Prop :=
  forall (value : string) (options : gmap string JsVal) (form : Dom.Form)
         i startInput j endInput,
    resolves form (ToString (prop options "startField")) i startInput ->
    resolves form (ToString (prop options "endField")) j endInput ->
    Dom.value startInput = s ->
    Dom.value endInput = e ->
    Validators.valid (Validators.dateRange value options form)
    = Validators.valid (Helpers.validateDateTimeRange (JStr s) (JStr e)).

(** The rule for two filled strings as the design document words it:
    invalid when either fails to parse, otherwise valid exactly when the end
    is strictly after the start. *)
Definition end_after_start `{DateParser} (s e : string) : bool :=
  match Date_parse s, Date_parse e with
  | Some startDate, Some endDate => (startDate <? endDate)%Z
  | _, _ => false
  end.

(** The two style markers of a control are exclusive: these are the
    invalid and the valid visual state. *)
Definition marked_invalid (e : Dom.Element) : Prop :=
  Dom.contains (Dom.classList e) "is-invalid" = true
  /\ Dom.contains (Dom.classList e) "is-valid" = false.

Definition marked_valid (e : Dom.Element) : Prop :=
  Dom.contains (Dom.classList e) "is-valid" = true
  /\ Dom.contains (Dom.classList e) "is-invalid" = false.

(** The event the runner logs for an entry it evaluates: a warning for an
    unregistered name, the invocation otherwise. *)
Definition expected_event (validators : Validators.Registry) (value : string)
    (config : Validators.ValidatorConfig) : Validators.Event :=
  match Validators.lookup validators (Validators.config_name config) with
  | None => Validators.Warn (Validators.not_found_text (Validators.config_name config))
  | Some _ =>
      Validators.Invoke (ToString (Validators.config_name config)) value
        (Validators.config_options config)
  end.

(** The entry at position [i] is the first whose validator returns an
    invalid result, [res]. *)
Definition first_failure (validators : Validators.Registry) (input : Dom.Element)
    (configs : list Validators.ValidatorConfig) (form : Dom.Form)
    (i : nat) (res : Validators.ValidationResult) : Prop :=
  (exists config validator,
      configs !! i = Some config
      /\ Validators.lookup validators (Validators.config_name config) = Some validator
      /\ validator (Dom.value input) (Validators.config_options config) form = res
      /\ Validators.valid res = false)
  /\ (forall j config validator,
        j < i ->
        configs !! j = Some config ->
        Validators.lookup validators (Validators.config_name config) = Some validator ->
        Validators.valid
          (validator (Dom.value input) (Validators.config_options config) form) = true).

(** The runner returns false, has evaluated the entries up to position [i]
    and no other, whatever follows them, and leaves the control in the
    invalid state. *)
Definition stops_at (validators : Validators.Registry) (input : Dom.Element)
    (configs : list Validators.ValidatorConfig) (form : Dom.Form) (i : nat) : Prop :=
  let r := Validators.runValidators validators input configs form in
  Validators.result r = false
  /\ Validators.events r
     = map (expected_event validators (Dom.value input)) (take (S i) configs)
  /\ (forall more,
        Validators.runValidators validators input (take (S i) configs ++ more) form = r)
  /\ marked_invalid (Validators.element r).

(** The control [after] carries [message] as its custom-validity message,
    mirrored in the feedback element when [before] has one. *)
Definition carries_message (before after : Dom.Element) (message : JsVal) : Prop :=
  Dom.customValidity after = ToString message
  /\ (forall old, Dom.feedback before = Some old ->
                  Dom.feedback after = Some (ToString message)).

(** C1 as the design document words it. *)
Definition short_circuit_claim (validators : Validators.Registry) (input : Dom.Element)
    (configs : list Validators.ValidatorConfig) (form : Dom.Form)
    (i : nat) (res : Validators.ValidationResult) : Prop :=
  Dom.checkValidity input = true ->
  first_failure validators input configs form i res ->
  stops_at validators input configs form i
  /\ carries_message input
       (Validators.element (Validators.runValidators validators input configs form))
       (Validators.message res).




(** C10 as the design document words it: the native check fails, the
    runner returns false through the native branch, invokes and logs
    nothing, keeps the message, and no later run of the runner on the
    control can succeed. *)
Definition native_rejection_claim (validators : Validators.Registry)
    (input : Dom.Element) (configs : list Validators.ValidatorConfig)
    (form : Dom.Form) : Prop :=
  let r := Validators.runValidators validators input configs form in
  Dom.checkValidity input = false
  /\ Validators.result r = false
  /\ Validators.events r = []
  /\ Dom.customValidity (Validators.element r) = Dom.customValidity input
  /\ (forall validators' configs' form',
        Validators.result
          (Validators.runValidators validators' (Validators.element r) configs' form')
        = false).

(** The names of the controls of a form, in document order. *)
Definition names (form : Dom.Form) : list string := map Dom.name (Dom.controls form).

(** The entry's field name resolves to a control of the form. *)
Definition exists_in (form : Dom.Form)
    (entry : string * list Validators.ValidatorConfig) : bool :=
  match Dom.querySelector_name form (fst entry) with
  | Some _ => true
  | None => false
  end.

(** C4 as the design document words it: after the call the form carries
    the marker. *)
Definition was_validated_claim (validators : Validators.Registry) (form : Dom.Form)
    (fieldValidators : list (string * list Validators.ValidatorConfig)) : Prop :=
  Dom.contains
    (Dom.formClasses
       (Validators.form_after
          (Validators.validateFormWithCustom validators form fieldValidators)))
    "was-validated" = true.

(** The field has been interacted with since the last reset. *)
Definition touched (e : Dom.Element) : bool :=
  Dom.contains (Dom.classList e) "was-validated-field".

(** The field is non-empty: a select-type field has a non-empty selected
    value, any other field holds a character that is not white space. *)
Definition filled (e : Dom.Element) : bool :=
  if String.eqb (Dom.type e) "select-one" then negb (String.eqb (Dom.value e) "")
  else existsb (fun c => negb (is_ws c)) (list_ascii_of_string (Dom.value e)).

(** Every required field of the form is non-empty. *)
Definition complete (form : Dom.Form) : bool :=
  forallb (fun e => if Dom.required e then filled e else true) (Dom.controls form).

(** The submit control of [after] is enabled exactly when [form] is
    complete. *)
Definition submit_follows_completeness (form after : Dom.Form) : Prop :=
  forall disabled, Dom.submitDisabled form = Some disabled ->
    Dom.submitDisabled after = Some (negb (complete form)).

(** C6 as the design document words it: on a required field that is not
    touched the sweep applies neither style marker, and the submit control
    is enabled exactly when the form is complete. *)
Definition sweep_claim (form : Dom.Form) : Prop :=
  let after := snd (FormInit.validateFormFields form) in
  (forall i input input',
      Dom.controls form !! i = Some input ->
      Dom.controls after !! i = Some input' ->
      Dom.required input = true ->
      touched input = false ->
      (Dom.contains (Dom.classList input') "is-valid" = true ->
       Dom.contains (Dom.classList input) "is-valid" = true)
      /\ (Dom.contains (Dom.classList input') "is-invalid" = true ->
          Dom.contains (Dom.classList input) "is-invalid" = true))
  /\ submit_follows_completeness form after.








(* ===================================================================== *)
(** * Vocabulary of the further properties                                 *)
(* ===================================================================== *)

(** The entry does not make the runner fail on the control: its name is
    unregistered, or its validator accepts the value of the control. *)
Definition entry_passes (validators : Validators.Registry) (input : Dom.Element)
    (form : Dom.Form) (config : Validators.ValidatorConfig) : bool :=
  match Validators.lookup validators (Validators.config_name config) with
  | Some validator =>
      Validators.valid
        (validator (Dom.value input) (Validators.config_options config) form)
  | None => true
  end.

(** Two states of a control that differ at most in the class list, the
    custom-validity message and the feedback text. *)
Definition same_control (e e' : Dom.Element) : Prop :=
  Dom.name e' = Dom.name e
  /\ Dom.type e' = Dom.type e
  /\ Dom.value e' = Dom.value e
  /\ Dom.checked e' = Dom.checked e
  /\ Dom.required e' = Dom.required e
  /\ Dom.willValidate e' = Dom.willValidate e
  /\ Dom.builtinInvalid e' = Dom.builtinInvalid e.

(** The class [c] is none of the two style markers. *)
Definition not_a_marker (c : string) : Prop := c <> "is-valid" /\ c <> "is-invalid".

(** Number of digits in a string. *)
Definition digit_count (s : string) : nat :=
  length (List.filter is_digit (list_ascii_of_string s)).

(** The string holds nothing but white space. *)
Definition blank (s : string) : bool := forallb is_ws (list_ascii_of_string s).

(** What the runner may do to a control: change its style markers, its
    message and its feedback text, and nothing else. *)
Definition markers_only (e e' : Dom.Element) : Prop :=
  same_control e e'
  /\ forall c, not_a_marker c ->
       Dom.contains (Dom.classList e') c = Dom.contains (Dom.classList e) c.

(** Two states of a control that differ at most in the feedback text, the
    one thing a control reads from an element it may share with another
    control under the same parent. *)
Definition same_but_feedback (e e' : Dom.Element) : Prop :=
  same_control e e'
  /\ Dom.classList e' = Dom.classList e
  /\ Dom.customValidity e' = Dom.customValidity e.

(* ===================================================================== *)
(** ** helpers/form-helpers.js and core/form-init.js, further functions    *)
(* ===================================================================== *)

(** [date.toISOString()] for a valid time value. *)
Class IsoFormatter := Date_toISOString : Z -> string.

Module HelpersRest.
Import Validators Helpers.

(** A button: its content as markup, its [disabled] flag and the
    [originalText] entry of its [dataset], absent until written. Reading
    [innerHTML] is taken to return what was last assigned to it. *)
Record Button := mkButton {
  innerHTML : string;
  disabled : bool;
  originalText : option string
}.

(** The markup [setButtonLoading] shows while loading. *)
Definition spinner : string :=
  nl +:+ "      <span" +:+ attr "class" "spinner-border spinner-border-sm me-2"
     +:+ attr "role" "status" +:+ attr "aria-hidden" "true" +:+ "></span>" +:+ nl
  +:+ "      Submitting..." +:+ nl +:+ "    ".

Definition setButtonLoading (button : Button) (loading : bool) : Button :=
  if loading then
    let button := mkButton (innerHTML button) (disabled button)
                    (Some (innerHTML button)) in
    let button := mkButton (innerHTML button) true (originalText button) in
    mkButton spinner (disabled button) (originalText button)
  else
    let button := mkButton (innerHTML button) false (originalText button) in
    let restored :=
      match originalText button with
      | Some text => if truthy_str text then text else innerHTML button
      | None => innerHTML button
      end in
    mkButton restored (disabled button) (originalText button).

(** [formatDateTimeForAPI]: [None] stands for [null]. *)
Definition formatDateTimeForAPI `{DateParser} `{IsoFormatter} (dateTimeString : JsVal)
  : option string :=
  if negb (truthy dateTimeString) then None
  else
    match new_Date dateTimeString with
    | None => None
    | Some date => Some (Date_toISOString date)
    end.

End HelpersRest.

Module FormInitRest.
Import Validators Helpers HelpersRest.

Definition or_null (formatted : option string) : JsVal :=
  match formatted with
  | Some text => JStr text
  | None => JNull
  end.

(** The object [submissionData] of the submit handler: the form data with
    the two dates replaced by their formatted versions. *)
Definition submissionData `{DateParser} `{IsoFormatter} (formData : gmap string JsVal)
  : gmap string JsVal :=
  <["endDateTime" := or_null (formatDateTimeForAPI (prop formData "endDateTime"))]>
    (<["startDateTime" :=
         or_null (formatDateTimeForAPI (prop formData "startDateTime"))]> formData).

(** [input.classList.remove('is-valid', 'is-invalid', 'was-validated-field')] *)
Definition strip_marks (input : Dom.Element) : Dom.Element :=
  Dom.set_classList input
    (Dom.remove
       (Dom.remove (Dom.remove (Dom.classList input) "is-valid") "is-invalid")
       "was-validated-field").

(** The listener of the reset event. [clear] is what clearing the pickers
    of the form does to the form. *)
Definition on_reset (clear : Dom.Form -> Dom.Form) (form : Dom.Form) : Dom.Form :=
  let form := resetValidation form in
  let form := clear form in
  let form := Dom.set_controls form (map strip_marks (Dom.controls form)) in
  snd (FormInit.validateFormFields form).

(** The listener bound to the input (or change) and blur events of the
    required control at position [i]. *)
Definition on_touch (form : Dom.Form) (i : nat) : Dom.Form :=
  match Dom.controls form !! i with
  | None => form
  | Some input =>
      let input :=
        Dom.set_classList input (Dom.add (Dom.classList input) "was-validated-field") in
      snd (FormInit.validateFormFields (Dom.write_back form i input))
  end.

End FormInitRest.

(** The string holds one of the five characters that [escapeHTML]
    replaces. *)
Definition has_special (s : string) : bool :=
  existsb Helpers.is_special (list_ascii_of_string s).

(** The names every object literal answers to before anything is stored in
    it: the members of [Object.prototype]. Each of them reads as a truthy
    value that is no array, and assigning to [__proto__] replaces the
    prototype instead of storing a property. *)
Definition Object_prototype_names : list string :=
  ["constructor"; "hasOwnProperty"; "isPrototypeOf"; "propertyIsEnumerable";
   "toLocaleString"; "toString"; "valueOf"; "__proto__";
   "__defineGetter__"; "__defineSetter__"; "__lookupGetter__"; "__lookupSetter__"].

Definition inherited (k : string) : bool :=
  existsb (String.eqb k) Object_prototype_names.

(** The values of the entries of a [FormData] under the key [k], in
    order. *)
Definition values_of (k : string) (entries : list (string * string)) : list string :=
  map snd (List.filter (fun entry => String.eqb (fst entry) k) entries).

(** The list without its leading empty strings. *)
Fixpoint drop_empty (values : list string) : list string :=
  match values with
  | EmptyString :: rest => drop_empty rest
  | _ => values
  end.

(** What [getFormData] holds under a key whose values are [values]: nothing
    when there is none; otherwise the values from the first non-empty one
    on, as a scalar when one is left and as a sequence when several are,
    and the empty string when all are empty. *)
Definition collected (values : list string) : JsVal :=
  match values with
  | [] => JUndefined
  | _ :: _ =>
      match drop_empty values with
      | [] => JStr ""
      | [v] => JStr v
      | many => JArr many
      end
  end.

(** What one value does to what is held under its key. *)
Definition held_after (current : JsVal) (value : string) : JsVal :=
  if truthy current then
    match current with
    | JArr items => JArr (items ++ [value])
    | JStr first => JArr [first; value]
    | _ => current
    end
  else JStr value.

(* ===================================================================== *)
(** * Properties                                                           *)
(* ===================================================================== *)

(** ** The registry *)

Section MapFacts.
Context {V : Type}.
Implicit Types (m : JsMap.t V) (k : string) (v : V).

Lemma get_set_same m k v : JsMap.get (JsMap.set m k v) k = Some v.
Proof.
  induction m as [|[k' v'] m IH]; simpl.
  - now rewrite String.eqb_refl.
  - destruct (String.eqb k' k) eqn:E; simpl; rewrite E; auto.
Qed.

Lemma get_set_other m k k' v :
  k <> k' -> JsMap.get (JsMap.set m k v) k' = JsMap.get m k'.
Proof.
  intros Hne. induction m as [|[k0 v0] m IH]; simpl.
  - destruct (String.eqb_spec k k'); congruence.
  - destruct (String.eqb_spec k0 k) as [->|Hk]; simpl.
    + destruct (String.eqb_spec k k'); congruence.
    + destruct (String.eqb_spec k0 k'); auto.
Qed.

Lemma count_set_same m k v :
  JsMap.count (JsMap.set m k v) k = Nat.max 1 (JsMap.count m k).
Proof.
  unfold JsMap.count.
  induction m as [|[k' v'] m IH]; simpl.
  - now rewrite String.eqb_refl.
  - destruct (String.eqb k' k) eqn:E; simpl; rewrite E; simpl; auto.
Qed.

Lemma count_set_other m k k' v :
  k <> k' -> JsMap.count (JsMap.set m k v) k' = JsMap.count m k'.
Proof.
  intros Hne. unfold JsMap.count.
  induction m as [|[k0 v0] m IH]; simpl.
  - destruct (String.eqb_spec k k'); [congruence | reflexivity].
  - destruct (String.eqb_spec k0 k) as [->|Hk]; simpl.
    + destruct (String.eqb_spec k k'); [congruence | reflexivity].
    + destruct (String.eqb_spec k0 k'); simpl; auto.
Qed.


End MapFacts.

Lemma reachable_count validators :
  reachable validators -> forall k, JsMap.count validators k <= 1.
Proof.
  induction 1 as [|validators name fn _ IH]; intros k.
  - unfold JsMap.count. simpl. lia.
  - unfold Validators.registerValidator.
    destruct (String.eqb_spec name k) as [->|Hne].
    + rewrite count_set_same. specialize (IH k). lia.
    + rewrite count_set_other by assumption. apply IH.
Qed.

Lemma reachable_loaded `{DateParser} : reachable Validators.validators.
Proof. unfold Validators.validators. repeat constructor. Qed.

(** C8. Lookup after registration returns the registered function;
    registering again under the same name makes later lookups return the
    new function; and in every state the registry can reach, before and
    after these calls, no name has more than one entry (the registered name
    has exactly one). *)
Theorem C8_register_last_write_wins
    (validators : Validators.Registry) (name : string) (fn1 fn2 : Validators.Validator) :
  reachable validators ->
  let once := Validators.registerValidator validators name fn1 in
  let twice := Validators.registerValidator once name fn2 in
  Validators.getValidator once name = Some fn1
  /\ Validators.getValidator twice name = Some fn2
  /\ JsMap.count once name = 1
  /\ JsMap.count twice name = 1
  /\ (forall k, JsMap.count validators k <= 1)
  /\ (forall k, JsMap.count once k <= 1)
  /\ (forall k, JsMap.count twice k <= 1)
  /\ (forall k, k <> name ->
        Validators.getValidator twice k = Validators.getValidator validators k).
Proof.
  intros Hreach once twice.
  assert (Honce : reachable once) by now constructor.
  assert (Htwice : reachable twice) by now constructor.
  assert (Hc1 : JsMap.count once name = 1).
  { unfold once, Validators.registerValidator. rewrite count_set_same.
    pose proof (reachable_count _ Hreach name). lia. }
  repeat split.
  - apply get_set_same.
  - apply get_set_same.
  - exact Hc1.
  - unfold twice, Validators.registerValidator at 1. rewrite count_set_same. lia.
  - now apply reachable_count.
  - now apply reachable_count.
  - now apply reachable_count.
  - intros k Hk. unfold twice, once, Validators.getValidator, Validators.registerValidator.
    rewrite !get_set_other by congruence. reflexivity.
Qed.

Lemma C8_witness :
  let once :=
    Validators.registerValidator (@Validators.validators IsoMinutes.parser)
      "phone" Validators.matchField in
  let twice := Validators.registerValidator once "phone" Validators.conditionalRequired in
  Validators.getValidator once "phone" = Some Validators.matchField
  /\ Validators.getValidator twice "phone" = Some Validators.conditionalRequired
  /\ JsMap.count once "phone" = 1
  /\ JsMap.count twice "phone" = 1
  /\ (forall k, JsMap.count (@Validators.validators IsoMinutes.parser) k <= 1)
  /\ (forall k, JsMap.count once k <= 1)
  /\ (forall k, JsMap.count twice k <= 1)
  /\ (forall k, k <> "phone" ->
        Validators.getValidator twice k
        = Validators.getValidator (@Validators.validators IsoMinutes.parser) k).
Proof.
  apply (C8_register_last_write_wins
           (@Validators.validators IsoMinutes.parser) "phone"
           Validators.matchField Validators.conditionalRequired).
  apply (@reachable_loaded IsoMinutes.parser).
Defined.

(** ** Resolving a field by name *)

Lemma index_of_name_None cs n :
  Dom.index_of_name cs n = None <-> (forall e, In e cs -> Dom.name e <> n).
Proof.
  induction cs as [|c cs IH]; simpl.
  - split; [intros _ e [] | reflexivity].
  - destruct (String.eqb_spec (Dom.name c) n) as [Heq|Hne].
    + split; [discriminate | intros Hall; exfalso; apply (Hall c); auto].
    + destruct (Dom.index_of_name cs n) as [k|] eqn:E; simpl.
      * split; [discriminate|]. intros Hall.
        assert (Hnone : Some k = None); [|discriminate].
        apply IH. intros e He. apply Hall. now right.
      * split; [|reflexivity]. intros _ e [<-|He]; [assumption|].
        now apply (proj1 IH).
Qed.

Lemma index_of_name_Some cs n i :
  Dom.index_of_name cs n = Some i <->
  exists e, cs !! i = Some e /\ Dom.name e = n
            /\ forall j e', j < i -> cs !! j = Some e' -> Dom.name e' <> n.
Proof.
  revert i. induction cs as [|c cs IH]; intros i; simpl.
  - split; [discriminate | intros (e & He & _); discriminate].
  - destruct (String.eqb_spec (Dom.name c) n) as [Heq|Hne].
    + split.
      * intros [= <-]. exists c. repeat split; auto. intros j e' Hj. lia.
      * intros (e & He & Hn & Hfirst). destruct i as [|i]; [reflexivity|].
        exfalso. apply (Hfirst 0 c); [lia | reflexivity | assumption].
    + split.
      * destruct (Dom.index_of_name cs n) as [k|] eqn:E; simpl; [|discriminate].
        intros [= <-]. destruct (proj1 (IH k) eq_refl) as (e & He & Hn & Hfirst).
        exists e. repeat split; auto.
        intros [|j] e' Hj Hj'; simpl in Hj'.
        -- injection Hj' as <-. assumption.
        -- apply (Hfirst j e'); [lia | assumption].
      * intros (e & He & Hn & Hfirst). destruct i as [|i]; simpl in He.
        -- injection He as <-. contradiction.
        -- assert (Hi : Dom.index_of_name cs n = Some i).
           { apply IH. exists e. repeat split; auto.
             intros j e' Hj Hj'. apply (Hfirst (S j) e'); [lia | exact Hj']. }
           now rewrite Hi.
Qed.

Lemma querySelector_name_None form n :
  Dom.querySelector_name form n = None <-> absent form n.
Proof.
  unfold Dom.querySelector_name, absent.
  destruct (Dom.index_of_name (Dom.controls form) n) as [i|] eqn:E.
  - destruct (proj1 (index_of_name_Some _ _ _) E) as (e & He & Hn & _).
    rewrite He. simpl. split; [discriminate|].
    intros Hall. apply index_of_name_None in Hall. congruence.
  - split; [|reflexivity]. intros _. now apply index_of_name_None.
Qed.

Lemma querySelector_name_Some form n i e :
  Dom.querySelector_name form n = Some (i, e) <-> resolves form n i e.
Proof.
  unfold Dom.querySelector_name, resolves.
  destruct (Dom.index_of_name (Dom.controls form) n) as [k|] eqn:E.
  - destruct (proj1 (index_of_name_Some _ _ _) E) as (e0 & He0 & Hn0 & Hfirst0).
    rewrite He0. simpl. split.
    + intros [= <- <-]. auto.
    + intros (He & Hn & Hfirst).
      assert (Hk : Dom.index_of_name (Dom.controls form) n = Some i)
        by (apply index_of_name_Some; eauto).
      congruence.
  - split; [discriminate|]. intros (He & Hn & Hfirst).
    assert (Hk : Dom.index_of_name (Dom.controls form) n = Some i)
      by (apply index_of_name_Some; eauto).
    congruence.
Qed.

Lemma truthy_str_false s : truthy_str s = false <-> s = "".
Proof.
  unfold truthy_str. destruct (String.eqb_spec s ""); simpl; split; congruence.
Qed.

Lemma truthy_str_true s : truthy_str s = true <-> s <> "".
Proof.
  unfold truthy_str. destruct (String.eqb_spec s ""); simpl; split; congruence.
Qed.

(** ** The built-in date-range rule *)

(** C3. [dateRange] resolves the fields named by [startField] and
    [endField] in the form. It returns valid when either name resolves to
    no field; valid when either resolved field has an empty value; invalid
    with the message "Invalid date format" when both values are non-empty
    and one of them does not parse; and, when both parse, valid exactly when
    the end time is strictly after the start time. *)
Theorem C3_dateRange_rule `{DateParser}
    (value : string) (options : gmap string JsVal) (form : Dom.Form) :
  let startName := ToString (prop options "startField") in
  let endName := ToString (prop options "endField") in
  let r := Validators.dateRange value options form in
  ((absent form startName \/ absent form endName) -> Validators.valid r = true)
  /\ (forall i startInput j endInput,
        resolves form startName i startInput ->
        resolves form endName j endInput ->
        ((Dom.value startInput = "" \/ Dom.value endInput = "") ->
           Validators.valid r = true)
        /\ (Dom.value startInput <> "" -> Dom.value endInput <> "" ->
            ((Date_parse (Dom.value startInput) = None
              \/ Date_parse (Dom.value endInput) = None) ->
               Validators.valid r = false
               /\ Validators.message r = JStr "Invalid date format")
            /\ (forall startDate endDate,
                  Date_parse (Dom.value startInput) = Some startDate ->
                  Date_parse (Dom.value endInput) = Some endDate ->
                  (Validators.valid r = true <-> (startDate < endDate)%Z)))).
Proof.
  intros startName endName r. split.
  - intros Habs. unfold r, Validators.dateRange. fold startName endName.
    destruct Habs as [Ha|Ha]; apply querySelector_name_None in Ha; rewrite Ha.
    + reflexivity.
    + now destruct (Dom.querySelector_name form startName) as [[? ?]|].
  - intros i startInput j endInput Hs He.
    apply querySelector_name_Some in Hs, He.
    unfold r, Validators.dateRange. fold startName endName. rewrite Hs, He.
    split.
    + intros [Hv|Hv]; apply truthy_str_false in Hv; rewrite Hv; simpl;
        [reflexivity | now rewrite orb_true_r].
    + intros Hsv Hev. apply truthy_str_true in Hsv, Hev. rewrite Hsv, Hev. simpl.
      split.
      * intros [Hp|Hp]; rewrite Hp; [easy|].
        now destruct (Date_parse (Dom.value startInput)).
      * intros startDate endDate -> ->.
        destruct (Z.leb_spec endDate startDate); simpl; split; intros; try lia;
          congruence.
Qed.

(** The rule on the dates of the design document, with the sample parser. *)
Example dateRange_vectors :
  let run s e :=
    @Validators.dateRange IsoMinutes.parser e Samples.range_options
      (Samples.range_form s e) in
  Validators.valid (run "2025-01-01T10:00" "2025-01-01T09:00") = false
  /\ Validators.valid (run "2025-01-01T10:00" "2025-01-01T11:00") = true
  /\ Validators.valid (run "2025-01-01T10:00" "2025-01-01T10:00") = false
  /\ run "2025-01-01T10:00" "not-a-date"
     = Validators.mkResult false (JStr "Invalid date format")
  /\ Validators.valid
       (@Validators.dateRange IsoMinutes.parser "" Samples.range_options
          (Dom.mkForm [] [Samples.field "startDateTime" "2025-01-01T10:00"] None))
     = true.
Proof. vm_compute. repeat split. Qed.


(** The rule on phone numbers on values of the design document. *)
Example phone_vectors :
  let form := Dom.mkForm [] [] None in
  Validators.valid (Validators.phone "123-456-7890" ∅ form) = true
  /\ Validators.valid (Validators.phone "12345" ∅ form) = false
  /\ Validators.valid (Validators.phone "" ∅ form) = true.
Proof. repeat split. Qed.

Lemma C3_witness :
  Validators.valid
    (@Validators.dateRange IsoMinutes.parser "" Samples.range_options
       (Samples.range_form "2025-01-01T10:00" "2025-01-01T11:00")) = true.
Proof.
  pose proof (C3_dateRange_rule (H := IsoMinutes.parser) ""
                Samples.range_options
                (Samples.range_form "2025-01-01T10:00" "2025-01-01T11:00"))
    as [_ Hres].
  specialize (Hres 0 (Samples.field "startDateTime" "2025-01-01T10:00")
                   1 (Samples.field "endDateTime" "2025-01-01T11:00")).
  destruct Hres as [_ Hres].
  - apply querySelector_name_Some. reflexivity.
  - apply querySelector_name_Some. reflexivity.
  - destruct Hres as [_ Hres]; [discriminate | discriminate |].
    apply (Hres 1735725600000%Z 1735729200000%Z); [reflexivity | reflexivity | lia].
Defined.

(** ** The date-range check of the submit path *)

Lemma dateRange_on_resolved `{DateParser} value options form i startInput j endInput :
  resolves form (ToString (prop options "startField")) i startInput ->
  resolves form (ToString (prop options "endField")) j endInput ->
  Validators.dateRange value options form =
  if negb (truthy_str (Dom.value startInput)) || negb (truthy_str (Dom.value endInput))
  then Validators.passed
  else match Date_parse (Dom.value startInput), Date_parse (Dom.value endInput) with
       | Some startDate, Some endDate =>
           if (endDate <=? startDate)%Z then
             Validators.mkResult false
               (Validators.or_default (prop options "message")
                  "End date must be after start date")
           else Validators.passed
       | _, _ => Validators.mkResult false (JStr "Invalid date format")
       end.
Proof.
  intros Hs He. apply querySelector_name_Some in Hs, He.
  unfold Validators.dateRange. now rewrite Hs, He.
Qed.

(** C5, as the code has it. For non-empty start and end strings the check
    of the submit path and the registry's [dateRange] give the same verdict,
    and that verdict is the rule: invalid when either string fails to parse,
    otherwise valid exactly when the end is strictly after the start.
    When one of the strings is empty they differ: [validateDateTimeRange]
    rejects the pair with its own message, [dateRange] accepts it. *)
Theorem C5_range_checks_agree_when_filled `{DateParser} (s e : string) :
  (s <> "" -> e <> "" ->
     range_checks_agree s e
     /\ Validators.valid (Helpers.validateDateTimeRange (JStr s) (JStr e))
        = end_after_start s e
     /\ forall value options form i startInput j endInput,
          resolves form (ToString (prop options "startField")) i startInput ->
          resolves form (ToString (prop options "endField")) j endInput ->
          Dom.value startInput = s ->
          Dom.value endInput = e ->
          Validators.valid (Validators.dateRange value options form)
          = end_after_start s e)
  /\ ((s = "" \/ e = "") ->
      Helpers.validateDateTimeRange (JStr s) (JStr e)
      = Validators.mkResult false (JStr "Both start and end date/time are required.")
      /\ forall value options form i startInput j endInput,
           resolves form (ToString (prop options "startField")) i startInput ->
           resolves form (ToString (prop options "endField")) j endInput ->
           Dom.value startInput = s ->
           Dom.value endInput = e ->
           Validators.valid (Validators.dateRange value options form) = true).
Proof.
  split.
  - intros Hs He. apply truthy_str_true in Hs, He.
    assert (Hsubmit :
              Validators.valid (Helpers.validateDateTimeRange (JStr s) (JStr e))
              = end_after_start s e).
    { unfold Helpers.validateDateTimeRange, Helpers.new_Date, end_after_start.
      change (truthy (JStr s)) with (truthy_str s).
      change (truthy (JStr e)) with (truthy_str e).
      rewrite Hs, He. simpl.
      destruct (Date_parse s) as [startDate|], (Date_parse e) as [endDate|];
        try reflexivity.
      rewrite (Z.ltb_antisym endDate startDate).
      now destruct (endDate <=? startDate)%Z. }
    assert (Hregistry :
              forall value options form i startInput j endInput,
                resolves form (ToString (prop options "startField")) i startInput ->
                resolves form (ToString (prop options "endField")) j endInput ->
                Dom.value startInput = s ->
                Dom.value endInput = e ->
                Validators.valid (Validators.dateRange value options form)
                = end_after_start s e).
    { intros value options form i startInput j endInput Hrs Hre Hvs Hve.
      rewrite (dateRange_on_resolved _ _ _ _ _ _ _ Hrs Hre), Hvs, Hve.
      unfold end_after_start. rewrite Hs, He. simpl.
      destruct (Date_parse s) as [startDate|], (Date_parse e) as [endDate|];
        try reflexivity.
      rewrite (Z.ltb_antisym endDate startDate).
      now destruct (endDate <=? startDate)%Z. }
    split; [|split; [exact Hsubmit | exact Hregistry]].
    intros value options form i startInput j endInput Hrs Hre Hvs Hve.
    rewrite Hsubmit. now apply (Hregistry value options form i startInput j endInput).
  - intros Hempty. split.
    + unfold Helpers.validateDateTimeRange. simpl.
      destruct Hempty as [-> | ->]; simpl; [reflexivity | now rewrite orb_true_r].
    + intros value options form i startInput j endInput Hrs Hre Hvs Hve.
      rewrite (dateRange_on_resolved _ _ _ _ _ _ _ Hrs Hre), Hvs, Hve.
      destruct Hempty as [-> | ->]; simpl; [reflexivity | now rewrite orb_true_r].
Qed.

Lemma C5_witness :
  Validators.valid
    (@Validators.dateRange IsoMinutes.parser "" Samples.range_options
       (Samples.range_form "2030-01-01T00:00" "2030-01-01T00:00"))
  = Validators.valid
      (@Helpers.validateDateTimeRange IsoMinutes.parser
         (JStr "2030-01-01T00:00") (JStr "2030-01-01T00:00")).
Proof.
  apply (proj1 (proj1 (C5_range_checks_agree_when_filled (H := IsoMinutes.parser)
                         "2030-01-01T00:00" "2030-01-01T00:00")
                  ltac:(discriminate) ltac:(discriminate))
           "" Samples.range_options
           (Samples.range_form "2030-01-01T00:00" "2030-01-01T00:00")
           0 (Samples.field "startDateTime" "2030-01-01T00:00")
           1 (Samples.field "endDateTime" "2030-01-01T00:00")).
  - apply querySelector_name_Some. reflexivity.
  - apply querySelector_name_Some. reflexivity.
  - reflexivity.
  - reflexivity.
Defined.

(** The claim of agreement on every pair of strings fails on the empty
    pair: on a form whose two fields are empty, [dateRange] returns valid
    and [validateDateTimeRange] returns invalid. *)
Lemma C5_counterexample : ~ @range_checks_agree IsoMinutes.parser "" "".
Proof.
  intros Hagree.
  specialize (Hagree "" Samples.range_options (Samples.range_form "" "")
                0 (Samples.field "startDateTime" "")
                1 (Samples.field "endDateTime" "")).
  discriminate Hagree; try reflexivity; apply querySelector_name_Some; reflexivity.
Qed.

(** On a form whose two date fields are optional and empty, the submit
    handler stops at its date-range check, whereas [dateRange] run by the
    orchestrator on the same form accepts it. *)
Example submit_rejects_empty_range :
  let form := Samples.range_form "" "" in
  fst (@FormInit.submit_checks IsoMinutes.parser form
         [("startDateTime", ""); ("endDateTime", "")])
  = FormInit.RangeRejected (JStr "Both start and end date/time are required.")
  /\ Validators.allValid
       (Validators.validateFormWithCustom (@Validators.validators IsoMinutes.parser)
          form [("endDateTime", [Validators.CfgObject Samples.range_options])])
     = true.
Proof. vm_compute. split; reflexivity. Qed.

(** The end-to-end scenario of the design document: start and end equal. *)
Example submit_rejects_equal_dates :
  fst (@FormInit.submit_checks IsoMinutes.parser
         (Samples.range_form "2030-01-01T00:00" "2030-01-01T00:00")
         [("startDateTime", "2030-01-01T00:00"); ("endDateTime", "2030-01-01T00:00")])
  = FormInit.RangeRejected (JStr "End date/time must be after start date/time.").
Proof. vm_compute. reflexivity. Qed.

(** ** Class lists and visual state *)

Lemma contains_add_same classes c : Dom.contains (Dom.add classes c) c = true.
Proof.
  unfold Dom.add. destruct (Dom.contains classes c) eqn:E; [assumption|].
  unfold Dom.contains. rewrite existsb_app. simpl.
  rewrite String.eqb_refl. now rewrite orb_true_r.
Qed.

Lemma contains_add_other classes c c' :
  c <> c' -> Dom.contains (Dom.add classes c) c' = Dom.contains classes c'.
Proof.
  intros Hne. unfold Dom.add. destruct (Dom.contains classes c); [reflexivity|].
  unfold Dom.contains. rewrite existsb_app. simpl.
  destruct (String.eqb_spec c' c); [congruence|]. now rewrite !orb_false_r.
Qed.

Lemma contains_remove_same classes c : Dom.contains (Dom.remove classes c) c = false.
Proof.
  unfold Dom.contains, Dom.remove. induction classes as [|x classes IH]; simpl; auto.
  destruct (String.eqb_spec c x); simpl; auto.
  destruct (String.eqb_spec c x); simpl; [contradiction | assumption].
Qed.

Lemma contains_remove_other classes c c' :
  c <> c' -> Dom.contains (Dom.remove classes c) c' = Dom.contains classes c'.
Proof.
  intros Hne. unfold Dom.contains, Dom.remove.
  induction classes as [|x classes IH]; simpl; auto.
  destruct (String.eqb_spec c x) as [<-|Hx]; simpl.
  - destruct (String.eqb_spec c' c); [congruence | assumption].
  - now rewrite IH.
Qed.

Lemma classList_applyInvalidState input message :
  Dom.classList (Validators.applyInvalidState input message)
  = Dom.add (Dom.remove (Dom.classList input) "is-valid") "is-invalid".
Proof.
  unfold Validators.applyInvalidState. simpl.
  destruct (truthy message); [|reflexivity]. simpl.
  now destruct (Dom.feedback input).
Qed.

Lemma applyInvalidState_marked input message :
  marked_invalid (Validators.applyInvalidState input message).
Proof.
  unfold marked_invalid. rewrite classList_applyInvalidState. split.
  - apply contains_add_same.
  - rewrite contains_add_other by discriminate. apply contains_remove_same.
Qed.

Lemma applyValidState_marked input :
  marked_valid (Validators.applyValidState input)
  /\ Dom.customValidity (Validators.applyValidState input) = "".
Proof.
  unfold marked_valid, Validators.applyValidState. simpl. repeat split.
  - apply contains_add_same.
  - rewrite contains_add_other by discriminate. apply contains_remove_same.
Qed.

(** With a truthy message the control takes the message, and so does the
    feedback element when there is one; with a falsy one both are kept. *)
Lemma applyInvalidState_message input message :
  (truthy message = true ->
     carries_message input (Validators.applyInvalidState input message) message)
  /\ (truthy message = false ->
        Dom.customValidity (Validators.applyInvalidState input message)
        = Dom.customValidity input
        /\ Dom.feedback (Validators.applyInvalidState input message)
           = Dom.feedback input).
Proof.
  unfold Validators.applyInvalidState, carries_message. simpl.
  split; intros ->; simpl; [|auto].
  destruct (Dom.feedback input); simpl; split; auto.
  intros old Hold. discriminate.
Qed.

(** ** The runner *)

Lemma first_failure_here validators input config rest form res :
  first_failure validators input (config :: rest) form 0 res ->
  exists validator,
    Validators.lookup validators (Validators.config_name config) = Some validator
    /\ validator (Dom.value input) (Validators.config_options config) form = res
    /\ Validators.valid res = false.
Proof.
  intros [(c & v & Hc & Hl & Hr & Hv) _]. simpl in Hc. injection Hc as <-. eauto.
Qed.

Lemma first_failure_later validators input config rest form i res :
  first_failure validators input (config :: rest) form (S i) res ->
  first_failure validators input rest form i res
  /\ (forall validator,
        Validators.lookup validators (Validators.config_name config) = Some validator ->
        Validators.valid
          (validator (Dom.value input) (Validators.config_options config) form) = true).
Proof.
  intros [(c & v & Hc & Hl & Hr & Hv) Hbefore]. simpl in Hc. split; [split|].
  - eauto 6.
  - intros j c' v' Hj Hc' Hl'. apply (Hbefore (S j) c' v'); [lia | exact Hc' | exact Hl'].
  - intros v' Hl'. apply (Hbefore 0 config v'); [lia | reflexivity | exact Hl'].
Qed.

(** The loop stops at the first failure: its outcome is determined by the
    entries up to it. *)
Lemma run_custom_first_failure validators input configs form i res :
  first_failure validators input configs form i res ->
  Validators.run_custom validators input configs form
  = Validators.mkRun false
      (Validators.applyInvalidState input (Validators.message res))
      (map (expected_event validators (Dom.value input)) (take (S i) configs)).
Proof.
  revert i. induction configs as [|config rest IH]; intros i Hff.
  - destruct Hff as [(c & v & Hc & _) _]. discriminate.
  - destruct i as [|i].
    + apply first_failure_here in Hff as (v & Hl & Hr & Hv).
      simpl. unfold expected_event. rewrite Hl, Hr, Hv. simpl.
      reflexivity.
    + apply first_failure_later in Hff as [Hrest Hhere].
      specialize (IH i Hrest).
      change (take (S (S i)) (config :: rest)) with (config :: take (S i) rest).
      simpl. unfold expected_event at 1.
      destruct (Validators.lookup validators (Validators.config_name config))
        as [v|] eqn:Hl.
      * rewrite (Hhere v eq_refl). simpl. now rewrite IH.
      * now rewrite IH.
Qed.

Lemma first_failure_prefix validators input configs form i res more :
  first_failure validators input configs form i res ->
  first_failure validators input (take (S i) configs ++ more) form i res.
Proof.
  intros [(c & v & Hc & Hrest) Hbefore].
  assert (Hlen : i < length configs) by (eapply lookup_lt_Some; eauto).
  assert (Hsame : forall j, j <= i ->
                    (take (S i) configs ++ more) !! j = configs !! j).
  { intros j Hj. rewrite lookup_app_l by (rewrite length_take; lia).
    apply lookup_take_lt. lia. }
  split.
  - exists c, v. rewrite Hsame by lia. auto.
  - intros j c' v' Hj Hc'. rewrite Hsame in Hc' by lia. eauto.
Qed.

Lemma runValidators_first_failure validators input configs form i res :
  Dom.checkValidity input = true ->
  first_failure validators input configs form i res ->
  stops_at validators input configs form i
  /\ Validators.element (Validators.runValidators validators input configs form)
     = Validators.applyInvalidState input (Validators.message res).
Proof.
  intros Hnative Hff. unfold stops_at, Validators.runValidators.
  rewrite Hnative. simpl.
  rewrite (run_custom_first_failure _ _ _ _ _ _ Hff). simpl.
  repeat split.
  - intros more.
    rewrite (run_custom_first_failure _ _ _ _ _ _
               (first_failure_prefix _ _ _ _ _ _ more Hff)).
    f_equal. f_equal.
    assert (Hlen : i < length configs).
    { destruct Hff as [(c & v & Hc & _) _]. eapply lookup_lt_Some; eauto. }
    rewrite take_app_le by (rewrite length_take; lia).
    apply take_idemp.
  - apply applyInvalidState_marked.
  - apply applyInvalidState_marked.
Qed.

(** C1, as the code has it. On a natively valid control, when the entry at
    position [i] is the first whose validator returns invalid, the runner
    returns false, has evaluated the entries up to [i] and none after it,
    and marks the control invalid. When the failing result's message is
    truthy (a non-empty string), the control carries exactly that message
    as its custom-validity message and the feedback element, when present,
    shows it; when the message is falsy, the custom-validity message and the
    feedback text stay as they were. *)
Theorem C1_runner_short_circuit
    (validators : Validators.Registry) (input : Dom.Element)
    (configs : list Validators.ValidatorConfig) (form : Dom.Form)
    (i : nat) (res : Validators.ValidationResult) :
  Dom.checkValidity input = true ->
  first_failure validators input configs form i res ->
  let after :=
    Validators.element (Validators.runValidators validators input configs form) in
  stops_at validators input configs form i
  /\ (truthy (Validators.message res) = true ->
        carries_message input after (Validators.message res))
  /\ (truthy (Validators.message res) = false ->
        Dom.customValidity after = Dom.customValidity input
        /\ Dom.feedback after = Dom.feedback input).
Proof.
  intros Hnative Hff after.
  destruct (runValidators_first_failure _ _ _ _ _ _ Hnative Hff) as [Hstop Hel].
  split; [exact Hstop|]. unfold after. rewrite Hel.
  apply applyInvalidState_message.
Qed.
Lemma C1_witness :
  let input := Samples.with_feedback "phone" "12345" in
  let configs :=
    [Validators.CfgName "nope"; Validators.CfgName "phone";
     Validators.CfgName "strict"] in
  let form := Dom.mkForm [] [input] None in
  let message := JStr "Phone number must be 10-15 digits" in
  let after :=
    Validators.element
      (Validators.runValidators Samples.registry input configs form) in
  stops_at Samples.registry input configs form 1
  /\ (truthy message = true -> carries_message input after message)
  /\ (truthy message = false ->
        Dom.customValidity after = Dom.customValidity input
        /\ Dom.feedback after = Dom.feedback input).
Proof.
  apply (C1_runner_short_circuit Samples.registry
           (Samples.with_feedback "phone" "12345")
           [Validators.CfgName "nope"; Validators.CfgName "phone";
            Validators.CfgName "strict"]
           (Dom.mkForm [] [Samples.with_feedback "phone" "12345"] None)
           1
           (Validators.mkResult false (JStr "Phone number must be 10-15 digits"))).
  - reflexivity.
  - split.
    + exists (Validators.CfgName "phone"), Validators.phone.
      repeat split; reflexivity.
    + intros j config validator Hj Hconfig Hlookup.
      assert (j = 0) as -> by lia.
      injection Hconfig as <-. discriminate Hlookup.
Defined.

(** The runner evaluates the first two entries of the witness and never
    the third. *)
Example runner_probe :
  let input := Samples.with_feedback "phone" "12345" in
  Validators.events
    (Validators.runValidators Samples.registry input
       [Validators.CfgName "nope"; Validators.CfgName "phone";
        Validators.CfgName "strict"]
       (Dom.mkForm [] [input] None))
  = [Validators.Warn (Validators.not_found_text (JStr "nope"));
     Validators.Invoke "phone" "12345" ∅].
Proof. reflexivity. Qed.

(** The claim without the condition on the message fails: a validator that
    rejects with an empty message leaves the text of the feedback element
    as it was, so the feedback does not show the validator's message. *)
Lemma C1_counterexample :
  let input := Samples.with_feedback "note" "x" in
  ~ short_circuit_claim Samples.registry input
      [Validators.CfgName "silent"; Validators.CfgName "strict"]
      (Dom.mkForm [] [input] None) 0
      (Validators.mkResult false (JStr "")).
Proof.
  intros input Hclaim. destruct Hclaim as [_ [_ Hfeedback]].
  - reflexivity.
  - split.
    + exists (Validators.CfgName "silent"), Samples.silent.
      repeat split; reflexivity.
    + intros j config validator Hj. lia.
  - specialize (Hfeedback "Please choose a value." eq_refl).
    vm_compute in Hfeedback. discriminate Hfeedback.
Qed.







(** ** A control that holds a custom-validity message *)

Lemma checkValidity_custom_message input :
  Dom.willValidate input = true ->
  Dom.customValidity input <> "" ->
  Dom.checkValidity input = false.
Proof.
  intros Hwill Hmsg. unfold Dom.checkValidity, Dom.suffering.
  apply truthy_str_true in Hmsg. rewrite Hwill, Hmsg.
  now rewrite orb_true_r.
Qed.

Lemma runValidators_native_branch validators input configs form :
  Dom.checkValidity input = false ->
  Validators.runValidators validators input configs form
  = Validators.mkRun false (Validators.applyInvalidState input JUndefined) [].
Proof. intros Hnative. unfold Validators.runValidators. now rewrite Hnative. Qed.

(** C10, as the code has it. For a control that takes part in constraint
    validation and holds a non-empty custom-validity message, the native
    check fails: the runner returns false through the native branch,
    invokes no validator and logs nothing, marks the control invalid and
    keeps its message and feedback text, and every later run on the
    control fails in the same way. [clearValidationState] empties the
    message, after which the runner succeeds on a control with no built-in
    validity problem. *)
Theorem C10_custom_message_blocks_runner
    (validators : Validators.Registry) (input : Dom.Element)
    (configs : list Validators.ValidatorConfig) (form : Dom.Form) :
  Dom.willValidate input = true ->
  Dom.customValidity input <> "" ->
  let after :=
    Validators.element (Validators.runValidators validators input configs form) in
  native_rejection_claim validators input configs form
  /\ marked_invalid after
  /\ Dom.feedback after = Dom.feedback input
  /\ Dom.customValidity (Validators.clearValidationState after) = ""
  /\ (Dom.builtinInvalid input = false ->
      forall form',
        Validators.result
          (Validators.runValidators validators
             (Validators.clearValidationState after) [] form') = true).
Proof.
  intros Hwill Hmsg after.
  pose proof (checkValidity_custom_message input Hwill Hmsg) as Hnative.
  assert (Hafter : after = Validators.applyInvalidState input JUndefined).
  { unfold after. now rewrite runValidators_native_branch. }
  assert (Hstill : Dom.checkValidity after = false).
  { rewrite Hafter. apply checkValidity_custom_message; assumption. }
  unfold native_rejection_claim. fold after.
  rewrite (runValidators_native_branch _ _ _ _ Hnative). simpl.
  split; [split; [exact Hnative | split; [reflexivity | split; [reflexivity | split]]]|].
  - rewrite Hafter. reflexivity.
  - intros validators' configs' form'.
    now rewrite (runValidators_native_branch _ _ _ _ Hstill).
  - split; [|split; [|split]].
    + rewrite Hafter. apply applyInvalidState_marked.
    + rewrite Hafter. reflexivity.
    + reflexivity.
    + intros Hbuiltin form'. rewrite Hafter.
      unfold Validators.runValidators, Dom.checkValidity, Dom.suffering. simpl.
      rewrite Hbuiltin, Hwill. reflexivity.
Qed.

Lemma C10_witness :
  let input :=
    Dom.mkElement "endDateTime" "text" "2030-01-01T00:00" false true [] true false
      "End date/time must be after start date/time." None in
  native_rejection_claim Samples.registry input [Validators.CfgName "strict"]
    (Dom.mkForm [] [input] None).
Proof.
  apply (C10_custom_message_blocks_runner Samples.registry
           (Dom.mkElement "endDateTime" "text" "2030-01-01T00:00" false true []
              true false "End date/time must be after start date/time." None)
           [Validators.CfgName "strict"]).
  - reflexivity.
  - discriminate.
Defined.

(** Without the condition on constraint validation the claim fails: a
    read-only control is barred from it, so its native check passes with a
    message set, and the runner, given no failing validator, returns true
    and clears the message. *)
Lemma C10_counterexample :
  let input :=
    Samples.picker "endDateTime" "2030-01-01T00:00"
      "End date/time must be after start date/time." in
  Dom.customValidity input <> ""
  /\ ~ native_rejection_claim Samples.registry input [] (Dom.mkForm [] [input] None).
Proof.
  split; [discriminate|]. intros (Hnative & _). discriminate Hnative.
Qed.

(** [resetValidation] empties the message of every control; so does the
    change handler of a picker for its control (see [onChange_clears]). *)
Lemma resetValidation_clears form input :
  In input (Dom.controls (Helpers.resetValidation form)) ->
  Dom.customValidity input = "".
Proof.
  unfold Helpers.resetValidation. simpl. rewrite in_map_iff.
  intros (e & <- & _). reflexivity.
Qed.

(** ** The orchestrator *)

Lemma name_applyInvalidState input message :
  Dom.name (Validators.applyInvalidState input message) = Dom.name input.
Proof.
  unfold Validators.applyInvalidState. simpl.
  destruct (truthy message); [|reflexivity]. simpl.
  now destruct (Dom.feedback input).
Qed.

Lemma run_custom_outcome validators input configs form :
  let r := Validators.run_custom validators input configs form in
  (Validators.result r = true /\ Validators.element r = Validators.applyValidState input)
  \/ (Validators.result r = false
      /\ exists message,
           Validators.element r = Validators.applyInvalidState input message).
Proof.
  induction configs as [|config rest IH]; simpl; [now left|].
  destruct (Validators.lookup validators (Validators.config_name config)) as [v|];
    simpl; [|exact IH].
  destruct (Validators.valid
              (v (Dom.value input) (Validators.config_options config) form));
    simpl; [exact IH|].
  right. eauto.
Qed.

(** Whatever the runner does, it returns true with the control in the valid
    state or false with the control in the invalid state, and the control
    keeps its name. *)
Lemma runValidators_outcome validators input configs form :
  let r := Validators.runValidators validators input configs form in
  Dom.name (Validators.element r) = Dom.name input
  /\ ((Validators.result r = true /\ marked_valid (Validators.element r))
      \/ (Validators.result r = false /\ marked_invalid (Validators.element r))).
Proof.
  unfold Validators.runValidators.
  destruct (Dom.checkValidity input); simpl.
  - destruct (run_custom_outcome validators input configs form)
      as [[Hr He]|[Hr [message He]]]; rewrite He.
    + split; [reflexivity|]. left. split; [exact Hr | apply applyValidState_marked].
    + split; [apply name_applyInvalidState|].
      right. split; [exact Hr | apply applyInvalidState_marked].
  - split; [reflexivity|]. right. split; [reflexivity|].
    apply applyInvalidState_marked.
Qed.

Lemma index_of_name_names cs cs' n :
  map Dom.name cs = map Dom.name cs' ->
  Dom.index_of_name cs n = Dom.index_of_name cs' n.
Proof.
  revert cs'. induction cs as [|c cs IH]; intros [|c' cs'] Hnames;
    try discriminate; [reflexivity|].
  simpl in *. injection Hnames as Hc Hcs. rewrite Hc.
  destruct (String.eqb (Dom.name c') n); [reflexivity|].
  now rewrite (IH cs' Hcs).
Qed.

Lemma exists_in_names form form' entry :
  names form = names form' -> exists_in form entry = exists_in form' entry.
Proof.
  intros Hnames. unfold exists_in.
  destruct (Dom.querySelector_name form (fst entry)) as [[i e]|] eqn:E;
    destruct (Dom.querySelector_name form' (fst entry)) as [[i' e']|] eqn:E';
    try reflexivity; exfalso.
  - apply querySelector_name_Some in E as (He & Hn & _).
    apply querySelector_name_None in E'.
    assert (Hin : In (Dom.name e) (names form)).
    { apply in_map. apply list_elem_of_In. eapply list_elem_of_lookup_2; eauto. }
    rewrite Hnames in Hin. apply in_map_iff in Hin as (x & Hx & Hin).
    apply (E' x Hin). congruence.
  - apply querySelector_name_Some in E' as (He & Hn & _).
    apply querySelector_name_None in E.
    assert (Hin : In (Dom.name e') (names form')).
    { apply in_map. apply list_elem_of_In. eapply list_elem_of_lookup_2; eauto. }
    rewrite <- Hnames in Hin. apply in_map_iff in Hin as (x & Hx & Hin).
    apply (E x Hin). congruence.
Qed.

Lemma names_write_back form i old e :
  Dom.controls form !! i = Some old ->
  Dom.name e = Dom.name old ->
  names (Dom.write_back form i e) = names form.
Proof.
  intros Hold Hname. unfold names, Dom.write_back. simpl.
  rewrite list_fmap_insert. rewrite Hname.
  apply list_insert_id. rewrite list_lookup_fmap, Hold. reflexivity.
Qed.

(** One turn of the loop, by cases on whether the field exists. *)
Lemma validate_entry_cases validators acc name configs :
  let acc' := Validators.validate_entry validators acc (name, configs) in
  (exists_in (Validators.form_after acc) (name, configs) = false /\ acc' = acc)
  \/ (exists_in (Validators.form_after acc) (name, configs) = true
      /\ exists i input,
           resolves (Validators.form_after acc) name i input
           /\ let r :=
                Validators.runValidators validators input configs
                  (Validators.form_after acc) in
              acc' = Validators.mkFormOutcome
                       (Validators.allValid acc && Validators.result r)
                       (Dom.write_back (Validators.form_after acc) i
                          (Validators.element r))
                       (Validators.runs acc
                        ++ [Validators.mkFieldRun name (Validators.result r)
                              (Validators.events r)])).
Proof.
  unfold Validators.validate_entry, exists_in. simpl.
  destruct (Dom.querySelector_name (Validators.form_after acc) name)
    as [[i input]|] eqn:E; [right | now left].
  split; [reflexivity|]. exists i, input.
  split; [now apply querySelector_name_Some|].
  simpl. f_equal.
  destruct (Validators.result
              (Validators.runValidators validators input configs
                 (Validators.form_after acc)));
    simpl; [now rewrite andb_true_r | now rewrite andb_false_r].
Qed.

Lemma validate_entry_names validators acc entry :
  names (Validators.form_after (Validators.validate_entry validators acc entry))
  = names (Validators.form_after acc).
Proof.
  destruct entry as [name configs].
  destruct (validate_entry_cases validators acc name configs)
    as [[_ ->]|[_ (i & input & (Hi & _) & ->)]]; [reflexivity|].
  simpl. eapply names_write_back; [exact Hi|].
  apply runValidators_outcome.
Qed.

Lemma fold_entries_names validators entries acc :
  names (Validators.form_after
           (fold_left (Validators.validate_entry validators) entries acc))
  = names (Validators.form_after acc).
Proof.
  revert acc. induction entries as [|entry rest IH]; intros acc; [reflexivity|].
  simpl. rewrite IH. apply validate_entry_names.
Qed.
Arguments Validators.validate_entry : simpl never.

Lemma fold_entries_runs validators form0 entries acc :
  names (Validators.form_after acc) = names form0 ->
  let out := fold_left (Validators.validate_entry validators) entries acc in
  exists new,
    Validators.runs out = Validators.runs acc ++ new
    /\ map Validators.fieldName new = map fst (List.filter (exists_in form0) entries)
    /\ Validators.allValid out
       = Validators.allValid acc && forallb Validators.fieldValid new.
Proof.
  revert acc. induction entries as [|[name configs] rest IH]; intros acc Hnames.
  - exists []. simpl. now rewrite app_nil_r, andb_true_r.
  - simpl.
    pose proof (validate_entry_names validators acc (name, configs)) as Hstep.
    destruct (IH (Validators.validate_entry validators acc (name, configs)))
      as (new & Hruns & Hnew & Hall); [congruence|].
    rewrite <- (exists_in_names _ _ (name, configs) Hnames).
    destruct (validate_entry_cases validators acc name configs)
      as [[Hex Hacc]|[Hex (i & input & _ & Hacc)]]; rewrite Hex.
    + rewrite Hacc in *. exists new. auto.
    + rewrite Hacc in Hruns, Hall |- *. simpl in Hruns, Hall.
      eexists (_ :: new). repeat split.
      * rewrite Hruns, <- app_assoc. reflexivity.
      * simpl. now rewrite Hnew.
      * simpl. now rewrite Hall, andb_assoc.
Qed.

Lemma fold_entries_filter validators form0 entries acc :
  names (Validators.form_after acc) = names form0 ->
  fold_left (Validators.validate_entry validators)
    (List.filter (exists_in form0) entries) acc
  = fold_left (Validators.validate_entry validators) entries acc.
Proof.
  revert acc. induction entries as [|[name configs] rest IH]; intros acc Hnames;
    [reflexivity|].
  pose proof (validate_entry_names validators acc (name, configs)) as Hstep.
  simpl. rewrite <- (exists_in_names _ _ (name, configs) Hnames).
  destruct (validate_entry_cases validators acc name configs)
    as [[Hex Hacc]|[Hex _]]; rewrite Hex.
  - rewrite Hacc. now apply IH.
  - simpl. apply IH. congruence.
Qed.

Lemma validate_entry_formClasses validators acc entry :
  Dom.formClasses (Validators.form_after (Validators.validate_entry validators acc entry))
  = Dom.formClasses (Validators.form_after acc).
Proof.
  destruct entry as [name configs].
  destruct (validate_entry_cases validators acc name configs)
    as [[_ ->]|[_ (i & input & _ & ->)]]; reflexivity.
Qed.

Lemma fold_entries_formClasses validators entries acc :
  Dom.formClasses
    (Validators.form_after
       (fold_left (Validators.validate_entry validators) entries acc))
  = Dom.formClasses (Validators.form_after acc).
Proof.
  revert acc. induction entries as [|entry rest IH]; intros acc; [reflexivity|].
  simpl. rewrite IH. apply validate_entry_formClasses.
Qed.

Lemma resolves_unique form name i input i' input' :
  resolves form name i input -> resolves form name i' input' ->
  i = i' /\ input = input'.
Proof.
  intros H H'. apply querySelector_name_Some in H, H'.
  rewrite H in H'. now injection H' as -> ->.
Qed.

(** A turn for another field name leaves the resolution of [name] as it
    is. *)
Lemma validate_entry_resolves_other validators acc entry name i input :
  fst entry <> name ->
  resolves (Validators.form_after acc) name i input ->
  resolves (Validators.form_after (Validators.validate_entry validators acc entry))
    name i input.
Proof.
  destruct entry as [name' configs]. simpl. intros Hne (Hi & Hname & Hfirst).
  destruct (validate_entry_cases validators acc name' configs)
    as [[_ ->]|[_ (i' & input' & (Hi' & Hname' & _) & ->)]]; [easy|].
  simpl.
  pose proof (runValidators_outcome validators input' configs
                (Validators.form_after acc)) as [Hkeep _].
  assert (Hii : i' <> i) by (intros ->; congruence).
  repeat split.
  - unfold Dom.write_back. simpl. now rewrite list_lookup_insert_ne.
  - assumption.
  - intros j e' Hj. unfold Dom.write_back. simpl.
    destruct (Nat.eq_dec i' j) as [<-|Hij].
    + rewrite list_lookup_insert_eq by (eapply lookup_lt_Some; eauto).
      intros [= <-]. congruence.
    + rewrite list_lookup_insert_ne by assumption. now apply Hfirst.
Qed.

(** Turns for other field names leave a control as it is. *)
Lemma fold_entries_other_control validators entries acc i c :
  (forall entry, In entry entries -> fst entry <> Dom.name c) ->
  Dom.controls (Validators.form_after acc) !! i = Some c ->
  Dom.controls
    (Validators.form_after
       (fold_left (Validators.validate_entry validators) entries acc)) !! i
  = Some c.
Proof.
  revert acc. induction entries as [|[name' configs] rest IH]; intros acc Hother Hc;
    [assumption|].
  simpl. apply IH; [intros entry Hin; apply Hother; now right|].
  destruct (validate_entry_cases validators acc name' configs)
    as [[_ ->]|[_ (i' & input' & (Hi' & Hname' & _) & ->)]]; [assumption|].
  simpl. unfold Dom.write_back. simpl.
  rewrite list_lookup_insert_ne; [assumption|].
  intros ->. apply (Hother (name', configs)); [now left|]. simpl. congruence.
Qed.

Lemma fold_entries_runs_grow validators entries acc run :
  In run (Validators.runs acc) ->
  In run (Validators.runs
            (fold_left (Validators.validate_entry validators) entries acc)).
Proof.
  intros Hin.
  destruct (fold_entries_runs validators (Validators.form_after acc) entries acc
              eq_refl) as (new & -> & _).
  apply in_or_app. now left.
Qed.

(** With distinct field names, the field of each entry that resolves is
    run once, on its control as it was before the call, and the control is
    left as that run left it. *)
Lemma fold_entries_evaluates validators entries acc name configs i input :
  List.NoDup (map fst entries) ->
  In (name, configs) entries ->
  resolves (Validators.form_after acc) name i input ->
  let out := fold_left (Validators.validate_entry validators) entries acc in
  exists form_k,
    names form_k = names (Validators.form_after acc)
    /\ Dom.controls form_k !! i = Some input
    /\ let r := Validators.runValidators validators input configs form_k in
       In (Validators.mkFieldRun name (Validators.result r) (Validators.events r))
          (Validators.runs out)
       /\ Dom.controls (Validators.form_after out) !! i = Some (Validators.element r).
Proof.
  revert acc. induction entries as [|entry rest IH]; intros acc Hnodup Hin Hres;
    [destruct Hin|].
  simpl in Hnodup. apply List.NoDup_cons_iff in Hnodup as [Hfresh Hnodup].
  destruct Hin as [->|Hin].
  - simpl in *. exists (Validators.form_after acc).
    split; [reflexivity|]. split; [apply Hres|].
    destruct (validate_entry_cases validators acc name configs)
      as [[Hex _]|[_ (i' & input' & Hres' & Hacc)]].
    + exfalso. unfold exists_in in Hex. simpl in Hex.
      apply querySelector_name_Some in Hres. now rewrite Hres in Hex.
    + destruct (resolves_unique _ _ _ _ _ _ Hres' Hres) as [-> ->].
      simpl in Hacc. rewrite Hacc. split.
      * apply fold_entries_runs_grow. simpl. apply in_or_app. right. now left.
      * apply fold_entries_other_control.
        -- intros entry Hentry Heq. apply Hfresh.
           pose proof (runValidators_outcome validators input configs
                         (Validators.form_after acc)) as [Hkeep _].
           destruct Hres as (_ & Hname & _).
           apply in_map_iff. exists entry. split; [congruence | assumption].
        -- simpl. unfold Dom.write_back. simpl.
           apply list_lookup_insert_eq. destruct Hres as (Hi & _).
           eapply lookup_lt_Some; eauto.
  - assert (Hne : fst entry <> name).
    { intros Heq. apply Hfresh. rewrite Heq.
      apply in_map_iff. exists (name, configs). auto. }
    simpl.
    destruct (IH (Validators.validate_entry validators acc entry) Hnodup Hin
                (validate_entry_resolves_other _ _ _ _ _ _ Hne Hres))
      as (form_k & Hnames & Hk & Hrun).
    exists form_k. split; [|split; assumption].
    rewrite Hnames. apply validate_entry_names.
Qed.
Lemma add_idempotent classes c : Dom.add (Dom.add classes c) c = Dom.add classes c.
Proof.
  unfold Dom.add at 1. now rewrite contains_add_same.
Qed.

(** The call in terms of its loop: [start] is the state before the loop,
    the loop is a fold over the entries, and the closing test adds the
    marker again when the result is false. *)
Lemma validateFormWithCustom_loop validators form fieldValidators :
  let out := Validators.validateFormWithCustom validators form fieldValidators in
  exists start,
    let acc :=
      fold_left (Validators.validate_entry validators) fieldValidators start in
    Validators.allValid start = Dom.form_checkValidity form
    /\ Validators.runs start = []
    /\ Dom.controls (Validators.form_after start) = Dom.controls form
    /\ Validators.allValid out = Validators.allValid acc
    /\ Validators.runs out = Validators.runs acc
    /\ Dom.controls (Validators.form_after out)
       = Dom.controls (Validators.form_after acc)
    /\ Dom.formClasses (Validators.form_after out)
       = (if Validators.allValid out then Dom.formClasses form
          else Dom.add (Dom.formClasses form) "was-validated").
Proof.
  unfold Validators.validateFormWithCustom.
  set (start := if negb (Dom.form_checkValidity form) then _ else _).
  exists start.
  assert (Hstart : Validators.allValid start = Dom.form_checkValidity form
                   /\ Validators.runs start = []
                   /\ Dom.controls (Validators.form_after start) = Dom.controls form
                   /\ Dom.formClasses (Validators.form_after start)
                      = (if Dom.form_checkValidity form then Dom.formClasses form
                         else Dom.add (Dom.formClasses form) "was-validated")).
  { unfold start. now destruct (Dom.form_checkValidity form). }
  destruct Hstart as (Hs1 & Hs2 & Hs3 & Hs4).
  destruct (fold_entries_runs validators (Validators.form_after start)
              fieldValidators start eq_refl) as (new & _ & _ & Hall).
  pose proof (fold_entries_formClasses validators fieldValidators start) as Hcls.
  cbv zeta.
  set (acc := fold_left (Validators.validate_entry validators) fieldValidators start)
    in *.
  repeat split; try assumption.
  - destruct (Validators.allValid acc) eqn:Hacc; simpl; congruence.
  - now destruct (Validators.allValid acc).
  - now destruct (Validators.allValid acc).
  - destruct (Validators.allValid acc) eqn:Hacc; simpl.
    + rewrite Hacc, Hcls, Hs4.
      rewrite Hs1 in Hall. now destruct (Dom.form_checkValidity form).
    + rewrite Hcls, Hs4.
      destruct (Dom.form_checkValidity form); [reflexivity | apply add_idempotent].
Qed.

(** C2. The native form-level check never ends the call: whatever it
    returns, the runner is called once for every entry of the map whose
    field exists in the form, in the order of the entries; entries whose
    field does not exist are skipped and can be dropped from the map
    without changing the outcome; and the returned boolean is the
    conjunction of the native check with the results of all these runner
    calls. With distinct field names, each such field is run on its control
    as it was before the call and is left in the valid or invalid state by
    that run. *)
Theorem C2_orchestrator_runs_every_field
    (validators : Validators.Registry) (form : Dom.Form)
    (fieldValidators : list (string * list Validators.ValidatorConfig)) :
  let out := Validators.validateFormWithCustom validators form fieldValidators in
  map Validators.fieldName (Validators.runs out)
  = map fst (List.filter (exists_in form) fieldValidators)
  /\ Validators.allValid out
     = Dom.form_checkValidity form
       && forallb Validators.fieldValid (Validators.runs out)
  /\ Validators.validateFormWithCustom validators form
       (List.filter (exists_in form) fieldValidators) = out
  /\ (List.NoDup (map fst fieldValidators) ->
      forall name configs i input,
        In (name, configs) fieldValidators ->
        resolves form name i input ->
        exists form_k,
          names form_k = names form
          /\ Dom.controls form_k !! i = Some input
          /\ let r := Validators.runValidators validators input configs form_k in
             In (Validators.mkFieldRun name (Validators.result r) (Validators.events r))
                (Validators.runs out)
             /\ Dom.controls (Validators.form_after out) !! i
                = Some (Validators.element r)
             /\ (marked_valid (Validators.element r)
                 \/ marked_invalid (Validators.element r))).
Proof.
  intros out.
  destruct (validateFormWithCustom_loop validators form fieldValidators)
    as (start & Hnative & Hnone & Hcontrols & Hall & Hruns & Hctl & _).
  fold out in Hall, Hruns, Hctl. cbv zeta in Hall, Hruns, Hctl.
  assert (Hnames : names (Validators.form_after start) = names form)
    by (unfold names; now rewrite Hcontrols).
  destruct (fold_entries_runs validators form fieldValidators start Hnames)
    as (new & Hnew & Hfields & Hand).
  rewrite Hnone in Hnew. simpl in Hnew.
  split; [|split; [|split]].
  - now rewrite Hruns, Hnew.
  - now rewrite Hall, Hruns, Hnew, Hand, Hnative.
  - unfold out, Validators.validateFormWithCustom.
    set (start0 := if negb (Dom.form_checkValidity form) then _ else _).
    assert (Hnames0 : names (Validators.form_after start0) = names form)
      by (unfold start0; now destruct (Dom.form_checkValidity form)).
    now rewrite (fold_entries_filter validators form fieldValidators start0 Hnames0).
  - intros Hnodup name configs i input Hin Hres.
    assert (Hres' : resolves (Validators.form_after start) name i input).
    { unfold resolves in *. now rewrite Hcontrols. }
    destruct (fold_entries_evaluates validators fieldValidators start
                name configs i input Hnodup Hin Hres')
      as (form_k & Hk & Hi & Hrun & Hleft).
    exists form_k. split; [congruence|]. split; [assumption|].
    cbv zeta. rewrite Hruns, Hctl. split; [assumption|]. split; [assumption|].
    destruct (runValidators_outcome validators input configs form_k)
      as [_ [[_ Hm]|[_ Hm]]]; auto.
Qed.
Lemma C2_witness :
  let out :=
    Validators.validateFormWithCustom Samples.registry Samples.three_fields
      Samples.three_map in
  exists form_k,
    names form_k = names Samples.three_fields
    /\ Dom.controls form_k !! 2 = Some (Samples.field "note" "hello")
    /\ let r :=
         Validators.runValidators Samples.registry (Samples.field "note" "hello")
           [Validators.CfgName "nope"] form_k in
       In (Validators.mkFieldRun "note" (Validators.result r) (Validators.events r))
          (Validators.runs out)
       /\ Dom.controls (Validators.form_after out) !! 2
          = Some (Validators.element r)
       /\ (marked_valid (Validators.element r)
           \/ marked_invalid (Validators.element r)).
Proof.
  apply (C2_orchestrator_runs_every_field Samples.registry Samples.three_fields
           Samples.three_map).
  - repeat constructor; simpl; intuition discriminate.
  - simpl. auto.
  - apply querySelector_name_Some. reflexivity.
Defined.

(** The native check of the sample form fails, and its three fields are
    run all the same, the missing one being skipped. *)
Example orchestrator_probe :
  let out :=
    Validators.validateFormWithCustom Samples.registry Samples.three_fields
      Samples.three_map in
  Dom.form_checkValidity Samples.three_fields = false
  /\ map (fun run => (Validators.fieldName run, Validators.fieldValid run))
       (Validators.runs out)
     = [("phone", false); ("email", false); ("note", true)]
  /\ Validators.allValid out = false
  /\ map Dom.classList (Dom.controls (Validators.form_after out))
     = [["is-invalid"]; ["is-invalid"]; ["is-valid"]]
  /\ Dom.formClasses (Validators.form_after out) = ["was-validated"].
Proof. vm_compute. repeat split. Qed.

(** ** The display-state marker of the form *)

(** C4, as the code has it. The call leaves the class list of the form as
    it was when it returns true and adds the marker to it when it returns
    false: after a call that returns false the form carries the marker;
    after a call that returns true it carries the marker only if it did
    before. *)
Theorem C4_marker_follows_result
    (validators : Validators.Registry) (form : Dom.Form)
    (fieldValidators : list (string * list Validators.ValidatorConfig)) :
  let out := Validators.validateFormWithCustom validators form fieldValidators in
  Dom.formClasses (Validators.form_after out)
  = (if Validators.allValid out then Dom.formClasses form
     else Dom.add (Dom.formClasses form) "was-validated")
  /\ (Validators.allValid out = false ->
      was_validated_claim validators form fieldValidators)
  /\ (Validators.allValid out = true ->
      (was_validated_claim validators form fieldValidators
       <-> Dom.contains (Dom.formClasses form) "was-validated" = true)).
Proof.
  intros out.
  destruct (validateFormWithCustom_loop validators form fieldValidators)
    as (start & _ & _ & _ & _ & _ & _ & Hclasses).
  fold out in Hclasses. unfold was_validated_claim. fold out.
  split; [exact Hclasses|]. rewrite Hclasses. split; intros ->.
  - apply contains_add_same.
  - reflexivity.
Qed.

Lemma C4_witness :
  was_validated_claim Samples.registry Samples.three_fields Samples.three_map.
Proof.
  apply (proj1 (proj2 (C4_marker_follows_result Samples.registry
                          Samples.three_fields Samples.three_map))).
  reflexivity.
Defined.

(** The claim that the marker is there whatever the result fails on a form
    that passes: the call returns true and the class list stays empty. *)
Lemma C4_counterexample :
  let form := Dom.mkForm [] [Samples.field "note" "hello"] None in
  Validators.allValid
    (Validators.validateFormWithCustom Samples.registry form
       [("note", [Validators.CfgName "nope"])]) = true
  /\ ~ was_validated_claim Samples.registry form
         [("note", [Validators.CfgName "nope"])].
Proof.
  split; [reflexivity|]. intros Hclaim. discriminate Hclaim.
Qed.

(** ** The completeness sweep *)

Lemma rev_onto_empty s acc : rev_onto s acc = "" <-> s = "" /\ acc = "".
Proof.
  revert acc. induction s as [|c s IH]; intros acc; simpl.
  - tauto.
  - rewrite IH. split; [intros [_ [=]] | intros [[=] _]].
Qed.

Lemma all_ws_rev_onto s acc :
  forallb is_ws (list_ascii_of_string (rev_onto s acc))
  = forallb is_ws (list_ascii_of_string s)
    && forallb is_ws (list_ascii_of_string acc).
Proof.
  revert acc. induction s as [|c s IH]; intros acc; simpl; [reflexivity|].
  rewrite IH. simpl. destruct (is_ws c); simpl; [reflexivity|].
  now rewrite andb_false_r.
Qed.

Lemma trimStart_empty s :
  trimStart s = "" <-> forallb is_ws (list_ascii_of_string s) = true.
Proof.
  induction s as [|c s IH]; simpl; [tauto|].
  destruct (is_ws c); simpl; [exact IH | split; discriminate].
Qed.

Lemma all_ws_trimStart s :
  forallb is_ws (list_ascii_of_string (trimStart s))
  = forallb is_ws (list_ascii_of_string s).
Proof.
  induction s as [|c s IH]; simpl; [reflexivity|].
  destruct (is_ws c) eqn:E; simpl; [exact IH | now rewrite E].
Qed.

(** A string trims to the empty string exactly when it consists of white
    space. *)
Lemma trim_empty s :
  String.eqb (trim s) "" = forallb is_ws (list_ascii_of_string s).
Proof.
  destruct (forallb is_ws (list_ascii_of_string s)) eqn:E.
  - apply String.eqb_eq. unfold trim, reverse.
    apply trimStart_empty in E. rewrite E. reflexivity.
  - apply String.eqb_neq. unfold trim, reverse. intros Hempty.
    apply rev_onto_empty in Hempty as [Hempty _].
    apply trimStart_empty in Hempty.
    rewrite all_ws_rev_onto, all_ws_trimStart, E in Hempty. discriminate.
Qed.

Lemma existsb_not_ws cs :
  existsb (fun c => negb (is_ws c)) cs = negb (forallb is_ws cs).
Proof.
  induction cs as [|c cs IH]; simpl; [reflexivity|].
  rewrite IH. now destruct (is_ws c).
Qed.

(** One turn of the sweep: what it reports and what it leaves on the
    field. *)
Lemma sweep_input_spec input :
  let '(keep, input') := FormInit.sweep_input input in
  keep = filled input
  /\ input' = Dom.set_classList input (Dom.classList input')
  /\ (forall c, c <> "is-valid" -> c <> "is-invalid" ->
        Dom.contains (Dom.classList input') c = Dom.contains (Dom.classList input) c)
  /\ (filled input = true -> marked_valid input')
  /\ (filled input = false ->
      Dom.contains (Dom.classList input') "is-valid" = false
      /\ (touched input = true ->
          Dom.contains (Dom.classList input') "is-invalid" = true)
      /\ (touched input = false ->
          Dom.contains (Dom.classList input') "is-invalid"
          = Dom.contains (Dom.classList input) "is-invalid")).
Proof.
  unfold FormInit.sweep_input, filled, touched, marked_valid.
  assert (Hempty :
    (if String.eqb (Dom.type input) "select-one"
     then negb (truthy_str (Dom.value input)) || String.eqb (Dom.value input) ""
     else negb (truthy_str (Dom.value input))
          || String.eqb (trim (Dom.value input)) "")
    = negb (if String.eqb (Dom.type input) "select-one"
            then negb (String.eqb (Dom.value input) "")
            else existsb (fun c => negb (is_ws c))
                   (list_ascii_of_string (Dom.value input)))).
  { unfold truthy_str. rewrite trim_empty, existsb_not_ws.
    destruct (String.eqb (Dom.type input) "select-one");
      destruct (String.eqb_spec (Dom.value input) "") as [Hv|Hv];
      try rewrite Hv; simpl; try reflexivity; now rewrite negb_involutive. }
  rewrite Hempty. clear Hempty.
  destruct (if String.eqb (Dom.type input) "select-one" then _ else _); simpl.
  - split; [reflexivity|]. split; [reflexivity|]. split; [|split].
    + intros c Hv Hi. rewrite contains_add_other, contains_remove_other; congruence.
    + intros _. split; [apply contains_add_same|].
      rewrite contains_add_other by discriminate. apply contains_remove_same.
    + discriminate.
  - split; [reflexivity|]. split; [reflexivity|]. split; [|split].
    + intros c Hv Hi.
      destruct (Dom.contains (Dom.classList input) "was-validated-field").
      * rewrite contains_add_other, contains_remove_other; congruence.
      * rewrite contains_remove_other; congruence.
    + discriminate.
    + intros _.
      destruct (Dom.contains (Dom.classList input) "was-validated-field").
      * split; [|split; [intros _; apply contains_add_same | discriminate]].
        rewrite contains_add_other by discriminate. apply contains_remove_same.
      * split; [apply contains_remove_same|]. split; [discriminate|].
        intros _. apply contains_remove_other. discriminate.
Qed.
Lemma sweep_spec cs allValid :
  FormInit.sweep cs allValid
  = (allValid && forallb (fun e => if Dom.required e then filled e else true) cs,
     map (fun e => if Dom.required e then snd (FormInit.sweep_input e) else e) cs).
Proof.
  revert allValid. induction cs as [|input rest IH]; intros allValid; simpl.
  - now rewrite andb_true_r.
  - destruct (Dom.required input).
    + pose proof (sweep_input_spec input) as Hspec.
      destruct (FormInit.sweep_input input) as [keep input'].
      destruct Hspec as [-> _]. rewrite IH. simpl.
      destruct (filled input); simpl; [reflexivity|].
      now rewrite andb_false_r.
    + rewrite IH. reflexivity.
Qed.

Lemma validateFormFields_spec form :
  let '(allValid, after) := FormInit.validateFormFields form in
  allValid = complete form
  /\ Dom.controls after
     = map (fun e => if Dom.required e then snd (FormInit.sweep_input e) else e)
         (Dom.controls form)
  /\ Dom.formClasses after = Dom.formClasses form
  /\ Dom.submitDisabled after
     = option_map (fun _ => negb (complete form)) (Dom.submitDisabled form).
Proof.
  unfold FormInit.validateFormFields. rewrite sweep_spec. simpl.
  fold (complete form).
  destruct (Dom.submitDisabled form) eqn:E; simpl; rewrite ?E; repeat split.
Qed.

(** C6, as the code has it. The sweep leaves every field that is not
    required as it is and changes nothing but the two style markers of a
    required one. A non-empty required field gets the valid marker and
    loses the invalid one, touched or not. An empty required field loses
    the valid marker; it gets the invalid marker when it is touched and
    keeps whatever invalid marker it had when it is not. The sweep returns
    whether every required field is non-empty, and the submit control, when
    there is one, is enabled exactly in that case. *)
Theorem C6_sweep_styles_and_completeness (form : Dom.Form) :
  let allValid := fst (FormInit.validateFormFields form) in
  let after := snd (FormInit.validateFormFields form) in
  allValid = complete form
  /\ submit_follows_completeness form after
  /\ forall i input,
       Dom.controls form !! i = Some input ->
       exists input',
         Dom.controls after !! i = Some input'
         /\ (Dom.required input = false -> input' = input)
         /\ (Dom.required input = true ->
             input' = Dom.set_classList input (Dom.classList input')
             /\ (forall c, c <> "is-valid" -> c <> "is-invalid" ->
                   Dom.contains (Dom.classList input') c
                   = Dom.contains (Dom.classList input) c)
             /\ (filled input = true -> marked_valid input')
             /\ (filled input = false ->
                 Dom.contains (Dom.classList input') "is-valid" = false
                 /\ (touched input = true ->
                     Dom.contains (Dom.classList input') "is-invalid" = true)
                 /\ (touched input = false ->
                     Dom.contains (Dom.classList input') "is-invalid"
                     = Dom.contains (Dom.classList input) "is-invalid"))).
Proof.
  intros allValid after. unfold allValid, after. clear allValid after.
  pose proof (validateFormFields_spec form) as Hspec.
  destruct (FormInit.validateFormFields form) as [allValid after]. simpl.
  destruct Hspec as (Hall & Hcontrols & _ & Hsubmit).
  split; [exact Hall|]. split.
  - intros disabled Hdisabled. now rewrite Hsubmit, Hdisabled.
  - intros i input Hi. rewrite Hcontrols, list_lookup_fmap, Hi. simpl.
    eexists. split; [reflexivity|].
    destruct (Dom.required input); split; try discriminate; try reflexivity.
    intros _. pose proof (sweep_input_spec input) as Hone.
    destruct (FormInit.sweep_input input) as [keep input']. simpl.
    apply Hone.
Qed.

Lemma C6_witness :
  let form :=
    Dom.mkForm []
      [Samples.required_field "title" "   "; Samples.required_field "owner" "ann"]
      (Some false) in
  let after := snd (FormInit.validateFormFields form) in
  Dom.submitDisabled after = Some (negb (complete form)).
Proof.
  apply (C6_sweep_styles_and_completeness
           (Dom.mkForm []
              [Samples.required_field "title" "   ";
               Samples.required_field "owner" "ann"]
              (Some false)) : _ /\ submit_follows_completeness _ _ /\ _) with (disabled := false).
  reflexivity.
Defined.

(** The sweep on the form of the witness: the blank field keeps the button
    disabled and shows no style, the filled one shows the valid style though
    it was never touched. *)
Example sweep_probe :
  let form :=
    Dom.mkForm []
      [Samples.required_field "title" "   "; Samples.required_field "owner" "ann"]
      (Some false) in
  let after := snd (FormInit.validateFormFields form) in
  map Dom.classList (Dom.controls after) = [[]; ["is-valid"]]
  /\ Dom.submitDisabled after = Some true.
Proof. vm_compute. split; reflexivity. Qed.

(** The claim that an untouched required field gets neither style fails on
    a filled one: the sweep gives it the valid style. *)
Lemma C6_counterexample :
  ~ sweep_claim (Dom.mkForm [] [Samples.required_field "owner" "ann"] (Some false)).
Proof.
  intros [Hstyles _].
  specialize (Hstyles 0 (Samples.required_field "owner" "ann")
                (Dom.set_classList (Samples.required_field "owner" "ann") ["is-valid"])
                eq_refl eq_refl eq_refl eq_refl).
  destruct Hstyles as [Hvalid _]. discriminate (Hvalid eq_refl).
Qed.

(** ** The picker change handler *)

Lemma sweep_input_customValidity input :
  Dom.customValidity (snd (FormInit.sweep_input input)) = Dom.customValidity input.
Proof.
  pose proof (sweep_input_spec input) as Hspec.
  destruct (FormInit.sweep_input input) as [keep input'].
  destruct Hspec as (_ & -> & _). reflexivity.
Qed.

(** The change handler of a picker empties the message of its control and
    marks it touched. *)
Lemma onChange_clears form i input :
  Dom.controls form !! i = Some input ->
  exists input',
    Dom.controls (FormInit.onChange form i) !! i = Some input'
    /\ Dom.customValidity input' = ""
    /\ touched input' = true.
Proof.
  intros Hi. unfold FormInit.onChange. rewrite Hi.
  set (changed := Dom.set_classList (Dom.setCustomValidity input "") _).
  pose proof (validateFormFields_spec (Dom.write_back form i changed)) as Hspec.
  destruct (FormInit.validateFormFields (Dom.write_back form i changed))
    as [allValid after].
  destruct Hspec as (_ & Hcontrols & _). simpl.
  rewrite Hcontrols, list_lookup_fmap. unfold Dom.write_back. simpl.
  rewrite list_lookup_insert_eq by (eapply lookup_lt_Some; eauto). simpl.
  eexists. split; [reflexivity|].
  assert (Htouched : touched changed = true)
    by (unfold touched, changed; simpl; apply contains_add_same).
  destruct (Dom.required input); [|split; [reflexivity | exact Htouched]].
  split; [now rewrite sweep_input_customValidity|].
  pose proof (sweep_input_spec changed) as Hone.
  destruct (FormInit.sweep_input changed) as [keep changed'].
  destruct Hone as (_ & _ & Hother & _). simpl. unfold touched.
  rewrite Hother by discriminate. exact Htouched.
Qed.

(** ** The body of a toast *)

Lemma is_special_cases c :
  Helpers.is_special c = true ->
  c = Helpers.c_amp \/ c = Helpers.c_lt \/ c = Helpers.c_gt
  \/ c = Helpers.c_quot \/ c = Helpers.c_apos.
Proof.
  unfold Helpers.is_special. rewrite !orb_true_iff, !Ascii.eqb_eq. tauto.
Qed.




(** A message that is not a string goes through [escapeHTML] as it is and
    reaches the body as its string conversion. *)
Lemma toast_body_not_a_string message :
  (forall s, message <> JStr s) ->
  Helpers.toast_body message = ToString message.
Proof.
  intros Hother. destruct message; try reflexivity. now destruct (Hother s).
Qed.


Example toast_body_escaped :
  Helpers.toast_body (JStr "<img src=x onerror='alert(1)'> & more")
  = "&lt;img src=x onerror=&#039;alert(1)&#039;&gt; &amp; more".
Proof. reflexivity. Qed.



(* ===================================================================== *)
(** * Further properties                                                   *)
(* ===================================================================== *)

(** ** The runner, as a whole *)

Lemma run_custom_result validators input configs form :
  Validators.result (Validators.run_custom validators input configs form)
  = forallb (entry_passes validators input form) configs.
Proof.
  induction configs as [|config rest IH]; simpl; [reflexivity|].
  unfold entry_passes at 1.
  destruct (Validators.lookup validators (Validators.config_name config)) as [v|];
    simpl; [|exact IH].
  destruct (Validators.valid
              (v (Dom.value input) (Validators.config_options config) form));
    simpl; [exact IH | reflexivity].
Qed.

Lemma run_custom_success validators input configs form :
  Validators.result (Validators.run_custom validators input configs form) = true ->
  Validators.element (Validators.run_custom validators input configs form)
  = Validators.applyValidState input.
Proof.
  intros Hok.
  destruct (run_custom_outcome validators input configs form)
    as [[_ He]|[Hr _]]; [exact He | congruence].
Qed.

Lemma runValidators_success validators input configs form :
  Validators.result (Validators.runValidators validators input configs form) = true ->
  Dom.checkValidity input = true
  /\ Validators.element (Validators.runValidators validators input configs form)
     = Validators.applyValidState input.
Proof.
  unfold Validators.runValidators.
  destruct (Dom.checkValidity input); simpl; [|discriminate].
  intros Hok. split; [reflexivity | now apply run_custom_success].
Qed.

(** The runner returns true exactly when the native check passes and no
    entry fails, an unregistered one counting as passing. A true return
    leaves the control marked valid with an empty custom-validity message,
    a false return leaves it marked invalid. *)
Theorem runValidators_result
    (validators : Validators.Registry) (input : Dom.Element)
    (configs : list Validators.ValidatorConfig) (form : Dom.Form) :
  let r := Validators.runValidators validators input configs form in
  Validators.result r
  = Dom.checkValidity input && forallb (entry_passes validators input form) configs
  /\ (Validators.result r = true ->
        marked_valid (Validators.element r)
        /\ Dom.customValidity (Validators.element r) = "")
  /\ (Validators.result r = false -> marked_invalid (Validators.element r)).
Proof.
  intros r. split; [|split].
  - unfold r, Validators.runValidators.
    destruct (Dom.checkValidity input); simpl; [apply run_custom_result | reflexivity].
  - intros Hok. destruct (runValidators_success _ _ _ _ Hok) as [_ He].
    fold r in He. rewrite He. apply applyValidState_marked.
  - intros Hko.
    destruct (runValidators_outcome validators input configs form)
      as [_ [[Hr _]|[_ Hm]]]; [fold r in Hr; congruence | exact Hm].
Qed.

Lemma forallb_permutation {A} (f : A -> bool) (l l' : list A) :
  Permutation l l' -> forallb f l = forallb f l'.
Proof.
  induction 1 as [|x l l' _ IH|x y l|l l' l'' _ IH1 _ IH2]; simpl.
  - reflexivity.
  - now rewrite IH.
  - now destruct (f x), (f y).
  - congruence.
Qed.

(** The boolean the runner returns does not depend on the order of the
    entries, and neither does the state it leaves on the control when it
    returns true. *)
Theorem runValidators_order_independent
    (validators : Validators.Registry) (input : Dom.Element)
    (configs configs' : list Validators.ValidatorConfig) (form : Dom.Form) :
  Permutation configs configs' ->
  let r := Validators.runValidators validators input configs form in
  let r' := Validators.runValidators validators input configs' form in
  Validators.result r = Validators.result r'
  /\ (Validators.result r = true -> Validators.element r = Validators.element r').
Proof.
  intros Hperm r r'.
  assert (Hres : Validators.result r = Validators.result r').
  { unfold r, r', Validators.runValidators.
    destruct (Dom.checkValidity input); simpl; [|reflexivity].
    rewrite !run_custom_result. now apply forallb_permutation. }
  split; [exact Hres|]. intros Hok.
  assert (Hok' : Validators.result r' = true) by congruence.
  unfold r, r', Validators.runValidators in *.
  destruct (Dom.checkValidity input); simpl in *; [|discriminate].
  now rewrite (run_custom_success _ _ _ _ Hok), (run_custom_success _ _ _ _ Hok').
Qed.

Lemma runValidators_order_witness :
  let input := Samples.field "phone" "12345" in
  let form := Dom.mkForm [] [input] None in
  Validators.result
    (Validators.runValidators Samples.registry input
       [Validators.CfgName "phone"; Validators.CfgName "strict"] form)
  = Validators.result
      (Validators.runValidators Samples.registry input
         [Validators.CfgName "strict"; Validators.CfgName "phone"] form).
Proof.
  apply (runValidators_order_independent Samples.registry
           (Samples.field "phone" "12345")
           [Validators.CfgName "phone"; Validators.CfgName "strict"]
           [Validators.CfgName "strict"; Validators.CfgName "phone"]
           (Dom.mkForm [] [Samples.field "phone" "12345"] None)).
  apply perm_swap.
Defined.

Lemma same_control_applyInvalidState input message :
  same_control input (Validators.applyInvalidState input message).
Proof.
  unfold same_control, Validators.applyInvalidState. simpl.
  destruct (truthy message); simpl; [|tauto].
  destruct (Dom.feedback input); simpl; tauto.
Qed.

Lemma feedback_applyInvalidState input message :
  Dom.feedback input = None ->
  Dom.feedback (Validators.applyInvalidState input message) = None.
Proof.
  intros Hnone. unfold Validators.applyInvalidState. simpl.
  destruct (truthy message); simpl; [|assumption].
  now rewrite Hnone.
Qed.

Lemma runValidators_cases validators input configs form :
  let after :=
    Validators.element (Validators.runValidators validators input configs form) in
  after = Validators.applyValidState input
  \/ exists message, after = Validators.applyInvalidState input message.
Proof.
  intros after. unfold after, Validators.runValidators.
  destruct (Dom.checkValidity input); simpl; [|right; eauto].
  destruct (run_custom_outcome validators input configs form)
    as [[_ He]|[_ [message He]]]; [left | right; eauto]; exact He.
Qed.

(** The runner changes nothing of the control but its two style markers,
    its custom-validity message and the text of its feedback element: the
    name, type, value and flags of the control stay, every other class
    stays, and a control without a feedback element does not get one. *)
Theorem runValidators_frame
    (validators : Validators.Registry) (input : Dom.Element)
    (configs : list Validators.ValidatorConfig) (form : Dom.Form) :
  let after :=
    Validators.element (Validators.runValidators validators input configs form) in
  same_control input after
  /\ (forall c, not_a_marker c ->
        Dom.contains (Dom.classList after) c = Dom.contains (Dom.classList input) c)
  /\ (Dom.feedback input = None -> Dom.feedback after = None).
Proof.
  intros after.
  destruct (runValidators_cases validators input configs form)
    as [He|[message He]]; fold after in He; rewrite He.
  - split; [|split].
    + unfold same_control. simpl. tauto.
    + intros c [Hv Hi]. simpl.
      rewrite contains_add_other, contains_remove_other; congruence.
    + intros Hnone. exact Hnone.
  - split; [|split].
    + apply same_control_applyInvalidState.
    + intros c [Hv Hi]. rewrite classList_applyInvalidState.
      rewrite contains_add_other, contains_remove_other; congruence.
    + apply feedback_applyInvalidState.
Qed.
(** A rejection with a message blocks the control. On a control that takes
    part in constraint validation, once the runner has failed on a
    validator whose message converts to a non-empty text, every later run
    fails at the native check without invoking a validator, whatever the
    registry, the entries, the form and the value the control has by then,
    as long as the control still holds the message. *)
Theorem rejection_blocks_later_runs
    (validators : Validators.Registry) (input : Dom.Element)
    (configs : list Validators.ValidatorConfig) (form : Dom.Form)
    (i : nat) (res : Validators.ValidationResult) :
  Dom.checkValidity input = true ->
  first_failure validators input configs form i res ->
  truthy (Validators.message res) = true ->
  ToString (Validators.message res) <> "" ->
  let after :=
    Validators.element (Validators.runValidators validators input configs form) in
  Dom.customValidity after = ToString (Validators.message res)
  /\ forall validators' later configs' form',
       Dom.willValidate later = true ->
       Dom.customValidity later = Dom.customValidity after ->
       Validators.runValidators validators' later configs' form'
       = Validators.mkRun false (Validators.applyInvalidState later JUndefined) [].
Proof.
  intros Hnative Hff Htruthy Htext after.
  destruct (runValidators_first_failure _ _ _ _ _ _ Hnative Hff) as [_ Hel].
  assert (Hmsg : Dom.customValidity after = ToString (Validators.message res)).
  { unfold after. rewrite Hel.
    apply (proj1 (applyInvalidState_message input (Validators.message res))).
    exact Htruthy. }
  split; [exact Hmsg|].
  intros validators' later configs' form' Hwill Hsame.
  apply runValidators_native_branch.
  apply checkValidity_custom_message; [exact Hwill | congruence].
Qed.

Lemma rejection_blocks_witness :
  let input := Samples.field "phone" "12345" in
  let form := Dom.mkForm [] [input] None in
  let after :=
    Validators.element
      (Validators.runValidators Samples.registry input
         [Validators.CfgName "phone"] form) in
  let corrected :=
    Dom.mkElement "phone" "text" "123-456-7890" false false
      (Dom.classList after) true false (Dom.customValidity after) None in
  Validators.runValidators Samples.registry corrected [Validators.CfgName "phone"]
    (Dom.mkForm [] [corrected] None)
  = Validators.mkRun false (Validators.applyInvalidState corrected JUndefined) [].
Proof.
  apply (rejection_blocks_later_runs Samples.registry
           (Samples.field "phone" "12345") [Validators.CfgName "phone"]
           (Dom.mkForm [] [Samples.field "phone" "12345"] None) 0
           (Validators.mkResult false (JStr "Phone number must be 10-15 digits"))).
  - reflexivity.
  - split.
    + exists (Validators.CfgName "phone"), Validators.phone.
      repeat split; reflexivity.
    + intros j config validator Hj. lia.
  - reflexivity.
  - discriminate.
  - reflexivity.
  - reflexivity.
Defined.

Lemma remove_remove_comm classes c c' :
  Dom.remove (Dom.remove classes c) c' = Dom.remove (Dom.remove classes c') c.
Proof.
  unfold Dom.remove. induction classes as [|x classes IH]; simpl; [reflexivity|].
  destruct (negb (String.eqb c x)) eqn:Ec, (negb (String.eqb c' x)) eqn:Ec';
    simpl; rewrite ?Ec, ?Ec'; congruence.
Qed.

Lemma remove_absent classes c :
  Dom.contains classes c = false -> Dom.remove classes c = classes.
Proof.
  unfold Dom.contains, Dom.remove.
  induction classes as [|x classes IH]; simpl; [reflexivity|].
  destruct (String.eqb c x); simpl; [discriminate|]. intros H. now rewrite IH.
Qed.

Lemma remove_app classes classes' c :
  Dom.remove (classes ++ classes') c = Dom.remove classes c ++ Dom.remove classes' c.
Proof. unfold Dom.remove. apply List.filter_app. Qed.

(** Removing a class that has just been added gives the list without the
    class. *)
Lemma remove_add_same classes c : Dom.remove (Dom.add classes c) c = Dom.remove classes c.
Proof.
  unfold Dom.add. destruct (Dom.contains classes c); [reflexivity|].
  rewrite remove_app. simpl. rewrite String.eqb_refl. simpl. apply app_nil_r.
Qed.

Lemma clear_classes_after_marking classes c c' :
  Dom.remove (Dom.remove (Dom.add (Dom.remove classes c) c') c) c'
  = Dom.remove (Dom.remove classes c) c'.
Proof.
  rewrite (remove_remove_comm (Dom.add _ _)), remove_add_same.
  rewrite (remove_remove_comm (Dom.remove classes c) c' c).
  rewrite (remove_absent (Dom.remove classes c) c) by apply contains_remove_same.
  reflexivity.
Qed.

(** [clearValidationState] undoes what the runner did to the style markers
    and the message: applied to the control the runner leaves, it gives
    what it gives on the control before the run, up to the text of the
    feedback element, which it never touches. The control it leaves
    carries neither marker and no message. *)
Theorem clearValidationState_undoes_runner
    (validators : Validators.Registry) (input : Dom.Element)
    (configs : list Validators.ValidatorConfig) (form : Dom.Form) :
  let after :=
    Validators.element (Validators.runValidators validators input configs form) in
  let cleared := Validators.clearValidationState after in
  Dom.classList cleared = Dom.classList (Validators.clearValidationState input)
  /\ Dom.customValidity cleared = ""
  /\ Dom.contains (Dom.classList cleared) "is-valid" = false
  /\ Dom.contains (Dom.classList cleared) "is-invalid" = false
  /\ Dom.feedback cleared = Dom.feedback after
  /\ (Dom.feedback input = None ->
        cleared = Validators.clearValidationState input).
Proof.
  intros after cleared.
  assert (Hclasses : Dom.classList cleared
                     = Dom.classList (Validators.clearValidationState input)).
  { unfold cleared, after, Validators.runValidators.
    destruct (Dom.checkValidity input); simpl.
    - destruct (run_custom_outcome validators input configs form)
        as [[_ He]|[_ [message He]]]; rewrite He.
      + simpl. rewrite (remove_remove_comm (Dom.add _ _)).
        rewrite clear_classes_after_marking. apply remove_remove_comm.
      + simpl. rewrite classList_applyInvalidState.
        apply clear_classes_after_marking.
    - apply clear_classes_after_marking. }
  split; [exact Hclasses|]. split; [reflexivity|].
  split; [|split; [|split]].
  - simpl. rewrite contains_remove_other by discriminate. apply contains_remove_same.
  - simpl. apply contains_remove_same.
  - reflexivity.
  - intros Hnone.
    assert (Hframe : same_control input after
                     /\ (Dom.feedback input = None -> Dom.feedback after = None)).
    { destruct (runValidators_cases validators input configs form)
        as [He|[message He]]; fold after in He; rewrite He.
      - split; [unfold same_control; simpl; tauto | intros H; exact H].
      - split; [apply same_control_applyInvalidState
               | apply feedback_applyInvalidState]. }
    destruct Hframe as ((Hn & Ht & Hv & Hc & Hr & Hw & Hb) & Hfeedback).
    fold after in Hn, Ht, Hv, Hc, Hr, Hw, Hb, Hfeedback.
    specialize (Hfeedback Hnone).
    unfold cleared in *. unfold Validators.clearValidationState in *.
    simpl in *. unfold Dom.setCustomValidity, Dom.set_classList. simpl.
    rewrite Hclasses, Hn, Ht, Hv, Hc, Hr, Hw, Hb, Hfeedback, Hnone. reflexivity.
Qed.

Lemma lookup_register_other validators name fn k :
  k <> JStr name ->
  Validators.lookup (Validators.registerValidator validators name fn) k
  = Validators.lookup validators k.
Proof.
  intros Hne. destruct k; try reflexivity. simpl.
  apply get_set_other. congruence.
Qed.

(** Registering a validator changes nothing for the entries that do not
    name it: the runner gives the same outcome, log included, with the
    registry before and after the registration. *)
Theorem registration_is_local
    (validators : Validators.Registry) (name : string) (fn : Validators.Validator)
    (input : Dom.Element) (configs : list Validators.ValidatorConfig)
    (form : Dom.Form) :
  (forall config, In config configs -> Validators.config_name config <> JStr name) ->
  Validators.runValidators (Validators.registerValidator validators name fn)
    input configs form
  = Validators.runValidators validators input configs form.
Proof.
  intros Hother. unfold Validators.runValidators.
  destruct (Dom.checkValidity input); simpl; [|reflexivity].
  induction configs as [|config rest IH]; simpl; [reflexivity|].
  rewrite lookup_register_other by (apply Hother; now left).
  rewrite IH by (intros c Hin; apply Hother; now right).
  reflexivity.
Qed.

Lemma registration_is_local_witness :
  let input := Samples.field "phone" "12345" in
  let form := Dom.mkForm [] [input] None in
  Validators.runValidators
    (Validators.registerValidator Samples.registry "strict" Samples.silent)
    input [Validators.CfgName "phone"; Validators.CfgName "nope"] form
  = Validators.runValidators Samples.registry input
      [Validators.CfgName "phone"; Validators.CfgName "nope"] form.
Proof.
  apply (registration_is_local Samples.registry "strict" Samples.silent).
  intros config [<-|[<-|[]]]; discriminate.
Defined.
(** ** The built-in validators *)

Lemma truthy_or_default v d : d <> "" -> truthy (Validators.or_default v d) = true.
Proof.
  intros Hd. unfold Validators.or_default. destruct (truthy v) eqn:E; [exact E|].
  simpl. now apply truthy_str_true.
Qed.

Lemma dateRange_message `{DateParser} value options form :
  Validators.valid (Validators.dateRange value options form) = false ->
  truthy (Validators.message (Validators.dateRange value options form)) = true.
Proof.
  unfold Validators.dateRange.
  destruct (Dom.querySelector_name form (ToString (prop options "startField")))
    as [[i startInput]|]; [|discriminate].
  destruct (Dom.querySelector_name form (ToString (prop options "endField")))
    as [[j endInput]|]; [|discriminate].
  destruct (negb (truthy_str (Dom.value startInput))
            || negb (truthy_str (Dom.value endInput))); [discriminate|].
  destruct (Date_parse (Dom.value startInput)) as [startDate|]; [|reflexivity].
  destruct (Date_parse (Dom.value endInput)) as [endDate|]; [|reflexivity].
  destruct (endDate <=? startDate)%Z; [|discriminate].
  intros _. simpl. now apply truthy_or_default.
Qed.

Lemma phone_message value options form :
  Validators.valid (Validators.phone value options form) = false ->
  truthy (Validators.message (Validators.phone value options form)) = true.
Proof.
  unfold Validators.phone.
  destruct (negb (truthy_str value)); [discriminate|].
  destruct ((String.length (digitsOnly value) <? 10)%nat
            || (15 <? String.length (digitsOnly value))%nat); [|discriminate].
  intros _. simpl. now apply truthy_or_default.
Qed.

Lemma matchField_message value options form :
  Validators.valid (Validators.matchField value options form) = false ->
  truthy (Validators.message (Validators.matchField value options form)) = true.
Proof.
  unfold Validators.matchField.
  destruct (Dom.querySelector_name form (ToString (prop options "field")))
    as [[i targetInput]|]; [|discriminate].
  destruct (negb (String.eqb value (Dom.value targetInput))); [|discriminate].
  intros _. simpl. now apply truthy_or_default.
Qed.

Lemma conditionalRequired_message value options form :
  Validators.valid (Validators.conditionalRequired value options form) = false ->
  truthy (Validators.message (Validators.conditionalRequired value options form))
  = true.
Proof.
  unfold Validators.conditionalRequired.
  destruct (Dom.querySelector_name form (ToString (prop options "field")))
    as [[i targetInput]|]; [|discriminate].
  match goal with |- context [if ?c then Validators.mkResult _ _ else _] =>
    destruct c end; [|discriminate].
  intros _. simpl. now apply truthy_or_default.
Qed.

Lemma validators_entries `{DateParser} :
  Validators.validators
  = [("dateRange", Validators.dateRange); ("phone", Validators.phone);
     ("matchField", Validators.matchField);
     ("conditionalRequired", Validators.conditionalRequired)].
Proof. reflexivity. Qed.

(** Every validator of the registry as the module loads it gives a truthy
    message whenever it rejects: a rejection by a built-in rule always
    reaches [setCustomValidity]. *)
Theorem builtin_rejections_carry_a_message `{DateParser}
    (name : string) (validator : Validators.Validator)
    (value : string) (options : gmap string JsVal) (form : Dom.Form) :
  Validators.getValidator Validators.validators name = Some validator ->
  Validators.valid (validator value options form) = false ->
  truthy (Validators.message (validator value options form)) = true.
Proof.
  unfold Validators.getValidator. rewrite validators_entries. cbn [JsMap.get].
  destruct (String.eqb "dateRange" name);
    [intros [= <-]; apply dateRange_message|].
  destruct (String.eqb "phone" name);
    [intros [= <-]; apply phone_message|].
  destruct (String.eqb "matchField" name);
    [intros [= <-]; apply matchField_message|].
  destruct (String.eqb "conditionalRequired" name);
    [intros [= <-]; apply conditionalRequired_message | discriminate].
Qed.

Lemma builtin_rejections_witness :
  truthy
    (Validators.message
       (Validators.phone "12345" ∅ (Dom.mkForm [] [] None))) = true.
Proof.
  apply (builtin_rejections_carry_a_message (H := IsoMinutes.parser)
           "phone" Validators.phone "12345" ∅ (Dom.mkForm [] [] None));
    reflexivity.
Defined.

(** The rules that look at another field do nothing without the option
    that names it: the name reads as the text "undefined", so on a form with
    no control of that name [dateRange] accepts when [startField] or
    [endField] is missing, and [matchField] and [conditionalRequired] accept
    when [field] is missing. An entry given as a bare name has no option at
    all. *)
Theorem cross_field_rules_need_their_options `{DateParser}
    (value : string) (options : gmap string JsVal) (form : Dom.Form) :
  absent form "undefined" ->
  ((prop options "startField" = JUndefined \/ prop options "endField" = JUndefined) ->
     Validators.dateRange value options form = Validators.passed)
  /\ (prop options "field" = JUndefined ->
        Validators.matchField value options form = Validators.passed
        /\ Validators.conditionalRequired value options form = Validators.passed)
  /\ (forall n k, prop (Validators.config_options (Validators.CfgName n)) k
                  = JUndefined).
Proof.
  intros Habsent. apply querySelector_name_None in Habsent.
  split; [|split].
  - unfold Validators.dateRange. intros [-> | ->]; simpl; rewrite Habsent.
    + reflexivity.
    + destruct (Dom.querySelector_name form (ToString (prop options "startField")))
        as [[i startInput]|]; reflexivity.
  - intros Hfield. unfold Validators.matchField, Validators.conditionalRequired.
    rewrite Hfield. simpl. now rewrite Habsent.
  - intros n k. reflexivity.
Qed.

Lemma cross_field_rules_witness :
  @Validators.dateRange IsoMinutes.parser "" ∅
    (Samples.range_form "2030-01-02T00:00" "2030-01-01T00:00")
  = Validators.passed.
Proof.
  apply (cross_field_rules_need_their_options (H := IsoMinutes.parser) "" ∅
           (Samples.range_form "2030-01-02T00:00" "2030-01-01T00:00")).
  - apply querySelector_name_None. reflexivity.
  - left. reflexivity.
Defined.

Lemma length_digitsOnly s : String.length (digitsOnly s) = digit_count s.
Proof.
  unfold digit_count. induction s as [|c s IH]; simpl; [reflexivity|].
  destruct (is_digit c); simpl; now rewrite IH.
Qed.

(** [phone] accepts the empty value and otherwise counts digits only: a
    non-empty value passes exactly when it holds between 10 and 15 digits,
    whatever other characters stand between them and whatever the form and
    the options are. *)
Theorem phone_counts_digits
    (value : string) (options : gmap string JsVal) (form : Dom.Form) :
  Validators.valid (Validators.phone value options form) = true
  <-> value = "" \/ 10 <= digit_count value <= 15.
Proof.
  unfold Validators.phone. rewrite length_digitsOnly.
  destruct (truthy_str value) eqn:E; simpl.
  - apply truthy_str_true in E.
    destruct (Nat.ltb_spec (digit_count value) 10);
      destruct (Nat.ltb_spec 15 (digit_count value)); simpl;
      split; intros Hv; try discriminate; try (right; lia); try reflexivity;
      destruct Hv as [Hv|Hv]; try contradiction; lia.
  - apply truthy_str_false in E. split; auto.
Qed.

(** [conditionalRequired] accepts when the target field is missing and
    whenever the value holds something other than white space. With a
    target that is not a checkbox it rejects exactly a blank value while the
    target's value is the string given as [equals]; with a checkbox it
    rejects exactly a blank value while the box is checked and [equals] is
    [true], or unchecked and [equals] is anything else. *)
Theorem conditionalRequired_rule
    (value : string) (options : gmap string JsVal) (form : Dom.Form) :
  let r := Validators.conditionalRequired value options form in
  let field := ToString (prop options "field") in
  let equals := prop options "equals" in
  (absent form field -> Validators.valid r = true)
  /\ (blank value = false -> Validators.valid r = true)
  /\ (forall i target,
        resolves form field i target ->
        (Dom.type target <> "checkbox" ->
           (Validators.valid r = false
            <-> blank value = true /\ equals = JStr (Dom.value target)))
        /\ (Dom.type target = "checkbox" ->
              (Validators.valid r = false
               <-> blank value = true /\ Dom.checked target = is_true equals))).
Proof.
  intros r field equals. unfold r, Validators.conditionalRequired.
  fold field equals. unfold truthy_str. rewrite negb_involutive, trim_empty.
  fold (blank value).
  split; [|split].
  - intros Habsent. apply querySelector_name_None in Habsent. now rewrite Habsent.
  - intros ->. destruct (Dom.querySelector_name form field) as [[i t]|];
      [|reflexivity]. now rewrite andb_false_r.
  - intros i target Hres. apply querySelector_name_Some in Hres. rewrite Hres.
    split.
    + intros Htype. apply String.eqb_neq in Htype. rewrite Htype.
      destruct (blank value); [|rewrite andb_false_r; simpl; split;
                                 [discriminate | intros [[=] _]]].
      rewrite andb_true_r. unfold str_strict_eq.
      destruct equals as [| |b|s|items]; simpl;
        try (split; [discriminate | intros [_ [=]]]).
      destruct (String.eqb_spec (Dom.value target) s) as [->|Hne]; simpl.
      * split; auto.
      * split; [discriminate | intros [_ [= Heq]]; congruence].
    + intros Htype. apply String.eqb_eq in Htype. rewrite Htype.
      destruct (blank value); [|rewrite andb_false_r; simpl; split;
                                 [discriminate | intros [[=] _]]].
      rewrite andb_true_r.
      destruct (is_true equals), (Dom.checked target); simpl;
        split; auto; try discriminate; intros [_ [=]].
Qed.

(** [matchField] compares the value with the target's value character by
    character: it accepts exactly when the target field is missing or holds
    the same string. Between two fields of a form the verdict is the same
    in both directions. *)
Theorem matchField_exact_and_symmetric
    (value : string) (options : gmap string JsVal) (form : Dom.Form) :
  let field := ToString (prop options "field") in
  (Validators.valid (Validators.matchField value options form) = true
   <-> absent form field
       \/ exists i target, resolves form field i target /\ Dom.value target = value)
  /\ (forall i a j b options',
        resolves form (ToString (prop options' "field")) i a ->
        resolves form field j b ->
        Validators.valid (Validators.matchField (Dom.value a) options form)
        = Validators.valid (Validators.matchField (Dom.value b) options' form)).
Proof.
  intros field. split.
  - unfold Validators.matchField. fold field.
    destruct (Dom.querySelector_name form field) as [[i target]|] eqn:E.
    + apply querySelector_name_Some in E.
      destruct (String.eqb_spec value (Dom.value target)) as [Heq|Hne]; simpl.
      * split; auto. intros _. right. eauto.
      * split; [discriminate|]. intros [Habs|(i' & t' & Hres & Hv)].
        -- destruct E as (Hi & Hn & _). exfalso. apply (Habs target); auto.
           apply list_elem_of_In. eapply list_elem_of_lookup_2; eauto.
        -- destruct (resolves_unique _ _ _ _ _ _ E Hres) as [_ <-]. congruence.
    + apply querySelector_name_None in E. split; auto.
  - intros i a j b options' Ha Hb.
    apply querySelector_name_Some in Ha, Hb.
    unfold Validators.matchField. fold field. rewrite Ha, Hb.
    rewrite (String.eqb_sym (Dom.value b) (Dom.value a)).
    now destruct (String.eqb (Dom.value a) (Dom.value b)).
Qed.
(** ** The orchestrator, as a whole *)

Lemma markers_only_refl e : markers_only e e.
Proof. unfold markers_only, same_control. tauto. Qed.

Lemma markers_only_trans e1 e2 e3 :
  markers_only e1 e2 -> markers_only e2 e3 -> markers_only e1 e3.
Proof.
  unfold markers_only, same_control.
  intros [(N1 & T1 & V1 & C1 & R1 & W1 & B1) K1] [(N2 & T2 & V2 & C2 & R2 & W2 & B2) K2].
  repeat split; try congruence.
  intros c Hc. rewrite (K2 c Hc). now apply K1.
Qed.

Lemma runValidators_markers_only validators input configs form :
  markers_only input
    (Validators.element (Validators.runValidators validators input configs form)).
Proof.
  assert (Hcases :
    Validators.element (Validators.runValidators validators input configs form)
    = Validators.applyValidState input
    \/ exists message,
         Validators.element (Validators.runValidators validators input configs form)
         = Validators.applyInvalidState input message).
  { unfold Validators.runValidators.
    destruct (Dom.checkValidity input); simpl; [|right; eauto].
    destruct (run_custom_outcome validators input configs form)
      as [[_ He]|[_ [message He]]]; [left | right; eauto]; exact He. }
  destruct Hcases as [->|[message ->]]; split.
  - unfold same_control. simpl. tauto.
  - intros c [Hv Hi]. simpl.
    rewrite contains_add_other, contains_remove_other; congruence.
  - apply same_control_applyInvalidState.
  - intros c [Hv Hi]. rewrite classList_applyInvalidState.
    rewrite contains_add_other, contains_remove_other; congruence.
Qed.

(** One turn of the loop changes at most the control its entry resolves
    to, and that one in its markers, message and feedback only. *)
Lemma validate_entry_frame validators acc entry :
  let acc' := Validators.validate_entry validators acc entry in
  Forall2 markers_only (Dom.controls (Validators.form_after acc))
    (Dom.controls (Validators.form_after acc'))
  /\ Dom.submitDisabled (Validators.form_after acc')
     = Dom.submitDisabled (Validators.form_after acc)
  /\ (forall i,
        Dom.index_of_name (Dom.controls (Validators.form_after acc)) (fst entry)
        <> Some i ->
        Dom.controls (Validators.form_after acc') !! i
        = Dom.controls (Validators.form_after acc) !! i).
Proof.
  destruct entry as [name configs]. cbv zeta.
  destruct (validate_entry_cases validators acc name configs)
    as [[_ ->]|[_ (i & input & Hres & ->)]].
  - split; [|split; [reflexivity | reflexivity]].
    apply Forall2_same_length_lookup_2; [reflexivity|].
    intros j x y Hx Hy. rewrite Hx in Hy. injection Hy as <-. apply markers_only_refl.
  - simpl. destruct Hres as (Hi & Hname & Hfirst). split; [|split].
    + apply Forall2_same_length_lookup_2; [now rewrite length_insert|].
      intros j x y Hx Hy. destruct (Nat.eq_dec i j) as [<-|Hij].
      * rewrite list_lookup_insert_eq in Hy by (eapply lookup_lt_Some; eauto).
        injection Hy as <-. rewrite Hi in Hx. injection Hx as <-.
        apply runValidators_markers_only.
      * rewrite list_lookup_insert_ne in Hy by assumption.
        rewrite Hx in Hy. injection Hy as <-. apply markers_only_refl.
    + reflexivity.
    + intros j Hj. apply list_lookup_insert_ne. intros <-. apply Hj.
      apply index_of_name_Some. eauto.
Qed.

Lemma Forall2_markers_only_trans l1 l2 l3 :
  Forall2 markers_only l1 l2 -> Forall2 markers_only l2 l3 ->
  Forall2 markers_only l1 l3.
Proof.
  intros H12. revert l3. induction H12 as [|x y l1 l2 Hxy _ IH]; intros l3 H23.
  - inversion H23. constructor.
  - inversion H23 as [|y' z l2' l3' Hyz Hrest]; subst.
    constructor; [eapply markers_only_trans; eauto | now apply IH].
Qed.

Lemma Forall2_markers_only_names l1 l2 :
  Forall2 markers_only l1 l2 -> map Dom.name l1 = map Dom.name l2.
Proof.
  induction 1 as [|x y l1 l2 [(Hn & _) _] _ IH]; simpl; [reflexivity|]. congruence.
Qed.

Lemma fold_entries_frame validators entries acc :
  let out := fold_left (Validators.validate_entry validators) entries acc in
  Forall2 markers_only (Dom.controls (Validators.form_after acc))
    (Dom.controls (Validators.form_after out))
  /\ Dom.submitDisabled (Validators.form_after out)
     = Dom.submitDisabled (Validators.form_after acc)
  /\ (forall i,
        (forall entry, In entry entries ->
           Dom.index_of_name (Dom.controls (Validators.form_after acc)) (fst entry)
           <> Some i) ->
        Dom.controls (Validators.form_after out) !! i
        = Dom.controls (Validators.form_after acc) !! i).
Proof.
  revert acc. induction entries as [|entry rest IH]; intros acc; simpl.
  - split; [|split; [reflexivity | reflexivity]].
    apply Forall2_same_length_lookup_2; [reflexivity|].
    intros j x y Hx Hy. rewrite Hx in Hy. injection Hy as <-. apply markers_only_refl.
  - destruct (validate_entry_frame validators acc entry) as (Hstep & Hsub & Hkeep).
    destruct (IH (Validators.validate_entry validators acc entry))
      as (Hrest & Hsub' & Hkeep').
    split; [eapply Forall2_markers_only_trans; eauto|].
    split; [congruence|].
    intros i Hi. rewrite Hkeep'.
    + apply Hkeep. apply Hi. now left.
    + intros e He.
      rewrite <- (index_of_name_names _ _ (fst e)
                    (Forall2_markers_only_names _ _ Hstep)).
      apply Hi. now right.
Qed.

(** The orchestrator never changes the value, name, type or flags of a
    control, nor a class other than the two style markers, nor the submit
    button. A control that no entry of the map resolves to keeps its whole
    class list and its custom-validity message as well; what may change for
    it is the feedback text alone, and not even that when its parent holds
    no feedback element. *)
Theorem validateFormWithCustom_frame
    (validators : Validators.Registry) (form : Dom.Form)
    (fieldValidators : list (string * list Validators.ValidatorConfig)) :
  let after :=
    Validators.form_after
      (Validators.validateFormWithCustom validators form fieldValidators) in
  Forall2 markers_only (Dom.controls form) (Dom.controls after)
  /\ Dom.submitDisabled after = Dom.submitDisabled form
  /\ (forall i e,
        Dom.controls form !! i = Some e ->
        (forall entry, In entry fieldValidators -> ~ resolves form (fst entry) i e) ->
        exists e',
          Dom.controls after !! i = Some e'
          /\ same_but_feedback e e'
          /\ (Dom.feedback e = None -> e' = e)).
Proof.
  intros after. unfold after, Validators.validateFormWithCustom.
  set (start := if negb (Dom.form_checkValidity form) then _ else _).
  assert (Hstart : Dom.controls (Validators.form_after start) = Dom.controls form
                   /\ Dom.submitDisabled (Validators.form_after start)
                      = Dom.submitDisabled form)
    by (unfold start; now destruct (Dom.form_checkValidity form)).
  destruct Hstart as [Hc Hs].
  destruct (fold_entries_frame validators fieldValidators start)
    as (Hall & Hsub & Hkeep).
  cbv zeta in Hall, Hsub, Hkeep.
  set (acc := fold_left (Validators.validate_entry validators) fieldValidators start)
    in *.
  assert (Hout : forall out,
            out = (if negb (Validators.allValid acc)
                   then Validators.mkFormOutcome false
                          (Dom.set_formClasses (Validators.form_after acc)
                             (Dom.add (Dom.formClasses (Validators.form_after acc))
                                "was-validated"))
                          (Validators.runs acc)
                   else acc) ->
            Dom.controls (Validators.form_after out)
            = Dom.controls (Validators.form_after acc)
            /\ Dom.submitDisabled (Validators.form_after out)
               = Dom.submitDisabled (Validators.form_after acc)).
  { intros out ->. now destruct (Validators.allValid acc). }
  destruct (Hout _ eq_refl) as [Hoc Hos]. rewrite Hoc, Hos.
  split; [now rewrite <- Hc|]. split; [congruence|].
  intros i e Hi Hnone. exists e.
  split; [|split; [unfold same_but_feedback, same_control; tauto | reflexivity]].
  rewrite Hkeep, Hc; [exact Hi|].
  intros entry Hin Hidx. rewrite Hc in Hidx.
  apply (Hnone entry Hin). apply querySelector_name_Some.
  unfold Dom.querySelector_name. now rewrite Hidx, Hi.
Qed.

Lemma checkValidity_applyValidState input :
  Dom.checkValidity input = true ->
  Dom.checkValidity (Validators.applyValidState input) = true.
Proof.
  unfold Dom.checkValidity, Dom.suffering. simpl.
  destruct (Dom.willValidate input), (Dom.builtinInvalid input); simpl; auto.
Qed.

Lemma forallb_insert_checkValidity cs i e :
  forallb Dom.checkValidity cs = true ->
  Dom.checkValidity e = true ->
  forallb Dom.checkValidity (<[i := e]> cs) = true.
Proof.
  revert i. induction cs as [|c cs IH]; intros i Hall He; [reflexivity|].
  simpl in Hall. apply andb_true_iff in Hall as [Hc Hcs].
  destruct i as [|i]; simpl.
  - now rewrite He, Hcs.
  - now rewrite Hc, IH.
Qed.

(** While the result stays true the loop keeps every control natively
    valid. *)
Lemma fold_entries_keeps_native validators entries acc :
  Dom.form_checkValidity (Validators.form_after acc) = true ->
  Validators.allValid
    (fold_left (Validators.validate_entry validators) entries acc) = true ->
  Dom.form_checkValidity
    (Validators.form_after
       (fold_left (Validators.validate_entry validators) entries acc)) = true.
Proof.
  revert acc. induction entries as [|[name configs] rest IH]; intros acc Hnative Hok;
    [assumption|].
  simpl in *. apply IH; [|assumption].
  destruct (fold_entries_runs validators
              (Validators.form_after
                 (Validators.validate_entry validators acc (name, configs)))
              rest _ eq_refl) as (new & _ & _ & Hall).
  rewrite Hall in Hok. apply andb_true_iff in Hok as [Hstep _].
  destruct (validate_entry_cases validators acc name configs)
    as [[_ Hacc]|[_ (i & input & (Hi & _) & Hacc)]]; rewrite Hacc in *;
    [assumption|].
  simpl in *. apply andb_true_iff in Hstep as [_ Hr].
  destruct (runValidators_success _ _ _ _ Hr) as [Hin He]. rewrite He.
  unfold Dom.form_checkValidity, Dom.write_back. simpl.
  apply forallb_insert_checkValidity; [exact Hnative|].
  now apply checkValidity_applyValidState.
Qed.

(** What a true return guarantees. The form passed the native check before
    the call and passes it after; every runner call of the loop returned
    true; and, the field names of the map being distinct, every field of
    the map that exists in the form is left marked valid with an empty
    custom-validity message. *)
Theorem validateFormWithCustom_success
    (validators : Validators.Registry) (form : Dom.Form)
    (fieldValidators : list (string * list Validators.ValidatorConfig)) :
  let out := Validators.validateFormWithCustom validators form fieldValidators in
  Validators.allValid out = true ->
  Dom.form_checkValidity form = true
  /\ Dom.form_checkValidity (Validators.form_after out) = true
  /\ forallb Validators.fieldValid (Validators.runs out) = true
  /\ (List.NoDup (map fst fieldValidators) ->
      forall name configs i input,
        In (name, configs) fieldValidators ->
        resolves form name i input ->
        exists after,
          Dom.controls (Validators.form_after out) !! i = Some after
          /\ marked_valid after
          /\ Dom.customValidity after = "").
Proof.
  intros out Hok.
  destruct (validateFormWithCustom_loop validators form fieldValidators)
    as (start & Hnative & Hnone & Hcontrols & Hall & Hruns & Hctl & _).
  fold out in Hall, Hruns, Hctl. cbv zeta in Hall, Hruns, Hctl.
  assert (Hnames : names (Validators.form_after start) = names form)
    by (unfold names; now rewrite Hcontrols).
  destruct (fold_entries_runs validators form fieldValidators start Hnames)
    as (new & Hnew & _ & Hand).
  rewrite Hnone in Hnew. simpl in Hnew.
  rewrite Hall, Hand, Hnative in Hok. apply andb_true_iff in Hok as [Hform Hfields].
  split; [exact Hform|]. split; [|split].
  - unfold Dom.form_checkValidity. rewrite Hctl.
    apply (fold_entries_keeps_native validators fieldValidators start).
    + unfold Dom.form_checkValidity. now rewrite Hcontrols.
    + now rewrite Hand, Hnative, Hform, Hfields.
  - now rewrite Hruns, Hnew.
  - intros Hnodup name configs i input Hin Hres.
    assert (Hres' : resolves (Validators.form_after start) name i input).
    { unfold resolves in *. now rewrite Hcontrols. }
    destruct (fold_entries_evaluates validators fieldValidators start
                name configs i input Hnodup Hin Hres')
      as (form_k & _ & _ & Hrun & Hleft).
    cbv zeta in Hrun, Hleft. rewrite Hnew in Hrun.
    assert (Hr : Validators.result
                   (Validators.runValidators validators input configs form_k) = true).
    { rewrite forallb_forall in Hfields. apply (Hfields _ Hrun). }
    destruct (runValidators_success _ _ _ _ Hr) as [_ He].
    eexists. split; [rewrite Hctl; exact Hleft|]. rewrite He.
    apply applyValidState_marked.
Qed.

Lemma validateFormWithCustom_success_witness :
  let form := Samples.range_form "2030-01-01T00:00" "2030-01-02T00:00" in
  let out :=
    Validators.validateFormWithCustom (@Validators.validators IsoMinutes.parser) form
      [("endDateTime", [Validators.CfgObject Samples.range_options])] in
  Dom.form_checkValidity (Validators.form_after out) = true.
Proof.
  apply (validateFormWithCustom_success (@Validators.validators IsoMinutes.parser)
           (Samples.range_form "2030-01-01T00:00" "2030-01-02T00:00")
           [("endDateTime", [Validators.CfgObject Samples.range_options])]).
  reflexivity.
Defined.

(** ** Escaping *)

Lemma length_append s t :
  String.length (s +:+ t) = String.length s + String.length t.
Proof. induction s as [|c s IH]; simpl; [reflexivity | now rewrite IH]. Qed.

Lemma length_replace_special s :
  String.length s <= String.length (Helpers.replace_special s)
  /\ (has_special s = true ->
      String.length s < String.length (Helpers.replace_special s)).
Proof.
  unfold has_special. induction s as [|c s [IHle IHlt]]; simpl.
  - split; [lia | discriminate].
  - destruct (Helpers.is_special c) eqn:E; simpl.
    + assert (Hlen : 4 <= String.length (Helpers.entity_map c)).
      { apply is_special_cases in E as [->|[->|[->|[->| ->]]]]; simpl; lia. }
      rewrite length_append. split; [lia | intros _; lia].
    + split; [lia|]. intros Hs. specialize (IHlt Hs). lia.
Qed.

Lemma replace_special_plain s :
  has_special s = false -> Helpers.replace_special s = s.
Proof.
  unfold has_special. induction s as [|c s IH]; simpl; [reflexivity|].
  destruct (Helpers.is_special c); simpl; [discriminate|].
  intros Hs. now rewrite IH.
Qed.

Lemma has_special_append s t :
  has_special (s +:+ t) = has_special s || has_special t.
Proof.
  unfold has_special. induction s as [|c s IH]; simpl; [reflexivity|].
  rewrite IH. now rewrite orb_assoc.
Qed.

Lemma has_special_replace s :
  has_special (Helpers.replace_special s) = has_special s.
Proof.
  induction s as [|c s IH]; simpl; [reflexivity|].
  destruct (Helpers.is_special c) eqn:E.
  - rewrite has_special_append.
    assert (Hent : has_special (Helpers.entity_map c) = true).
    { apply is_special_cases in E as [->|[->|[->|[->| ->]]]]; reflexivity. }
    rewrite Hent. unfold has_special. simpl. now rewrite E.
  - unfold has_special in *. simpl. now rewrite E, IH.
Qed.

(** [escapeHTML] leaves a string as it is exactly when the string holds
    none of the five characters, and it is not idempotent: escaping an
    escaped string changes it again whenever the original held one of them.
    A value that is not a string is returned as it is. *)
Theorem escapeHTML_fixed_points (s : string) :
  (Helpers.escapeHTML (JStr s) = JStr s <-> has_special s = false)
  /\ (Helpers.escapeHTML (Helpers.escapeHTML (JStr s)) = Helpers.escapeHTML (JStr s)
      <-> has_special s = false)
  /\ (forall v, (forall t, v <> JStr t) -> Helpers.escapeHTML v = v).
Proof.
  assert (Hfix : forall t, Helpers.replace_special t = t <-> has_special t = false).
  { intros t. split.
    - intros Heq. destruct (has_special t) eqn:E; [|reflexivity].
      pose proof (proj2 (length_replace_special t) E) as Hlt.
      rewrite Heq in Hlt. lia.
    - apply replace_special_plain. }
  split; [|split].
  - simpl. rewrite <- Hfix. split; [intros [= Heq]; exact Heq | intros ->; reflexivity].
  - simpl. rewrite <- has_special_replace, <- Hfix.
    split; [intros [= Heq]; exact Heq | intros ->; reflexivity].
  - intros v Hv. destruct v; try reflexivity. now destruct (Hv s0).
Qed.

(** ** The form data *)

Lemma prop_collect data key value k :
  prop (Helpers.collect data (key, value)) k
  = if String.eqb key k then held_after (prop data k) value else prop data k.
Proof.
  unfold Helpers.collect, held_after.
  destruct (String.eqb_spec key k) as [->|Hne].
  - destruct (truthy (prop data k)) eqn:E.
    + destruct (prop data k) eqn:P; unfold prop in *;
        rewrite ?lookup_insert_eq; simpl; try reflexivity; now rewrite P.
    + unfold prop. now rewrite lookup_insert_eq.
  - destruct (truthy (prop data key)).
    + destruct (prop data key); unfold prop;
        rewrite ?lookup_insert_ne by assumption; reflexivity.
    + unfold prop. now rewrite lookup_insert_ne by assumption.
Qed.

Lemma prop_fold_collect entries data k :
  prop (fold_left Helpers.collect entries data) k
  = fold_left held_after (values_of k entries) (prop data k).
Proof.
  revert data. induction entries as [|[key value] rest IH]; intros data;
    [reflexivity|].
  cbn [fold_left]. rewrite IH, prop_collect. unfold values_of.
  cbn [List.filter fst]. destruct (String.eqb key k); reflexivity.
Qed.

Lemma held_after_array values items :
  fold_left held_after values (JArr items) = JArr (items ++ values).
Proof.
  revert items. induction values as [|v rest IH]; intros items; cbn [fold_left].
  - now rewrite app_nil_r.
  - change (held_after (JArr items) v) with (JArr (items ++ [v])).
    rewrite IH, <- app_assoc. reflexivity.
Qed.

Lemma held_after_first values first :
  first <> "" ->
  fold_left held_after values (JStr first)
  = match values with
    | [] => JStr first
    | _ :: _ => JArr (first :: values)
    end.
Proof.
  intros Hne. destruct values as [|v rest]; [reflexivity|].
  cbn [fold_left].
  assert (Hstep : held_after (JStr first) v = JArr [first; v]).
  { unfold held_after. change (truthy (JStr first)) with (truthy_str first).
    apply truthy_str_true in Hne. now rewrite Hne. }
  rewrite Hstep. apply held_after_array.
Qed.

Lemma held_after_start v rest current :
  truthy current = false ->
  fold_left held_after (v :: rest) current
  = match drop_empty (v :: rest) with
    | [] => JStr ""
    | [w] => JStr w
    | many => JArr many
    end.
Proof.
  revert v current. induction rest as [|v' rest IH]; intros v current Hfalsy.
  - cbn [fold_left]. unfold held_after. rewrite Hfalsy.
    destruct v as [|c v]; reflexivity.
  - change (fold_left held_after (v :: v' :: rest) current)
      with (fold_left held_after (v' :: rest) (held_after current v)).
    unfold held_after at 2. rewrite Hfalsy.
    destruct v as [|c v].
    + rewrite IH by reflexivity. reflexivity.
    + rewrite held_after_first by discriminate. reflexivity.
Qed.

(** [getFormData] by key, for a key that is no member of
    [Object.prototype] and a form that sends no entry named [__proto__]
    (which would replace the prototype of the object and with it what every
    key reads). A key with no entry reads as undefined; a key with one entry
    holds its value; a key with several entries holds the sequence of its
    values in order, except that empty values before the first non-empty
    one are dropped (an empty value is overwritten by the next one instead
    of starting a sequence). *)
Theorem getFormData_by_key (entries : list (string * string)) (k : string) :
  inherited k = false ->
  ~ In "__proto__" (map fst entries) ->
  prop (Helpers.getFormData entries) k = collected (values_of k entries).
Proof.
  intros _ _. unfold Helpers.getFormData. rewrite prop_fold_collect.
  unfold collected. destruct (values_of k entries) as [|v rest]; [reflexivity|].
  now apply held_after_start.
Qed.

Lemma getFormData_by_key_witness :
  prop (Helpers.getFormData [("tag", "a"); ("constructor", "x"); ("tag", "b")]) "tag"
  = JArr ["a"; "b"].
Proof.
  apply (getFormData_by_key [("tag", "a"); ("constructor", "x"); ("tag", "b")] "tag").
  - reflexivity.
  - simpl. intros [H|[H|[H|[]]]]; discriminate H.
Defined.

(** The entries of the design document's data model and the edge the code
    adds to it. *)
Example getFormData_vectors :
  let data :=
    Helpers.getFormData
      [("name", "ann"); ("tag", "a"); ("tag", "b"); ("opt", ""); ("opt", "x")] in
  prop data "name" = JStr "ann"
  /\ prop data "tag" = JArr ["a"; "b"]
  /\ prop data "opt" = JStr "x"
  /\ prop data "none" = JUndefined.
Proof. vm_compute. repeat split. Qed.

(** ** The loading state of a button *)

(** Showing and then hiding the loading state enables the button, whatever
    its state was, and restores its content when that was not empty; an
    empty content is not restored, the loading markup stays. Showing the
    loading state twice in a row loses the content: hiding it then leaves
    the loading markup. Hiding a state that was never shown only enables
    the button. *)
Theorem setButtonLoading_round_trip (button : HelpersRest.Button) :
  let shown := HelpersRest.setButtonLoading button true in
  let hidden := HelpersRest.setButtonLoading shown false in
  HelpersRest.disabled shown = true
  /\ HelpersRest.innerHTML shown = HelpersRest.spinner
  /\ HelpersRest.disabled hidden = false
  /\ (HelpersRest.innerHTML button <> "" ->
        HelpersRest.innerHTML hidden = HelpersRest.innerHTML button)
  /\ (HelpersRest.innerHTML button = "" ->
        HelpersRest.innerHTML hidden = HelpersRest.spinner)
  /\ HelpersRest.innerHTML
       (HelpersRest.setButtonLoading
          (HelpersRest.setButtonLoading shown true) false)
     = HelpersRest.spinner
  /\ (HelpersRest.originalText button = None ->
        HelpersRest.setButtonLoading button false
        = HelpersRest.mkButton (HelpersRest.innerHTML button) false None).
Proof.
  intros shown hidden. unfold hidden, shown, HelpersRest.setButtonLoading. simpl.
  repeat split.
  - intros Hne. apply truthy_str_true in Hne. now rewrite Hne.
  - intros ->. reflexivity.
  - intros ->. reflexivity.
Qed.

(** ** The checks of the submit handler *)

Lemma validateDateTimeRange_accepts `{DateParser} startDateTime endDateTime :
  Validators.valid (Helpers.validateDateTimeRange startDateTime endDateTime) = true ->
  truthy startDateTime = true /\ truthy endDateTime = true
  /\ exists start finish,
       Helpers.new_Date startDateTime = Some start
       /\ Helpers.new_Date endDateTime = Some finish
       /\ (start < finish)%Z.
Proof.
  unfold Helpers.validateDateTimeRange.
  destruct (truthy startDateTime); simpl; [|discriminate].
  destruct (truthy endDateTime); simpl; [|discriminate].
  destruct (Helpers.new_Date startDateTime) as [start|]; [|discriminate].
  destruct (Helpers.new_Date endDateTime) as [finish|]; [|discriminate].
  destruct (Z.leb_spec finish start); [discriminate|].
  intros _. repeat split. exists start, finish. auto.
Qed.

(** When the range is refused the message is one of three fixed texts. *)
Lemma validateDateTimeRange_message `{DateParser} startDateTime endDateTime :
  Validators.valid (Helpers.validateDateTimeRange startDateTime endDateTime) = false ->
  exists text,
    Validators.message (Helpers.validateDateTimeRange startDateTime endDateTime)
    = JStr text /\ text <> "".
Proof.
  unfold Helpers.validateDateTimeRange.
  destruct (negb (truthy startDateTime) || negb (truthy endDateTime));
    [intros _; eexists; split; [reflexivity | discriminate]|].
  destruct (Helpers.new_Date startDateTime) as [start|];
    [|intros _; eexists; split; [reflexivity | discriminate]].
  destruct (Helpers.new_Date endDateTime) as [finish|];
    [|intros _; eexists; split; [reflexivity | discriminate]].
  destruct (finish <=? start)%Z; [|discriminate].
  intros _; eexists; split; [reflexivity | discriminate].
Qed.

(** The handler by cases. *)
Lemma submit_checks_cases `{DateParser} form entries :
  let formData := Helpers.getFormData entries in
  let dateValidation :=
    Helpers.validateDateTimeRange (prop formData "startDateTime")
      (prop formData "endDateTime") in
  (Dom.form_checkValidity form = false
   /\ FormInit.submit_checks form entries
      = (FormInit.NativeRejected,
         Dom.set_formClasses form (Dom.add (Dom.formClasses form) "was-validated")))
  \/ (Dom.form_checkValidity form = true
      /\ Validators.valid dateValidation = true
      /\ FormInit.submit_checks form entries = (FormInit.Accepted formData, form))
  \/ (Dom.form_checkValidity form = true
      /\ Validators.valid dateValidation = false
      /\ absent form "endDateTime"
      /\ FormInit.submit_checks form entries = (FormInit.Thrown, form))
  \/ (Dom.form_checkValidity form = true
      /\ Validators.valid dateValidation = false
      /\ exists i endInput,
           resolves form "endDateTime" i endInput
           /\ FormInit.submit_checks form entries
              = (FormInit.RangeRejected (Validators.message dateValidation),
                 Dom.set_formClasses
                   (Dom.write_back form i
                      (Dom.setCustomValidity endInput
                         (ToString (Validators.message dateValidation))))
                   (Dom.add (Dom.formClasses form) "was-validated"))).
Proof.
  intros formData dateValidation.
  unfold FormInit.submit_checks, Helpers.validateForm.
  destruct (Dom.form_checkValidity form); simpl; [|left; auto].
  right. fold formData. fold dateValidation.
  destruct (Validators.valid dateValidation); simpl; [left; auto|].
  right.
  destruct (Dom.querySelector_name form "endDateTime") as [[i endInput]|] eqn:E.
  - right. repeat split. exists i, endInput.
    split; [now apply querySelector_name_Some | reflexivity].
  - left. repeat split. now apply querySelector_name_None.
Qed.

Lemma prop_submissionData_other `{DateParser} `{IsoFormatter} formData k :
  k <> "startDateTime" -> k <> "endDateTime" ->
  prop (FormInitRest.submissionData formData) k = prop formData k.
Proof.
  intros Hs He. unfold FormInitRest.submissionData, prop.
  now rewrite !lookup_insert_ne by congruence.
Qed.

(** The handler goes on to submit only with the form natively valid and
    left as it was, and with a start and an end that are both present, both
    parse, with the end strictly after the start. The payload then holds
    the two dates as ISO texts of those instants, never null, and every
    other entry of the form data as it was. *)
Theorem submit_accepts_ordered_dates `{DateParser} `{IsoFormatter}
    (form : Dom.Form) (entries : list (string * string))
    (formData : gmap string JsVal) :
  fst (FormInit.submit_checks form entries) = FormInit.Accepted formData ->
  formData = Helpers.getFormData entries
  /\ Dom.form_checkValidity form = true
  /\ snd (FormInit.submit_checks form entries) = form
  /\ (exists start finish,
        Helpers.new_Date (prop formData "startDateTime") = Some start
        /\ Helpers.new_Date (prop formData "endDateTime") = Some finish
        /\ (start < finish)%Z
        /\ prop (FormInitRest.submissionData formData) "startDateTime"
           = JStr (Date_toISOString start)
        /\ prop (FormInitRest.submissionData formData) "endDateTime"
           = JStr (Date_toISOString finish))
  /\ (forall k, k <> "startDateTime" -> k <> "endDateTime" ->
        prop (FormInitRest.submissionData formData) k = prop formData k).
Proof.
  intros Haccept.
  destruct (submit_checks_cases form entries)
    as [[_ Hc]|[(Hn & Hv & Hc)|[(_ & _ & _ & Hc)|(_ & _ & i & e & _ & Hc)]]];
    rewrite Hc in Haccept; simpl in Haccept; try discriminate.
  injection Haccept as <-. rewrite Hc. simpl.
  split; [reflexivity|]. split; [exact Hn|]. split; [reflexivity|].
  split; [|intros k; apply prop_submissionData_other].
  destruct (validateDateTimeRange_accepts _ _ Hv)
    as (Hts & Hte & start & finish & Hs & He & Hlt).
  exists start, finish. repeat split; try assumption.
  - unfold FormInitRest.submissionData, prop at 1.
    rewrite lookup_insert_ne by discriminate. rewrite lookup_insert_eq. simpl.
    unfold HelpersRest.formatDateTimeForAPI. now rewrite Hts, Hs.
  - unfold FormInitRest.submissionData, prop at 1.
    rewrite lookup_insert_eq. simpl.
    unfold HelpersRest.formatDateTimeForAPI. now rewrite Hte, He.
Qed.

Lemma submit_accepts_witness :
  let entries :=
    [("title", "launch"); ("startDateTime", "2030-01-01T00:00");
     ("endDateTime", "2030-01-02T00:00")] in
  prop (@FormInitRest.submissionData IsoMinutes.parser (fun t => "iso")
          (Helpers.getFormData entries)) "title" = JStr "launch".
Proof.
  pose proof (submit_accepts_ordered_dates (H := IsoMinutes.parser)
                (H0 := fun t => "iso")
                (Samples.range_form "2030-01-01T00:00" "2030-01-02T00:00")
                [("title", "launch"); ("startDateTime", "2030-01-01T00:00");
                 ("endDateTime", "2030-01-02T00:00")]
                (Helpers.getFormData
                   [("title", "launch"); ("startDateTime", "2030-01-01T00:00");
                    ("endDateTime", "2030-01-02T00:00")])
                eq_refl) as (_ & _ & _ & _ & Hother).
  intros entries. unfold entries.
  rewrite (Hother "title"); [reflexivity | discriminate | discriminate].
Defined.



Lemma forallb_insert_invalid cs i old e :
  cs !! i = Some old ->
  Dom.checkValidity e = false ->
  forallb Dom.checkValidity (<[i := e]> cs) = false.
Proof.
  revert i. induction cs as [|c cs IH]; intros i Hi He; [discriminate|].
  destruct i as [|i]; simpl in *.
  - now rewrite He.
  - rewrite (IH i Hi He). apply andb_false_r.
Qed.

Lemma forallb_checkValidity_lookup cs i e :
  forallb Dom.checkValidity cs = true -> cs !! i = Some e -> Dom.checkValidity e = true.
Proof.
  intros Hall Hi. rewrite forallb_forall in Hall. apply Hall.
  apply list_elem_of_In. eapply list_elem_of_lookup_2; eauto.
Qed.

Lemma checkValidity_cleared e :
  Dom.checkValidity e = true ->
  Dom.checkValidity (Dom.setCustomValidity e "") = true.
Proof.
  unfold Dom.checkValidity, Dom.suffering. simpl.
  destruct (Dom.willValidate e), (Dom.builtinInvalid e); simpl; auto.
Qed.

Lemma checkValidity_cleared_message e text :
  Dom.checkValidity e = true ->
  Dom.checkValidity (Dom.setCustomValidity (Dom.setCustomValidity e text) "") = true.
Proof. exact (checkValidity_cleared e). Qed.

(** A refused date range blocks the form. When the handler refuses the
    range and the end control takes part in constraint validation, the
    message it attaches makes the native check fail from then on: every
    later submission stops at the native check, whatever the dates are by
    then. *)
Theorem range_rejection_blocks_resubmission `{DateParser}
    (form : Dom.Form) (entries : list (string * string))
    (message : JsVal) (i : nat) (endInput : Dom.Element) :
  fst (FormInit.submit_checks form entries) = FormInit.RangeRejected message ->
  resolves form "endDateTime" i endInput ->
  Dom.willValidate endInput = true ->
  let rejected := snd (FormInit.submit_checks form entries) in
  Dom.controls rejected !! i
  = Some (Dom.setCustomValidity endInput (ToString message))
  /\ ToString message <> ""
  /\ Dom.contains (Dom.formClasses rejected) "was-validated" = true
  /\ forall entries',
       fst (FormInit.submit_checks rejected entries') = FormInit.NativeRejected.
Proof.
  intros Hrej Hres Hwill rejected. unfold rejected.
  destruct (submit_checks_cases form entries)
    as [[_ Hc]|[(_ & _ & Hc)|[(_ & _ & _ & Hc)|(Hn & Hv & j & e & Hr & Hc)]]];
    rewrite Hc in Hrej |- *; simpl in Hrej |- *; try discriminate.
  injection Hrej as <-.
  destruct (resolves_unique _ _ _ _ _ _ Hr Hres) as [-> ->].
  destruct (validateDateTimeRange_message _ _ Hv) as (text & Hmsg & Htext).
  cbv zeta in Hmsg. rewrite Hmsg. simpl.
  destruct Hres as (Hi & _).
  split; [apply list_lookup_insert_eq; eapply lookup_lt_Some; eauto|].
  split; [exact Htext|]. split; [apply contains_add_same|].
  intros entries'.
  destruct (submit_checks_cases
              (Dom.set_formClasses
                 (Dom.write_back form i (Dom.setCustomValidity endInput text))
                 (Dom.add (Dom.formClasses form) "was-validated")) entries')
    as [[_ Hc']|[(Hn' & _)|[(Hn' & _)|(Hn' & _)]]];
    [now rewrite Hc'| | |];
    exfalso; unfold Dom.form_checkValidity in Hn'; simpl in Hn';
    rewrite (forallb_insert_invalid _ _ _ _ Hi) in Hn'; try discriminate;
    apply checkValidity_custom_message; auto.
Qed.

Lemma range_rejection_witness :
  fst (@FormInit.submit_checks IsoMinutes.parser
         (snd (@FormInit.submit_checks IsoMinutes.parser
                 (Samples.range_form "2030-01-02T00:00" "2030-01-01T00:00")
                 [("startDateTime", "2030-01-02T00:00");
                  ("endDateTime", "2030-01-01T00:00")]))
         [("startDateTime", "2030-01-01T00:00"); ("endDateTime", "2030-01-02T00:00")])
  = FormInit.NativeRejected.
Proof.
  apply (range_rejection_blocks_resubmission (H := IsoMinutes.parser)
           (Samples.range_form "2030-01-02T00:00" "2030-01-01T00:00")
           [("startDateTime", "2030-01-02T00:00"); ("endDateTime", "2030-01-01T00:00")]
           (JStr "End date/time must be after start date/time.")
           1 (Samples.field "endDateTime" "2030-01-01T00:00")).
  - reflexivity.
  - apply querySelector_name_Some. reflexivity.
  - reflexivity.
Defined.
Lemma forallb_checkValidity_intro cs :
  (forall j e, cs !! j = Some e -> Dom.checkValidity e = true) ->
  forallb Dom.checkValidity cs = true.
Proof.
  intros Hall. apply forallb_forall. intros e Hin.
  apply list_elem_of_In, list_elem_of_lookup in Hin as [j Hj]. eauto.
Qed.

Lemma checkValidity_sweep_input e :
  Dom.checkValidity (snd (FormInit.sweep_input e)) = Dom.checkValidity e.
Proof.
  pose proof (sweep_input_spec e) as Hspec.
  destruct (FormInit.sweep_input e) as [keep e'].
  destruct Hspec as (_ & -> & _). reflexivity.
Qed.

Lemma form_checkValidity_sweep form :
  Dom.form_checkValidity (snd (FormInit.validateFormFields form))
  = Dom.form_checkValidity form.
Proof.
  pose proof (validateFormFields_spec form) as Hspec.
  destruct (FormInit.validateFormFields form) as [allValid after].
  destruct Hspec as (_ & Hcontrols & _). simpl.
  unfold Dom.form_checkValidity. rewrite Hcontrols. clear Hcontrols.
  induction (Dom.controls form) as [|c cs IH]; simpl; [reflexivity|].
  rewrite IH. destruct (Dom.required c); [|reflexivity].
  now rewrite checkValidity_sweep_input.
Qed.

(** What unblocks the form. After the handler has refused a date range,
    [resetValidation] lets the next submission pass the native check again,
    and so does a change of the picker of the end control. *)
Theorem blocked_form_recovers `{DateParser}
    (form : Dom.Form) (entries : list (string * string))
    (message : JsVal) (i : nat) (endInput : Dom.Element) :
  fst (FormInit.submit_checks form entries) = FormInit.RangeRejected message ->
  resolves form "endDateTime" i endInput ->
  let rejected := snd (FormInit.submit_checks form entries) in
  Dom.form_checkValidity (Helpers.resetValidation rejected) = true
  /\ Dom.form_checkValidity (FormInit.onChange rejected i) = true
  /\ forall entries',
       fst (FormInit.submit_checks (Helpers.resetValidation rejected) entries')
       <> FormInit.NativeRejected
       /\ fst (FormInit.submit_checks (FormInit.onChange rejected i) entries')
          <> FormInit.NativeRejected.
Proof.
  intros Hrej Hres rejected. unfold rejected.
  destruct (submit_checks_cases form entries)
    as [[_ Hc]|[(_ & _ & Hc)|[(_ & _ & _ & Hc)|(Hn & Hv & j & e & Hr & Hc)]]];
    rewrite Hc in Hrej |- *; simpl in Hrej |- *; try discriminate.
  injection Hrej as <-.
  destruct (resolves_unique _ _ _ _ _ _ Hr Hres) as [-> ->].
  set (text := ToString _). destruct Hres as (Hi & _).
  assert (Hlen : i < length (Dom.controls form)) by (eapply lookup_lt_Some; eauto).
  assert (Hreset : Dom.form_checkValidity
                     (Helpers.resetValidation
                        (Dom.set_formClasses
                           (Dom.write_back form i (Dom.setCustomValidity endInput text))
                           (Dom.add (Dom.formClasses form) "was-validated"))) = true).
  { unfold Dom.form_checkValidity, Helpers.resetValidation. simpl.
    apply forallb_checkValidity_intro. intros k c.
    rewrite list_lookup_fmap. destruct (Nat.eq_dec i k) as [<-|Hik].
    - rewrite list_lookup_insert_eq by assumption. simpl. intros [= <-].
      apply checkValidity_cleared_message.
      eapply forallb_checkValidity_lookup; eauto.
    - rewrite list_lookup_insert_ne by assumption.
      destruct (Dom.controls form !! k) as [c0|] eqn:Hk; simpl; [|discriminate].
      intros [= <-]. apply checkValidity_cleared.
      eapply forallb_checkValidity_lookup; eauto. }
  assert (Hchange : Dom.form_checkValidity
                      (FormInit.onChange
                         (Dom.set_formClasses
                            (Dom.write_back form i (Dom.setCustomValidity endInput text))
                            (Dom.add (Dom.formClasses form) "was-validated")) i) = true).
  { unfold FormInit.onChange. simpl.
    rewrite list_lookup_insert_eq by assumption.
    rewrite form_checkValidity_sweep.
    unfold Dom.form_checkValidity, Dom.write_back. simpl.
    apply forallb_checkValidity_intro. intros k c.
    destruct (Nat.eq_dec i k) as [<-|Hik].
    - rewrite list_lookup_insert_eq by (now rewrite length_insert).
      intros [= <-].
      change (Dom.checkValidity
                (Dom.setCustomValidity (Dom.setCustomValidity endInput text) "")
              = true).
      apply checkValidity_cleared_message.
      exact (forallb_checkValidity_lookup _ _ _ Hn Hi).
    - rewrite !list_lookup_insert_ne by assumption. intros Hk.
      exact (forallb_checkValidity_lookup _ _ _ Hn Hk). }
  split; [exact Hreset|]. split; [exact Hchange|].
  intros entries'. split.
  - destruct (submit_checks_cases (Helpers.resetValidation
               (Dom.set_formClasses
                  (Dom.write_back form i (Dom.setCustomValidity endInput text))
                  (Dom.add (Dom.formClasses form) "was-validated"))) entries')
      as [[Hn' _]|[(_ & _ & ->)|[(_ & _ & _ & ->)|(_ & _ & ? & ? & _ & ->)]]];
      [congruence | discriminate..].
  - destruct (submit_checks_cases (FormInit.onChange
               (Dom.set_formClasses
                  (Dom.write_back form i (Dom.setCustomValidity endInput text))
                  (Dom.add (Dom.formClasses form) "was-validated")) i) entries')
      as [[Hn' _]|[(_ & _ & ->)|[(_ & _ & _ & ->)|(_ & _ & ? & ? & _ & ->)]]];
      [congruence | discriminate..].
Qed.

Lemma blocked_form_recovers_witness :
  fst (@FormInit.submit_checks IsoMinutes.parser
         (Helpers.resetValidation
            (snd (@FormInit.submit_checks IsoMinutes.parser
                    (Samples.range_form "2030-01-02T00:00" "2030-01-01T00:00")
                    [("startDateTime", "2030-01-02T00:00");
                     ("endDateTime", "2030-01-01T00:00")])))
         [("startDateTime", "2030-01-01T00:00"); ("endDateTime", "2030-01-02T00:00")])
  <> FormInit.NativeRejected.
Proof.
  apply (blocked_form_recovers (H := IsoMinutes.parser)
           (Samples.range_form "2030-01-02T00:00" "2030-01-01T00:00")
           [("startDateTime", "2030-01-02T00:00"); ("endDateTime", "2030-01-01T00:00")]
           (JStr "End date/time must be after start date/time.")
           1 (Samples.field "endDateTime" "2030-01-01T00:00")).
  - reflexivity.
  - apply querySelector_name_Some. reflexivity.
Defined.

(** ** The sweep and the reset listener *)

Lemma add_present classes c :
  Dom.contains classes c = true -> Dom.add classes c = classes.
Proof. intros Hin. unfold Dom.add. now rewrite Hin. Qed.

Lemma sweep_input_idempotent input :
  FormInit.sweep_input (snd (FormInit.sweep_input input)) = FormInit.sweep_input input.
Proof.
  unfold FormInit.sweep_input.
  set (empty := if String.eqb (Dom.type input) "select-one" then _ else _).
  destruct empty eqn:Hempty; simpl; fold empty; rewrite Hempty.
  - destruct (Dom.contains (Dom.classList input) "was-validated-field") eqn:Ht.
    + rewrite contains_add_other, contains_remove_other, Ht by discriminate.
      rewrite (remove_absent (Dom.add _ _))
        by (rewrite contains_add_other by discriminate; apply contains_remove_same).
      now rewrite add_idempotent.
    + rewrite contains_remove_other, Ht by discriminate.
      now rewrite (remove_absent (Dom.remove _ _)) by apply contains_remove_same.
  - rewrite (remove_absent (Dom.add _ _))
      by (rewrite contains_add_other by discriminate; apply contains_remove_same).
    now rewrite add_idempotent.
Qed.

Lemma sweep_one_idempotent e :
  let sweep_one e :=
    if Dom.required e then snd (FormInit.sweep_input e) else e in
  sweep_one (sweep_one e) = sweep_one e
  /\ (if Dom.required (sweep_one e) then filled (sweep_one e) else true)
     = (if Dom.required e then filled e else true).
Proof.
  cbv zeta. destruct (Dom.required e) eqn:Hreq; [|rewrite ?Hreq; now split].
  pose proof (sweep_input_spec e) as Hspec.
  pose proof (sweep_input_idempotent e) as Hidem.
  destruct (FormInit.sweep_input e) as [keep e']. simpl in *.
  destruct Hspec as (_ & He' & _).
  assert (Hreq' : Dom.required e' = true) by (rewrite He'; exact Hreq).
  rewrite ?Hreq, Hreq', Hidem. split; [reflexivity|].
  rewrite He'. reflexivity.
Qed.

(** The sweep is idempotent: sweeping a form that has just been swept
    returns the same boolean and changes nothing. *)
Theorem validateFormFields_idempotent (form : Dom.Form) :
  FormInit.validateFormFields (snd (FormInit.validateFormFields form))
  = FormInit.validateFormFields form.
Proof.
  unfold FormInit.validateFormFields. rewrite !sweep_spec. simpl.
  set (sweep_one := fun e : Dom.Element =>
                      if Dom.required e then snd (FormInit.sweep_input e) else e).
  assert (Hall : forallb (fun e => if Dom.required e then filled e else true)
                   (map sweep_one (Dom.controls form))
                 = forallb (fun e => if Dom.required e then filled e else true)
                     (Dom.controls form)).
  { induction (Dom.controls form) as [|c cs IH]; simpl; [reflexivity|].
    rewrite IH. f_equal. apply (sweep_one_idempotent c). }
  assert (Hmap : map sweep_one (map sweep_one (Dom.controls form))
                 = map sweep_one (Dom.controls form)).
  { rewrite List.map_map. apply map_ext. intros e. apply (sweep_one_idempotent e). }
  destruct (Dom.submitDisabled form) eqn:Hsub; simpl; rewrite ?Hsub; simpl;
    rewrite Hmap, Hall; reflexivity.
Qed.

Lemma strip_marks_spec input :
  let stripped := FormInitRest.strip_marks input in
  same_control input stripped
  /\ Dom.customValidity stripped = Dom.customValidity input
  /\ Dom.contains (Dom.classList stripped) "is-valid" = false
  /\ Dom.contains (Dom.classList stripped) "is-invalid" = false
  /\ touched stripped = false.
Proof.
  unfold FormInitRest.strip_marks, same_control, touched. simpl. repeat split.
  - rewrite !contains_remove_other by discriminate. apply contains_remove_same.
  - rewrite contains_remove_other by discriminate. apply contains_remove_same.
  - apply contains_remove_same.
Qed.

Lemma filled_same_control e e' : same_control e e' -> filled e' = filled e.
Proof.
  intros (_ & Ht & Hv & _). unfold filled. now rewrite Ht, Hv.
Qed.

(** After the reset listener no control shows the invalid style and none
    is marked touched, whatever clearing the pickers did; a control shows
    the valid style exactly when it is required and holds content at that
    moment; values, names and messages are as clearing the pickers left
    them; and the submit button is enabled exactly when every required
    control holds content at that moment. *)
Theorem on_reset_leaves_no_invalid_style
    (clear : Dom.Form -> Dom.Form) (form : Dom.Form) :
  let seen := clear (Helpers.resetValidation form) in
  let after := FormInitRest.on_reset clear form in
  Dom.submitDisabled after
  = option_map (fun _ => negb (complete seen)) (Dom.submitDisabled seen)
  /\ forall i input,
       Dom.controls seen !! i = Some input ->
       exists input',
         Dom.controls after !! i = Some input'
         /\ same_control input input'
         /\ Dom.customValidity input' = Dom.customValidity input
         /\ touched input' = false
         /\ Dom.contains (Dom.classList input') "is-invalid" = false
         /\ Dom.contains (Dom.classList input') "is-valid"
            = Dom.required input && filled input.
Proof.
  intros seen after. unfold after, FormInitRest.on_reset. fold seen.
  set (stripped := Dom.set_controls seen (map FormInitRest.strip_marks (Dom.controls seen))).
  assert (Hcomplete : complete stripped = complete seen).
  { unfold complete, stripped. simpl.
    induction (Dom.controls seen) as [|c cs IH]; [reflexivity|].
    cbn [map forallb]. rewrite IH. reflexivity. }
  pose proof (validateFormFields_spec stripped) as Hspec.
  destruct (FormInit.validateFormFields stripped) as [allValid swept]. simpl.
  destruct Hspec as (_ & Hcontrols & _ & Hsubmit).
  split; [now rewrite Hsubmit, Hcomplete|].
  intros i input Hi. rewrite Hcontrols. unfold stripped. simpl.
  rewrite !list_lookup_fmap, Hi. simpl. eexists. split; [reflexivity|].
  destruct (strip_marks_spec input) as (Hsame & Hmsg & Hv & Hinv & Ht).
  cbv zeta in Hsame, Hmsg, Hv, Hinv, Ht.
  set (s := FormInitRest.strip_marks input) in *.
  assert (Hreq : Dom.required s = Dom.required input)
    by (destruct Hsame as (_ & _ & _ & _ & Hr & _); exact Hr).
  clear Hreq. destruct (Dom.required input) eqn:Hrq; simpl.
  - pose proof (sweep_input_spec s) as Hone.
    destruct (FormInit.sweep_input s) as [keep s']. simpl.
    destruct Hone as (_ & Hs' & Hother & Hfilled & Hblank).
    assert (Hsame' : same_control input s').
    { rewrite Hs'. exact Hsame. }
    split; [exact Hsame'|]. split; [rewrite Hs'; exact Hmsg|].
    split; [unfold touched in *; rewrite Hother by discriminate; exact Ht|].
    rewrite <- (filled_same_control _ _ Hsame).
    destruct (filled s) eqn:Hf.
    + destruct (Hfilled eq_refl) as [Hval Hnot]. now rewrite Hval, Hnot.
    + destruct (Hblank eq_refl) as (Hval & _ & Hkeep).
      rewrite Hval, (Hkeep Ht), Hinv. auto.
  - repeat split; try apply Hsame; assumption.
Qed.

(** ** The listeners of a required control *)

Lemma complete_insert_same form i input input' :
  Dom.controls form !! i = Some input ->
  same_control input input' ->
  complete (Dom.write_back form i input') = complete form.
Proof.
  intros Hi Hsame. unfold complete, Dom.write_back. simpl.
  revert i Hi. induction (Dom.controls form) as [|c cs IH]; intros i Hi;
    [discriminate|].
  destruct i as [|i]; simpl in *.
  - injection Hi as ->. rewrite (filled_same_control _ _ Hsame).
    destruct Hsame as (_ & _ & _ & _ & -> & _). reflexivity.
  - now rewrite (IH i Hi).
Qed.

(** Once the user has typed in a required control or left it, the control
    is marked touched and shows its state: the valid style and not the
    invalid one when it holds content, the invalid style and not the valid
    one when it does not. The submit button is enabled exactly when every
    required control of the form holds content. The change handler of a
    picker does the same after emptying the message of its control. *)
Theorem on_touch_shows_the_state (form : Dom.Form) (i : nat) (input : Dom.Element) :
  Dom.controls form !! i = Some input ->
  Dom.required input = true ->
  let after := FormInitRest.on_touch form i in
  (exists input',
      Dom.controls after !! i = Some input'
      /\ same_control input input'
      /\ touched input' = true
      /\ (filled input = true -> marked_valid input')
      /\ (filled input = false -> marked_invalid input'))
  /\ Dom.submitDisabled after
     = option_map (fun _ => negb (complete form)) (Dom.submitDisabled form)
  /\ FormInit.onChange form i
     = FormInitRest.on_touch
         (Dom.write_back form i (Dom.setCustomValidity input "")) i.
Proof.
  intros Hi Hreq after. unfold after, FormInitRest.on_touch. rewrite Hi.
  set (marked := Dom.set_classList input
                   (Dom.add (Dom.classList input) "was-validated-field")).
  assert (Hsame : same_control input marked) by (unfold same_control; simpl; tauto).
  assert (Htouched : touched marked = true)
    by (unfold touched, marked; simpl; apply contains_add_same).
  assert (Hlen : i < length (Dom.controls form)) by (eapply lookup_lt_Some; eauto).
  pose proof (complete_insert_same form i input marked Hi Hsame) as Hcomplete.
  pose proof (validateFormFields_spec (Dom.write_back form i marked)) as Hspec.
  destruct (FormInit.validateFormFields (Dom.write_back form i marked))
    as [allValid swept]. simpl.
  destruct Hspec as (_ & Hcontrols & _ & Hsubmit).
  split; [|split].
  - rewrite Hcontrols, list_lookup_fmap. unfold Dom.write_back. simpl.
    rewrite list_lookup_insert_eq by assumption. simpl.
    change (Dom.required marked) with (Dom.required input). rewrite Hreq.
    pose proof (sweep_input_spec marked) as Hone.
    destruct (FormInit.sweep_input marked) as [keep marked']. simpl.
    destruct Hone as (_ & Hm' & Hother & Hfilled & Hblank).
    rewrite (filled_same_control _ _ Hsame) in Hfilled, Hblank.
    eexists. split; [reflexivity|].
    split; [rewrite Hm'; exact Hsame|].
    split; [unfold touched in *; rewrite Hother by discriminate; exact Htouched|].
    split; [exact Hfilled|].
    intros Hempty. destruct (Hblank Hempty) as (Hv & Hinv & _).
    split; [apply Hinv; exact Htouched | exact Hv].
  - rewrite Hsubmit, Hcomplete. reflexivity.
  - unfold FormInit.onChange, FormInitRest.on_touch. rewrite Hi.
    unfold Dom.write_back at 2 4. simpl.
    rewrite list_lookup_insert_eq by assumption.
    unfold Dom.write_back. simpl. now rewrite list_insert_insert_eq.
Qed.

Lemma on_touch_witness :
  let form :=
    Dom.mkForm []
      [Samples.required_field "title" "   "; Samples.required_field "owner" "ann"]
      (Some false) in
  Dom.submitDisabled (FormInitRest.on_touch form 0)
  = option_map (fun _ => negb (complete form)) (Dom.submitDisabled form).
Proof.
  apply (on_touch_shows_the_state
           (Dom.mkForm []
              [Samples.required_field "title" "   ";
               Samples.required_field "owner" "ann"]
              (Some false))
           0 (Samples.required_field "title" "   ")); reflexivity.
Defined.

(** ** The order of two dates *)

(** [validateDateTimeRange] accepts a strict order: no value comes after
    itself, two values are never accepted in both directions, and when it
    accepts a before b and b before c it accepts a before c. *)
Theorem validateDateTimeRange_strict_order `{DateParser} (a b c : JsVal) :
  let accepts x y := Validators.valid (Helpers.validateDateTimeRange x y) in
  accepts a a = false
  /\ (accepts a b = true -> accepts b a = false)
  /\ (accepts a b = true -> accepts b c = true -> accepts a c = true).
Proof.
  cbv zeta. split; [|split].
  - unfold Helpers.validateDateTimeRange.
    destruct (truthy a); simpl; [|reflexivity].
    destruct (Helpers.new_Date a) as [t|]; [|reflexivity].
    now rewrite Z.leb_refl.
  - intros Hab.
    destruct (validateDateTimeRange_accepts _ _ Hab)
      as (Ha & Hb & s & t & Hs & Ht & Hlt).
    unfold Helpers.validateDateTimeRange. rewrite Ha, Hb, Hs, Ht. simpl.
    destruct (Z.leb_spec s t); [reflexivity | lia].
  - intros Hab Hbc.
    destruct (validateDateTimeRange_accepts _ _ Hab)
      as (Ha & Hb & s & t & Hs & Ht & Hlt).
    destruct (validateDateTimeRange_accepts _ _ Hbc)
      as (_ & Hc & t' & u & Ht' & Hu & Hlt').
    assert (t' = t) as -> by congruence.
    unfold Helpers.validateDateTimeRange. rewrite Ha, Hc, Hs, Hu. simpl.
    destruct (Z.leb_spec u s); [lia | reflexivity].
Qed.

Lemma validateDateTimeRange_order_witness :
  Validators.valid
    (@Helpers.validateDateTimeRange IsoMinutes.parser
       (JStr "2030-01-02T00:00") (JStr "2030-01-01T00:00")) = false.
Proof.
  apply (validateDateTimeRange_strict_order (H := IsoMinutes.parser)
           (JStr "2030-01-01T00:00") (JStr "2030-01-02T00:00") (JStr "")).
  reflexivity.
Defined.
